(** * Alberta land-use feasibility tool: parser, municipality resolver and
      policy heuristics, embedded from the Python sources.

    Conventions of the embedding.
    - A Python [str] is a [string] of ASCII characters, [Py.isascii]: on
      such texts the character classes, the case mappings and the
      conversions below are those of Python.  Python also classifies and
      maps characters above code 127 (a no-break space is white space, a
      full-width digit is a digit, the long s has the upper case S); the
      functions below leave those characters alone.  The theorems are
      about ASCII texts; those that rest on a character class of a pattern
      or on [str.upper] say so with the hypothesis [Py.isascii s = true].
    - A Python [float] is an IEEE-754 binary64 number, [spec_float] with
      precision 53 and maximal exponent 1024 (round to nearest, ties to even).
    - A [dict] whose iteration order matters is an association list in
      insertion order; [None] is [option]'s [None].
    - The geocoding service, the geodesic distance of [geopy], the clock and
      the built-in [hash] are parameters of the functions that call them. *)

From Stdlib Require Import String Ascii List ZArith Bool Lia PeanoNat.
From Stdlib Require Import DecimalString.
From Stdlib Require Import Permutation Sorted.
From Stdlib Require Import SpecFloat.
Import ListNotations.

Local Open Scope string_scope.
Local Open Scope list_scope.

(* ================================================================== *)
(** ** Python string primitives *)

Module Py.

Definition code (c : ascii) : nat := nat_of_ascii c.

Definition between (lo hi : nat) (c : ascii) : bool :=
  (lo <=? code c)%nat && (code c <=? hi)%nat.

Definition is_upper (c : ascii) : bool := between 65 90 c.
Definition is_lower (c : ascii) : bool := between 97 122 c.
Definition is_digit (c : ascii) : bool := between 48 57 c.
Definition is_alpha (c : ascii) : bool := is_upper c || is_lower c.

(** [str.isascii]: every character has a code below 128. *)
Definition isascii (s : string) : bool :=
  forallb (fun c => (code c <? 128)%nat) (list_ascii_of_string s).

(** [str.isspace] on ASCII, which is also [\s] and what [strip] and [split]
    take for white space: TAB, LF, VT, FF, CR, the separators FS..US and
    the space. *)
Definition is_space (c : ascii) : bool :=
  between 9 13 c || between 28 32 c.

(** The white space that [int] skips around an ASCII numeral: TAB, LF, VT,
    FF, CR and the space, not the separators FS..US. *)
Definition is_c_space (c : ascii) : bool :=
  between 9 13 c || (code c =? 32)%nat.

(** [\w] on ASCII. *)
Definition is_word (c : ascii) : bool :=
  is_alpha c || is_digit c || (code c =? 95)%nat.

Definition lower_char (c : ascii) : ascii :=
  if is_upper c then ascii_of_nat (code c + 32) else c.

Definition upper_char (c : ascii) : ascii :=
  if is_lower c then ascii_of_nat (code c - 32) else c.

Definition chars (s : string) : list ascii := list_ascii_of_string s.
Definition str (l : list ascii) : string := string_of_list_ascii l.

(** [s.lower()] and [s.upper()]. *)
Definition lower (s : string) : string := str (map lower_char (chars s)).
Definition upper (s : string) : string := str (map upper_char (chars s)).

Fixpoint starts_with (p l : list ascii) : bool :=
  match p, l with
  | [], _ => true
  | a :: p', b :: l' => Ascii.eqb a b && starts_with p' l'
  | _ :: _, [] => false
  end.

Fixpoint contains_chars (p l : list ascii) : bool :=
  starts_with p l ||
  match l with
  | [] => false
  | _ :: l' => contains_chars p l'
  end.

(** [sub in s] for two strings. *)
Definition contains (sub s : string) : bool :=
  contains_chars (chars sub) (chars s).

(** [x in l] for a list of strings. *)
Definition mem (x : string) (l : list string) : bool :=
  existsb (String.eqb x) l.

Fixpoint drop_while (p : ascii -> bool) (l : list ascii) : list ascii :=
  match l with
  | [] => []
  | c :: l' => if p c then drop_while p l' else l
  end.

Fixpoint take_while (p : ascii -> bool) (l : list ascii) : list ascii :=
  match l with
  | [] => []
  | c :: l' => if p c then c :: take_while p l' else []
  end.

Definition lstrip_chars (p : ascii -> bool) (l : list ascii) : list ascii :=
  drop_while p l.

Definition rstrip_chars (p : ascii -> bool) (l : list ascii) : list ascii :=
  rev (drop_while p (rev l)).

(** [s.strip()]. *)
Definition strip (s : string) : string :=
  str (rstrip_chars is_space (lstrip_chars is_space (chars s))).

(** [s.rstrip('s')]. *)
Definition rstrip_s (s : string) : string :=
  str (rstrip_chars (Ascii.eqb "s"%char) (chars s)).

(** [s.replace(' ', '')]. *)
Definition remove_spaces (s : string) : string :=
  str (filter (fun c => negb (Ascii.eqb c " "%char)) (chars s)).

(** [s.split()]: maximal runs of non-space characters.  [cur] is the word
    being read, in reverse. *)
Fixpoint split_aux (l cur : list ascii) : list string :=
  let flush rest :=
    match cur with
    | [] => rest
    | _ :: _ => str (rev cur) :: rest
    end in
  match l with
  | [] => flush []
  | c :: l' => if is_space c then flush (split_aux l' []) else split_aux l' (c :: cur)
  end.

Definition split (s : string) : list string := split_aux (chars s) [].

(** Truthiness of a string. *)
Definition truthy (s : string) : bool :=
  match s with
  | EmptyString => false
  | String _ _ => true
  end.

Definition digit_val (c : ascii) : Z := Z.of_nat (code c - 48).

(** Digits of an integer literal: single underscores are allowed between
    digits.  [prev] tells whether the previous character was a digit. *)
Fixpoint int_digits (l : list ascii) (prev : bool) (acc : Z) : option Z :=
  match l with
  | [] => if prev then Some acc else None
  | c :: l' =>
      if is_digit c then int_digits l' true (10 * acc + digit_val c)%Z
      else if (code c =? 95)%nat && prev then int_digits l' false acc
      else None
  end.

(** The default of [sys.get_int_max_str_digits()]. *)
Definition int_max_str_digits : nat := 4300.

(** The digits after the sign: more than [int_max_str_digits] of them are
    refused. *)
Definition int_unsigned (l : list ascii) : option Z :=
  if (length (filter is_digit l) <=? int_max_str_digits)%nat
  then int_digits l false 0%Z
  else None.

(** [int(s)] for a string: [None] stands for [ValueError]. *)
Definition int (s : string) : option Z :=
  let body := rstrip_chars is_c_space (lstrip_chars is_c_space (chars s)) in
  match body with
  | "-"%char :: l => option_map Z.opp (int_unsigned l)
  | "+"%char :: l => int_unsigned l
  | l => int_unsigned l
  end.

(** [str(z)] for an integer. *)
Definition str_of_int (z : Z) : string := NilZero.string_of_int (Z.to_int z).

(** Exceptions, and the outcome of a call that may raise one. *)
Inductive exn : Type :=
| TypeError (msg : string)
| ValueError (msg : string)
| OverflowError (msg : string)
| OtherException (msg : string).

(** [str(e)]. *)
Definition exn_str (e : exn) : string :=
  match e with
  | TypeError m | ValueError m | OverflowError m | OtherException m => m
  end.

Inductive outcome (A : Type) : Type :=
| Return : A -> outcome A
| Raise : exn -> outcome A.

Arguments Return {A} _.
Arguments Raise {A} _.

End Py.

(* ================================================================== *)
(** ** Binary64 floating point *)

Module F64.

Definition float := spec_float.

Definition prec : Z := 53.
Definition emax : Z := 1024.

Definition mul : float -> float -> float := SFmul prec emax.
Definition ltb : float -> float -> bool := SFltb.
Definition leb : float -> float -> bool := SFleb.
Definition inf : float := S754_infinity false.

(** The float nearest to an integer. *)
Definition of_Z (z : Z) : float := binary_normalize prec emax z 0 false.

(** The float nearest to [n / 10^k] for [n > 0].  The quotient is computed
    with more than sixty significant bits and the remainder is kept as a
    sticky last bit, so that rounding to 53 bits is the correct rounding of
    the exact quotient. *)
Definition of_ratio10 (n : Z) (k : nat) : float :=
  let d := (10 ^ Z.of_nat k)%Z in
  let s := (64 + Z.log2 d)%Z in
  let num := (n * 2 ^ s)%Z in
  let q := (num / d)%Z in
  let sticky := if (num mod d =? 0)%Z then 0%Z else 1%Z in
  binary_normalize prec emax (2 * q + sticky) (- s - 1) false.

Fixpoint digits_val (l : list ascii) (acc : Z) : Z :=
  match l with
  | [] => acc
  | c :: l' => digits_val l' (10 * acc + Py.digit_val c)%Z
  end.

(** [float(s)] for a decimal numeral [digits], [digits.] or
    [digits.digits]; [None] stands for [ValueError]. *)
Definition of_decimal (s : string) : option float :=
  let l := Py.chars s in
  let ip := Py.take_while Py.is_digit l in
  let rest := Py.drop_while Py.is_digit l in
  let fp := match rest with
            | "."%char :: r => Some r
            | [] => Some []
            | _ => None
            end in
  match ip, fp with
  | [], _ => None
  | _, None => None
  | _, Some r =>
      if forallb Py.is_digit r then
        let n := digits_val (ip ++ r) 0 in
        Some (if (n =? 0)%Z then S754_zero false else of_ratio10 n (length r))
      else None
  end.

(** A float literal of the source, written as sign, digits and number of
    fractional digits: [lit false 522681 4] is [52.2681]. *)
Definition lit (neg : bool) (n : Z) (k : nat) : float :=
  let x := if (n =? 0)%Z then S754_zero false else of_ratio10 n k in
  if neg then SFopp x else x.

(** [int(x)] for a finite float: truncation toward zero. *)
Definition trunc (x : float) : option Z :=
  match x with
  | S754_zero _ => Some 0%Z
  | S754_finite s m e =>
      let a := match e with
               | Zneg p => (Zpos m / 2 ^ Zpos p)%Z
               | _ => (Zpos m * 2 ^ e)%Z
               end in
      Some (if s then (- a)%Z else a)
  | _ => None
  end.

End F64.

(* ================================================================== *)
(** ** Regular expressions of the [re] module

    The patterns of the source quantify single characters and character
    classes only, and no group stands under a quantifier; the engine below
    covers that fragment with the search order of [re]: leftmost match,
    greedy quantifiers, alternatives tried from left to right, with
    backtracking. *)

Module Re.

Inductive re : Type :=
| Eps : re
| Cls : (ascii -> bool) -> re                       (* one character of a class *)
| Lit : string -> re                                (* literal text, IGNORECASE *)
| Rep : (ascii -> bool) -> nat -> option nat -> re  (* greedy class{lo,hi} *)
| Cat : re -> re -> re
| Alt : re -> re -> re
| Grp : nat -> re -> re.                            (* capturing group *)

Definition groups := list (nat * string).

Fixpoint starts_with_ci (p l : list ascii) : option (list ascii) :=
  match p, l with
  | [], _ => Some l
  | a :: p', b :: l' =>
      if Ascii.eqb (Py.lower_char a) (Py.lower_char b)
      then starts_with_ci p' l' else None
  | _ :: _, [] => None
  end.

Definition hi_pred (hi : option nat) : option nat := option_map pred hi.

Definition hi_zero (hi : option nat) : bool :=
  match hi with
  | Some O => true
  | _ => false
  end.

Section Run.
Context {A : Type}.

(** Greedy repetition: take one more character while allowed, fall back to
    the continuation when the longer attempts fail. *)
Fixpoint greedy (p : ascii -> bool) (lo : nat) (hi : option nat)
    (s : list ascii) (k : list ascii -> option A) {struct s} : option A :=
  let stop := match lo with
              | O => k s
              | S _ => None
              end in
  if hi_zero hi then stop else
  match s with
  | [] => stop
  | c :: s' =>
      if p c then
        match greedy p (pred lo) (hi_pred hi) s' k with
        | Some r => Some r
        | None => stop
        end
      else stop
  end.

(** The text consumed between the input [s] and its suffix [s']. *)
Definition consumed (s s' : list ascii) : string :=
  Py.str (firstn (length s - length s') s).

Fixpoint run (r : re) (s : list ascii) (g : groups)
    (k : list ascii -> groups -> option A) {struct r} : option A :=
  match r with
  | Eps => k s g
  | Cls p =>
      match s with
      | c :: s' => if p c then k s' g else None
      | [] => None
      end
  | Lit t =>
      match starts_with_ci (Py.chars t) s with
      | Some s' => k s' g
      | None => None
      end
  | Rep p lo hi => greedy p lo hi s (fun s' => k s' g)
  | Cat r1 r2 => run r1 s g (fun s' g' => run r2 s' g' k)
  | Alt r1 r2 =>
      match run r1 s g k with
      | Some x => Some x
      | None => run r2 s g k
      end
  | Grp i r1 => run r1 s g (fun s' g' => k s' ((i, consumed s s') :: g'))
  end.

End Run.

(** [pattern.match] at the start of [s]: the groups of the first match. *)
Definition match_at (r : re) (s : list ascii) : option groups :=
  run r s [] (fun _ g => Some g).

(** [pattern.search(s)]: the match at the leftmost position that has one. *)
Fixpoint search_chars (r : re) (s : list ascii) : option groups :=
  match match_at r s with
  | Some g => Some g
  | None =>
      match s with
      | [] => None
      | _ :: s' => search_chars r s'
      end
  end.

Definition search (r : re) (s : string) : option groups :=
  search_chars r (Py.chars s).

(** [m.group(i)] of a group that took part in the match. *)
Fixpoint group (g : groups) (i : nat) : string :=
  match g with
  | [] => ""
  | (j, t) :: g' => if (i =? j)%nat then t else group g' i
  end.

(** Pattern syntax. *)
Definition star (p : ascii -> bool) : re := Rep p 0 None.
Definition plus (p : ascii -> bool) : re := Rep p 1 None.
Definition opt (p : ascii -> bool) : re := Rep p 0 (Some 1).
Definition chr (c : ascii) : re := Cls (Ascii.eqb c).

(** A class of letters under IGNORECASE. *)
Definition one_of_ci (t : string) (c : ascii) : bool :=
  existsb (fun a => Ascii.eqb (Py.lower_char a) (Py.lower_char c)) (Py.chars t).

Fixpoint cat (l : list re) : re :=
  match l with
  | [] => Eps
  | [r] => r
  | r :: l' => Cat r (cat l')
  end.

Fixpoint alt_lits (l : list string) : re :=
  match l with
  | [] => Cls (fun _ => false)
  | [t] => Lit t
  | t :: l' => Alt (Lit t) (alt_lits l')
  end.

Definition ws : re := star Py.is_space.      (* \s* *)
Definition comma_opt : re := opt (Ascii.eqb ","%char).   (* ,? *)

End Re.

(* ================================================================== *)
(** ** Dictionaries with string keys, in insertion order *)

Module Dict.

Definition t (V : Type) := list (string * V).

Fixpoint get {V} (d : t V) (k : string) : option V :=
  match d with
  | [] => None
  | (k', v) :: d' => if String.eqb k k' then Some v else get d' k
  end.

(** [d[k] = v]: an existing key keeps its position. *)
Fixpoint set {V} (d : t V) (k : string) (v : V) : t V :=
  match d with
  | [] => [(k, v)]
  | (k', v') :: d' =>
      if String.eqb k k' then (k, v) :: d' else (k', v') :: set d' k v
  end.

Definition keys {V} (d : t V) : list string := map fst d.

End Dict.

(* ================================================================== *)
(** ** property_parser.py *)

Module PropertyParser.

Import Re.

Definition is_alnum_space (c : ascii) : bool :=
  Py.is_alpha c || Py.is_digit c || Py.is_space c.

(** [self.legal_patterns], in the order of the dictionary. *)
Definition quarter_section_re : re :=
  cat [Grp 1 (Rep (one_of_ci "NSEW") 1 (Some 2)); ws;
       Grp 2 (Rep Py.is_digit 1 (Some 2)); ws; chr "-"; ws;
       Grp 3 (Rep Py.is_digit 1 (Some 3)); ws; chr "-"; ws;
       Grp 4 (Rep Py.is_digit 1 (Some 3)); ws; chr "-"; ws;
       Grp 5 (Cls (one_of_ci "WE")); ws;
       Grp 6 (Cls Py.is_digit)].

Definition lot_block_re : re :=
  cat [Lit "LOT"; ws; Grp 1 (plus Py.is_digit); ws; comma_opt; ws;
       Lit "BLOCK"; ws; Grp 2 (plus Py.is_digit); ws; comma_opt; ws;
       Lit "PLAN"; ws; Grp 3 (plus Py.is_word)].

Definition parcel_re : re :=
  cat [Lit "PARCEL"; ws; Grp 1 (plus Py.is_word); ws; comma_opt; ws;
       Lit "PLAN"; ws; Grp 2 (plus Py.is_word)].

Definition section_re : re :=
  cat [Lit "SECTION"; ws; Grp 1 (Rep Py.is_digit 1 (Some 2)); ws; comma_opt; ws;
       Lit "TOWNSHIP"; ws; Grp 2 (Rep Py.is_digit 1 (Some 3)); ws; comma_opt; ws;
       Lit "RANGE"; ws; Grp 3 (Rep Py.is_digit 1 (Some 3)); ws; comma_opt; ws;
       Grp 4 (Cls (one_of_ci "WE")); ws;
       Grp 5 (Cls Py.is_digit)].

Definition legal_patterns : list (string * re) :=
  [("quarter_section", quarter_section_re);
   ("lot_block", lot_block_re);
   ("parcel", parcel_re);
   ("section", section_re)].

(** [self.address_patterns]. *)
Definition street_address_re : re :=
  cat [Grp 1 (plus Py.is_digit); plus Py.is_space;
       Grp 2 (Cat (plus is_alnum_space)
                  (alt_lits ["Street"; "St"; "Avenue"; "Ave"; "Road"; "Rd";
                             "Drive"; "Dr"; "Lane"; "Ln"; "Boulevard"; "Blvd";
                             "Way"; "Circle"; "Cir"; "Court"; "Ct";
                             "Crescent"; "Cres"]))].

Definition rural_address_re : re :=
  cat [Grp 1 (alt_lits ["RR"; "Rural Route"; "Range Road"; "Township Road";
                        "Highway"; "Hwy"]);
       ws; Grp 2 (plus Py.is_digit)].

Definition postal_code_re : re :=
  Grp 1 (cat [Cls Py.is_alpha; Cls Py.is_digit; Cls Py.is_alpha; ws;
              Cls Py.is_digit; Cls Py.is_alpha; Cls Py.is_digit]).

(** The acreage pattern of [_extract_property_details]: a decimal numeral
    (digits, an optional point, optional digits), white space, "acre" and an
    optional "s". *)
Definition acreage_re : re :=
  cat [Grp 1 (cat [plus Py.is_digit; opt (Ascii.eqb "."%char); star Py.is_digit]);
       ws; Lit "acre"; opt (one_of_ci "s")].

(** The parsed address and legal description: [type], [components] and the
    stripped input. *)
Record parsed_address : Type := {
  address_type : string;
  address_components : Dict.t string;
  full_address : string
}.

Record parsed_legal : Type := {
  legal_type : string;
  legal_components : Dict.t string;
  full_description : string
}.

Record coordinates : Type := {
  latitude : F64.float;
  longitude : F64.float;
  display_name : string
}.

Record raw_input : Type := {
  raw_address : string;
  raw_legal_description : string;
  raw_additional_info : string
}.

(** [property_details]: a key is present when its field is [Some]. *)
Record property_details : Type := {
  acreage : option F64.float;
  zoning_hints : option (list string);
  development_intentions : option (list string);
  infrastructure_mentions : option (list string)
}.

Definition no_details : property_details :=
  {| acreage := None; zoning_hints := None;
     development_intentions := None; infrastructure_mentions := None |}.

Definition present {A} (o : option A) : nat :=
  match o with
  | Some _ => 1
  | None => 0
  end.

(** [len(property_details)]. *)
Definition details_len (d : property_details) : nat :=
  present (acreage d) + present (zoning_hints d) +
  present (development_intentions d) + present (infrastructure_mentions d).

Record property_info : Type := {
  raw : raw_input;
  parsed_address_of : option parsed_address;
  parsed_legal_of : option parsed_legal;
  coordinates_of : option coordinates;
  municipality_hints : list string;
  details : property_details
}.

(** What [geolocator.geocode] can do: return a location, return [None], or
    raise one of the two exceptions the caller catches. *)
Inductive geocode_reply : Type :=
| Located (lat lon : F64.float) (address : string)
| NoLocation
| GeocoderTimedOut
| GeocoderServiceError.

Definition geolocator := string -> geocode_reply.

Definition _parse_address (address : string) : parsed_address :=
  let ty := "unknown" in
  let comps : Dict.t string := [] in
  (* Check for street address *)
  let '(ty, comps) :=
    match search street_address_re address with
    | Some m => ("street", [("number", group m 1);
                            ("street", Py.strip (group m 2))])
    | None => (ty, comps)
    end in
  (* Check for rural address *)
  let '(ty, comps) :=
    match search rural_address_re address with
    | Some m => ("rural", [("road_type", group m 1);
                           ("road_number", group m 2)])
    | None => (ty, comps)
    end in
  (* Extract postal code *)
  let comps :=
    match search postal_code_re address with
    | Some m => Dict.set comps "postal_code"
                  (Py.remove_spaces (Py.upper (group m 1)))
    | None => comps
    end in
  {| address_type := ty; address_components := comps;
     full_address := Py.strip address |}.

Definition legal_components_of (pattern_name : string) (m : groups)
  : Dict.t string :=
  if String.eqb pattern_name "quarter_section" then
    [("quarter", group m 1); ("section", group m 2);
     ("township", group m 3); ("range", group m 4);
     ("meridian_direction", group m 5); ("meridian", group m 6)]
  else if String.eqb pattern_name "lot_block" then
    [("lot", group m 1); ("block", group m 2); ("plan", group m 3)]
  else if String.eqb pattern_name "parcel" then
    [("parcel", group m 1); ("plan", group m 2)]
  else if String.eqb pattern_name "section" then
    [("section", group m 1); ("township", group m 2); ("range", group m 3);
     ("meridian_direction", group m 4); ("meridian", group m 5)]
  else [].

(** The loop over the patterns: the first one that matches decides. *)
Fixpoint first_legal_match (patterns : list (string * re)) (legal_desc : string)
  : string * Dict.t string :=
  match patterns with
  | [] => ("unknown", [])
  | (pattern_name, pattern) :: rest =>
      match search pattern legal_desc with
      | Some m => (pattern_name, legal_components_of pattern_name m)
      | None => first_legal_match rest legal_desc
      end
  end.

Definition _parse_legal_description (legal_desc : string) : parsed_legal :=
  let '(ty, comps) := first_legal_match legal_patterns legal_desc in
  {| legal_type := ty; legal_components := comps;
     full_description := Py.strip legal_desc |}.

Definition _geocode_address (geo : geolocator) (address : string)
  : option coordinates :=
  let full_address := (address ++ ", Alberta, Canada")%string in
  match geo full_address with
  | Located lat lon addr =>
      Some {| latitude := lat; longitude := lon; display_name := addr |}
  | NoLocation => None
  | GeocoderTimedOut => None
  | GeocoderServiceError => None
  end.

Definition municipalities : list string :=
  ["Red Deer"; "Lacombe"; "Ponoka"; "Wetaskiwin"; "Camrose"; "Leduc";
   "Edmonton"; "St. Albert"; "Sherwood Park"; "Fort Saskatchewan";
   "Morinville"; "Legal"; "Bon Accord"; "Gibbons"; "Redwater";
   "Smoky Lake"; "Vilna"; "Mundare"; "Lamont"; "Bruderheim";
   "Athabasca"; "Boyle"; "Westlock"; "Barrhead"; "Mayerthorpe";
   "Whitecourt"; "Slave Lake"; "High Prairie"; "Valleyview"].

Definition counties : list string :=
  ["Lacombe County"; "Ponoka County"; "Wetaskiwin County";
   "Camrose County"; "Leduc County"; "Strathcona County";
   "Sturgeon County"; "Parkland County"; "Lac Ste. Anne County";
   "Barrhead County"; "Westlock County"; "Athabasca County"].

Definition _extract_municipality_hints (text : string) : list string :=
  let all_locations := municipalities ++ counties in
  let text_lower := Py.lower text in
  filter (fun location => Py.contains (Py.lower location) text_lower)
         all_locations.

(** [float(t)] of the numeral captured by the acreage pattern.  That numeral
    is always decimal, so [ValueError] cannot be raised there; the remaining
    case is given the value NaN. *)
Definition float_of_numeral (t : string) : F64.float :=
  match F64.of_decimal t with
  | Some x => x
  | None => S754_nan
  end.

(** The keywords of a list found in the lower-cased text, as the value of
    the key that [setdefault(..., []).append] creates on the first hit. *)
Definition keyword_hits (keywords : list string) (info : string)
  : option (list string) :=
  match filter (fun keyword => Py.contains keyword (Py.lower info)) keywords with
  | [] => None
  | hits => Some hits
  end.

Definition _extract_property_details (additional_info : string)
  : property_details :=
  {| acreage :=
       match search acreage_re additional_info with
       | Some m => Some (float_of_numeral (group m 1))
       | None => None
       end;
     zoning_hints :=
       keyword_hits ["commercial"; "residential"; "rural"; "agricultural";
                     "industrial"] additional_info;
     development_intentions :=
       keyword_hits ["develop"; "cottages"; "subdivision"; "building";
                     "construction"] additional_info;
     infrastructure_mentions :=
       keyword_hits ["septic"; "water"; "power"; "sewer"; "gas"; "internet"]
                    additional_info |}.

Definition typed_address (a : option parsed_address) : bool :=
  match a with
  | Some p => negb (String.eqb (address_type p) "unknown")
  | None => false
  end.

Definition typed_legal (l : option parsed_legal) : bool :=
  match l with
  | Some p => negb (String.eqb (legal_type p) "unknown")
  | None => false
  end.

Definition is_some {A} (o : option A) : bool :=
  match o with
  | Some _ => true
  | None => false
  end.

Definition has_address (p : property_info) : bool :=
  typed_address (parsed_address_of p).
Definition has_legal (p : property_info) : bool :=
  typed_legal (parsed_legal_of p).
Definition has_coordinates (p : property_info) : bool :=
  is_some (coordinates_of p).
Definition has_municipality_hints (p : property_info) : bool :=
  (0 <? length (municipality_hints p))%nat.
Definition has_property_details (p : property_info) : bool :=
  (0 <? details_len (details p))%nat.
Definition has_raw_input (p : property_info) : bool :=
  Py.truthy (raw_address (raw p)) ||
  Py.truthy (raw_legal_description (raw p)) ||
  Py.truthy (raw_additional_info (raw p)).

Definition _is_valid_property_info (p : property_info) : bool :=
  has_address p || has_legal p || has_coordinates p ||
  has_municipality_hints p || has_property_details p || has_raw_input p.

Definition parse_property_info (geo : geolocator)
    (address legal_description additional_info : string)
  : option property_info :=
  let pa := if Py.truthy address then Some (_parse_address address) else None in
  let co := if Py.truthy address then _geocode_address geo address else None in
  let pl := if Py.truthy legal_description
            then Some (_parse_legal_description legal_description) else None in
  let all_text :=
    (address ++ " " ++ legal_description ++ " " ++ additional_info)%string in
  let hints := _extract_municipality_hints all_text in
  let pd := if Py.truthy additional_info
            then _extract_property_details additional_info else no_details in
  let p := {| raw := {| raw_address := address;
                        raw_legal_description := legal_description;
                        raw_additional_info := additional_info |};
              parsed_address_of := pa;
              parsed_legal_of := pl;
              coordinates_of := co;
              municipality_hints := hints;
              details := pd |} in
  if _is_valid_property_info p then Some p else None.

End PropertyParser.

(* ================================================================== *)
(** ** municipality_lookup.py *)

Module MunicipalityLookup.

Import PropertyParser.

Record contact : Type := {
  phone : string;
  contact_address : string
}.

(** A stored record of [municipalities_data]. *)
Record municipality_data : Type := {
  muni_type : string;
  population : option Z;
  muni_coordinates : option (F64.float * F64.float);   (* lat, lon *)
  website : string;
  planning_dept : string;
  land_use_bylaw : string;
  zoning_map : option string;
  contact_info : contact
}.

(** A record returned by the resolver: the entries copied from the stored
    record and the keys the resolver adds to the copy. *)
Record municipality : Type := {
  stored : municipality_data;
  name : string;
  category : string;
  distance_km : option F64.float;
  supported_services : option (list string);
  typical_processing_times : option (Dict.t string)
}.

(** [municipalities_data]: the dictionary with the keys "cities" and
    "counties". *)
Record table : Type := {
  cities : Dict.t municipality_data;
  counties : Dict.t municipality_data
}.

(** [self.municipalities_data.items()]. *)
Definition items (t : table) : list (string * Dict.t municipality_data) :=
  [("cities", cities t); ("counties", counties t)].

Definition city (ty : string) (pop : Z) (lat lon : F64.float)
    (web dept bylaw : string) (zmap : option string) (ph addr : string)
  : municipality_data :=
  {| muni_type := ty; population := Some pop;
     muni_coordinates := Some (lat, lon);
     website := web; planning_dept := dept; land_use_bylaw := bylaw;
     zoning_map := zmap;
     contact_info := {| phone := ph; contact_address := addr |} |}.

Definition county (lat lon : F64.float) (web dept bylaw ph addr : string)
  : municipality_data :=
  {| muni_type := "county"; population := None;
     muni_coordinates := Some (lat, lon);
     website := web; planning_dept := dept; land_use_bylaw := bylaw;
     zoning_map := None;
     contact_info := {| phone := ph; contact_address := addr |} |}.

Definition north (n : Z) : F64.float := F64.lit false n 4.
Definition west (n : Z) : F64.float := F64.lit true n 4.

Definition _load_municipalities_data : table :=
  {| cities :=
       [("Red Deer",
         city "city" 100844 (north 522681) (west 1138112)
           "https://www.reddeer.ca" "planning@reddeer.ca"
           "https://www.reddeer.ca/city-government/bylaws-and-policies/land-use-bylaw/"
           (Some "https://www.reddeer.ca/city-services/planning-and-development/zoning-maps/")
           "403-342-8111" "4914 48th Ave, Red Deer, AB T4N 3T4");
        ("Edmonton",
         city "city" 1010899 (north 535461) (west 1134938)
           "https://www.edmonton.ca" "development@edmonton.ca"
           "https://www.edmonton.ca/city_government/bylaws/zoning-bylaw"
           (Some "https://maps.edmonton.ca/map.aspx?id=ZoningBylaw")
           "311" "1 Sir Winston Churchill Square, Edmonton, AB T5J 2R7");
        ("Lacombe",
         city "city" 13057 (north 524675) (west 1137364)
           "https://www.lacombe.ca" "planning@lacombe.ca"
           "https://www.lacombe.ca/government/bylaws/" None
           "403-782-6666" "5432 56 Ave, Lacombe, AB T4L 1E9");
        ("Wetaskiwin",
         city "city" 12655 (north 529692) (west 1133747)
           "https://www.wetaskiwin.ca" "planning@wetaskiwin.ca"
           "https://www.wetaskiwin.ca/government/bylaws-policies/" None
           "780-361-4400" "4905 50 Ave, Wetaskiwin, AB T9A 0S7");
        ("Camrose",
         city "city" 18742 (north 530167) (west 1128333)
           "https://www.camrose.ca" "planning@camrose.ca"
           "https://www.camrose.ca/government/bylaws/" None
           "780-672-4428" "4703 50 Ave, Camrose, AB T4V 0P7");
        ("Athabasca",
         city "town" 2965 (north 547186) (west 1132856)
           "https://www.athabasca.ca" "cao@athabasca.ca"
           "https://www.athabasca.ca/government/bylaws/" None
           "780-675-2273" "4904 50 St, Athabasca, AB T9S 1E2")];
     counties :=
       [("Lacombe County",
         county (north 524000) (west 1138000)
           "https://www.lacombecounty.com" "planning@lacombecounty.com"
           "https://www.lacombecounty.com/government/bylaws/"
           "403-782-8060" "4611 52 Ave, Lacombe, AB T4L 1G3");
        ("Ponoka County",
         county (north 526833) (west 1135833)
           "https://www.ponokacounty.com" "planning@ponokacounty.com"
           "https://www.ponokacounty.com/government/bylaws/"
           "403-783-3333" "5506 57 Ave, Ponoka, AB T4J 1A1");
        ("Wetaskiwin County",
         county (north 530000) (west 1135000)
           "https://www.county.wetaskiwin.ab.ca" "planning@county.wetaskiwin.ab.ca"
           "https://www.county.wetaskiwin.ab.ca/government/bylaws/"
           "780-352-3321"
           "Multi-Municipal Building, 4905 51 Ave, Wetaskiwin, AB T9A 1P2");
        ("Camrose County",
         county (north 530000) (west 1125000)
           "https://www.camrosecounty.ab.ca" "planning@camrosecounty.ab.ca"
           "https://www.camrosecounty.ab.ca/government/bylaws/"
           "780-672-4446" "#10, 3755 43 Ave, Camrose, AB T4V 3S8");
        ("Leduc County",
         county (north 532667) (west 1135500)
           "https://www.leduc-county.com" "planning@leduc-county.com"
           "https://www.leduc-county.com/government/bylaws/"
           "780-955-3555" "1101 5 St, Nisku, AB T9E 2X3");
        ("Strathcona County",
         county (north 535167) (west 1132000)
           "https://www.strathcona.ca" "planning@strathcona.ca"
           "https://www.strathcona.ca/council-county/bylaws/"
           "780-464-8111" "2001 Sherwood Dr, Sherwood Park, AB T8A 3W7");
        ("Sturgeon County",
         county (north 538000) (west 1136000)
           "https://www.sturgeoncounty.ca" "planning@sturgeoncounty.ca"
           "https://www.sturgeoncounty.ca/government/bylaws/"
           "780-939-4321" "9613 100 St, Morinville, AB T8R 1L9");
        ("Parkland County",
         county (north 537000) (west 1140000)
           "https://www.parklandcounty.com" "planning@parklandcounty.com"
           "https://www.parklandcounty.com/government/bylaws/"
           "780-968-8888" "53109A Hwy 779, Parkland County, AB T7Z 1R1");
        ("Athabasca County",
         county (north 545000) (west 1130000)
           "https://www.athabascacounty.com" "planning@athabascacounty.com"
           "https://www.athabascacounty.com/government/bylaws/"
           "780-675-2273" "4904 50 St, Athabasca, AB T9S 1E2")] |}.

Definition _get_supported_regions (t : table) : list string :=
  flat_map (fun category => Dict.keys (snd category)) (items t).

(** [data.copy()] with the keys "name" and "category" set on the copy. *)
Definition named_copy (data : municipality_data) (n cat : string)
  : municipality :=
  {| stored := data; name := n; category := cat; distance_km := None;
     supported_services := None; typical_processing_times := None |}.

Definition name_matches (muni_name name_lower : string) : bool :=
  String.eqb (Py.lower muni_name) name_lower ||
  Py.contains (Py.lower muni_name) name_lower.

(** One of the two loops of [_find_by_name]. *)
Fixpoint find_in (entries : Dict.t municipality_data) (cat name_lower : string)
  : option municipality :=
  match entries with
  | [] => None
  | (muni_name, data) :: rest =>
      if name_matches muni_name name_lower
      then Some (named_copy data muni_name cat)
      else find_in rest cat name_lower
  end.

Definition _find_by_name (t : table) (nm : string) : option municipality :=
  let name_lower := Py.lower nm in
  (* Check cities first *)
  match find_in (cities t) "city" name_lower with
  | Some result => Some result
  | None =>
      (* Check counties *)
      find_in (counties t) "county" name_lower
  end.

(** The geodesic distance of [geopy] between two points, in kilometres. *)
Definition geodesic := F64.float * F64.float -> F64.float * F64.float -> F64.float.

Definition fifty : F64.float := F64.of_Z 50.

(** The loop state of [_find_by_coordinates]. *)
Definition closest : Type := option municipality * F64.float.

Definition consider (dist : geodesic) (lat lon : F64.float)
    (category_name : string) (st : closest)
    (entry : string * municipality_data) : closest :=
  let '(municipality_name, data) := entry in
  match muni_coordinates data with
  | Some mc =>
      let distance := dist (lat, lon) mc in
      (* Consider within 50km as potential match *)
      if F64.ltb distance fifty && F64.ltb distance (snd st) then
        (Some {| stored := data; name := municipality_name;
                 category := Py.rstrip_s category_name;
                 distance_km := Some distance;
                 supported_services := None;
                 typical_processing_times := None |},
         distance)
      else st
  | None => st
  end.

Definition scan_category (dist : geodesic) (lat lon : F64.float) (st : closest)
    (category : string * Dict.t municipality_data) : closest :=
  fold_left (consider dist lat lon (fst category)) (snd category) st.

Definition _find_by_coordinates (dist : geodesic) (t : table)
    (lat lon : F64.float) : option municipality :=
  fst (fold_left (scan_category dist lat lon) (items t) (None, F64.inf)).

(** The three conditions of the township/range mapping, as written. *)
Definition range_20_30 (range_int : Z) : bool :=
  ((20 <=? range_int) && (range_int <=? 30))%Z.
Definition red_deer_band (township_int range_int : Z) : bool :=
  ((40 <=? township_int) && (township_int <=? 50))%Z && range_20_30 range_int.
Definition edmonton_band (township_int range_int : Z) : bool :=
  ((50 <=? township_int) && (township_int <=? 60))%Z && range_20_30 range_int.
Definition athabasca_band (township_int range_int : Z) : bool :=
  ((60 <=? township_int) && (township_int <=? 70))%Z && range_20_30 range_int.

Definition _find_by_legal_description (t : table) (legal_desc : parsed_legal)
  : option municipality :=
  let components := legal_components legal_desc in
  if Py.mem (legal_type legal_desc) ["quarter_section"; "section"] then
    match Dict.get components "township", Dict.get components "range" with
    | Some township, Some range_num =>
        if Py.truthy township && Py.truthy range_num then
          match Py.int township with
          | None => None                      (* ValueError *)
          | Some township_int =>
              match Py.int range_num with
              | None => None                  (* ValueError *)
              | Some range_int =>
                  (* Basic mapping based on township/range (simplified) *)
                  if red_deer_band township_int range_int
                  then _find_by_name t "Red Deer"
                  else if edmonton_band township_int range_int
                  then _find_by_name t "Edmonton"
                  else if athabasca_band township_int range_int
                  then _find_by_name t "Athabasca"
                  else None
              end
          end
        else None
    | _, _ => None
    end
  else None.

(** [word[0].isupper()] of a non-empty word. *)
Definition first_upper (word : string) : bool :=
  match word with
  | String c _ => Py.is_upper c
  | EmptyString => false
  end.

Fixpoint _extract_location_hints_words (words : list string) : list string :=
  match words with
  | [] => []
  | word :: rest =>
      if first_upper word && (3 <? String.length word)%nat then
        word ::
        match rest with
        | next :: _ =>
            if first_upper next then [(word ++ " " ++ next)%string] else []
        | [] => []
        end ++ _extract_location_hints_words rest
      else _extract_location_hints_words rest
  end.

Definition _extract_location_hints (text : string) : list string :=
  _extract_location_hints_words (Py.split text).

(** [for hint in hints: ... if municipality: return municipality]. *)
Fixpoint first_by_name (t : table) (hints : list string) : option municipality :=
  match hints with
  | [] => None
  | hint :: rest =>
      match _find_by_name t hint with
      | Some m => Some m
      | None => first_by_name t rest
      end
  end.

Definition _find_by_address_components (t : table) (address : parsed_address)
  : option municipality :=
  first_by_name t (_extract_location_hints (full_address address)).

Definition or_else {A} (o : option A) (next : option A) : option A :=
  match o with
  | Some x => Some x
  | None => next
  end.

Definition find_municipality (dist : geodesic) (t : table) (p : property_info)
  : option municipality :=
  (* Method 1: Check municipality hints from text *)
  or_else (first_by_name t (municipality_hints p))
  (* Method 2: Use coordinates if available *)
  (or_else
     match coordinates_of p with
     | Some c => _find_by_coordinates dist t (latitude c) (longitude c)
     | None => None
     end
  (* Method 3: Try to geocode legal description *)
  (or_else
     match parsed_legal_of p with
     | Some legal_desc =>
         if negb (String.eqb (legal_type legal_desc) "unknown")
         then _find_by_legal_description t legal_desc
         else None
     | None => None
     end
  (* Method 4: Fallback - try to extract from address components *)
     match parsed_address_of p with
     | Some address => _find_by_address_components t address
     | None => None
     end)).

(** Stable insertion sort by name, as [sorted(..., key=lambda x: x['name'])]. *)
Fixpoint insert_by_name (m : municipality) (l : list municipality)
  : list municipality :=
  match l with
  | [] => [m]
  | x :: l' =>
      if String.ltb (name x) (name m) then x :: insert_by_name m l'
      else m :: l
  end.

Definition sorted_by_name (l : list municipality) : list municipality :=
  fold_right insert_by_name [] l.

Definition get_supported_municipalities (t : table) : list municipality :=
  sorted_by_name
    (flat_map
       (fun category =>
          map (fun entry =>
                 named_copy (snd entry) (fst entry) (Py.rstrip_s (fst category)))
              (snd category))
       (items t)).

Definition get_municipality_details (t : table) (municipality_name : string)
  : option municipality :=
  match _find_by_name t municipality_name with
  | Some m =>
      Some {| stored := stored m; name := name m; category := category m;
              distance_km := distance_km m;
              supported_services :=
                Some ["Land Use Bylaw Information"; "Zoning Maps";
                      "Development Permits"; "Subdivision Applications";
                      "Planning Consultation"];
              typical_processing_times :=
                Some [("development_permit", "4-6 weeks");
                      ("subdivision", "3-6 months");
                      ("rezoning", "6-12 months")] |}
  | None => None
  end.

End MunicipalityLookup.

(* ================================================================== *)
(** ** policy_retrieval.py *)

Module PolicyRetrieval.

Import Py.
Import PropertyParser.

Record bylaw_section : Type := {
  section_no : string;
  section_title : string;
  section_description : string
}.

Record bylaw_info : Type := {
  url : string;
  title : string;
  sections : list bylaw_section
}.

(** The dictionary built by [_get_zoning_information]; "discretionary_uses"
    is a key of it in two of the four branches only. *)
Record zoning_info : Type := {
  zi_zoning : string;
  zi_permitted_uses : list string;
  zi_discretionary_uses : option (list string);
  zi_setbacks : Dict.t string;
  zi_density_restrictions : Dict.t string;
  zi_height_restrictions : Dict.t string
}.

Record policy_info : Type := {
  municipality : string;
  zoning : option string;
  land_use_bylaw : option bylaw_info;
  permitted_uses : list string;
  discretionary_uses : list string;
  setbacks : Dict.t string;
  density_restrictions : Dict.t string;
  height_restrictions : Dict.t string;
  special_provisions : list string;
  development_requirements : list string;
  contact_info : MunicipalityLookup.contact;
  bylaw_links : list string;
  last_updated : string;
  error : option string
}.

Definition _get_typical_setbacks (zoning : string) : Dict.t string :=
  if contains "R1" zoning || contains "Single Family" zoning then
    [("front", "7.5 meters"); ("rear", "7.5 meters"); ("side", "1.5 meters")]
  else if contains "RC" zoning || contains "Rural Commercial" zoning then
    [("front", "15 meters"); ("rear", "15 meters"); ("side", "7.5 meters")]
  else if contains "RUR" zoning || contains "Rural" zoning then
    [("front", "30 meters"); ("rear", "15 meters"); ("side", "15 meters")]
  else
    [("front", "6 meters"); ("rear", "6 meters"); ("side", "3 meters")].

Definition _get_density_restrictions (zoning : string) : Dict.t string :=
  if contains "RC" zoning || contains "Rural Commercial" zoning then
    [("maximum_site_coverage", "40%");
     ("maximum_floor_area_ratio", "0.5");
     ("minimum_lot_size", "2 hectares")]
  else if contains "RUR" zoning || contains "Rural" zoning then
    [("maximum_site_coverage", "25%");
     ("minimum_lot_size", "2 hectares");
     ("maximum_dwelling_units", "1 per lot")]
  else if contains "R1" zoning then
    [("maximum_site_coverage", "35%");
     ("minimum_lot_size", "600 square meters");
     ("maximum_dwelling_units", "1 per lot")]
  else [].

Definition _get_height_restrictions (zoning : string) : Dict.t string :=
  if contains "RC" zoning || contains "Commercial" zoning then
    [("maximum_height", "12 meters"); ("maximum_stories", "3")]
  else if contains "RUR" zoning || contains "Rural" zoning then
    [("maximum_height", "10 meters"); ("maximum_stories", "2.5")]
  else
    [("maximum_height", "9 meters"); ("maximum_stories", "2.5")].

(** [d.get(key, default)]. *)
Definition get_or {A} (o : option A) (default : A) : A :=
  match o with
  | Some x => x
  | None => default
  end.

Definition with_tables (zoning : string) (permitted : list string)
    (discretionary : option (list string)) : zoning_info :=
  {| zi_zoning := zoning;
     zi_permitted_uses := permitted;
     zi_discretionary_uses := discretionary;
     zi_setbacks := _get_typical_setbacks zoning;
     zi_density_restrictions := _get_density_restrictions zoning;
     zi_height_restrictions := _get_height_restrictions zoning |}.

Definition _get_zoning_information (muni : MunicipalityLookup.municipality)
    (p : property_info) : zoning_info :=
  let property_details := details p in
  let acreage := get_or (PropertyParser.acreage property_details) (F64.of_Z 0) in
  let zoning_hints := get_or (PropertyParser.zoning_hints property_details) [] in
  if mem "commercial" zoning_hints then
    if F64.ltb (F64.of_Z 5) acreage then
      with_tables "RC - Rural Commercial"
        ["Tourist accommodation"; "Recreation facilities";
         "Small scale retail"; "Restaurants"; "Bed and breakfast"]
        (Some ["Cottage development"; "RV parks"; "Event facilities";
               "Conference centers"])
    else
      with_tables "C2 - Community Commercial"
        ["Retail stores"; "Restaurants"; "Offices"; "Personal services"]
        None
  else if mem "rural" zoning_hints || F64.ltb (F64.of_Z 2) acreage then
    with_tables "RUR - Rural Residential"
      ["Single family dwelling"; "Home occupation"; "Agriculture (limited)";
       "Accessory buildings"]
      (Some ["Bed and breakfast"; "Secondary suite"; "Small scale tourism"])
  else
    with_tables "R1 - Single Family Residential"
      ["Single family dwelling"; "Home occupation"; "Accessory buildings"]
      None.

(** The zoning codes the engine can produce. *)
Definition zoning_codes : list string :=
  ["RC - Rural Commercial"; "C2 - Community Commercial";
   "RUR - Rural Residential"; "R1 - Single Family Residential"].

Definition _get_bylaw_information (muni : MunicipalityLookup.municipality)
  : option bylaw_info :=
  let bylaw_url := MunicipalityLookup.land_use_bylaw (MunicipalityLookup.stored muni) in
  if negb (truthy bylaw_url) then None
  else
    Some {| url := bylaw_url;
            title := (MunicipalityLookup.name muni ++ " Land Use Bylaw")%string;
            sections :=
              [{| section_no := "1";
                  section_title := "Definitions and General Provisions";
                  section_description := "Basic definitions and general requirements" |};
               {| section_no := "2";
                  section_title := "Zoning Districts";
                  section_description :=
                    "Description of all zoning districts and their purposes" |};
               {| section_no := "3";
                  section_title := "General Regulations";
                  section_description := "Setbacks, height limits, parking requirements" |};
               {| section_no := "4";
                  section_title := "Development Permits";
                  section_description :=
                    "Development permit application process and requirements" |};
               {| section_no := "5";
                  section_title := "Subdivision";
                  section_description := "Subdivision regulations and approval process" |}] |}.

Definition zoning_mentions (word : string) (zoning : option string) : bool :=
  match zoning with
  | Some z => truthy z && contains word (lower z)
  | None => false
  end.

Definition _get_development_requirements
    (muni : MunicipalityLookup.municipality) (zoning : option string)
  : list string :=
  ["Development permit required"; "Building permit required";
   "Compliance with Alberta Building Code"]
  ++ (if zoning_mentions "commercial" zoning then
        ["Site plan approval required"; "Parking plan submission";
         "Landscaping plan required"; "Signage approval needed"]
      else [])
  ++ (if zoning_mentions "rural" zoning then
        ["Septic system approval (if applicable)";
         "Water well testing (if applicable)";
         "Environmental assessment may be required";
         "Agricultural impact assessment"]
      else [])
  ++ (if contains "County" (MunicipalityLookup.name muni) then
        ["County road access approval"; "Fire protection plan";
         "Waste management plan"]
      else []).

(** The three calls made inside the [try] block, each of which either
    returns or raises. *)
Record internals : Type := {
  zoning_step :
    MunicipalityLookup.municipality -> property_info -> outcome (option zoning_info);
  bylaw_step :
    MunicipalityLookup.municipality -> outcome (option bylaw_info);
  requirements_step :
    MunicipalityLookup.municipality -> option string -> outcome (list string)
}.

(** The methods of the class: none of them raises. *)
Definition methods : internals :=
  {| zoning_step := fun muni p => Return (Some (_get_zoning_information muni p));
     bylaw_step := fun muni => Return (_get_bylaw_information muni);
     requirements_step :=
       fun muni z => Return (_get_development_requirements muni z) |}.

(** [policy_info.update(zoning_info)]. *)
Definition update (pi : policy_info) (zi : zoning_info) : policy_info :=
  {| municipality := municipality pi;
     zoning := Some (zi_zoning zi);
     land_use_bylaw := land_use_bylaw pi;
     permitted_uses := zi_permitted_uses zi;
     discretionary_uses := get_or (zi_discretionary_uses zi) (discretionary_uses pi);
     setbacks := zi_setbacks zi;
     density_restrictions := zi_density_restrictions zi;
     height_restrictions := zi_height_restrictions zi;
     special_provisions := special_provisions pi;
     development_requirements := development_requirements pi;
     contact_info := contact_info pi;
     bylaw_links := bylaw_links pi;
     last_updated := last_updated pi;
     error := error pi |}.

Definition set_land_use_bylaw (pi : policy_info) (b : bylaw_info) : policy_info :=
  {| municipality := municipality pi; zoning := zoning pi;
     land_use_bylaw := Some b;
     permitted_uses := permitted_uses pi;
     discretionary_uses := discretionary_uses pi;
     setbacks := setbacks pi;
     density_restrictions := density_restrictions pi;
     height_restrictions := height_restrictions pi;
     special_provisions := special_provisions pi;
     development_requirements := development_requirements pi;
     contact_info := contact_info pi; bylaw_links := bylaw_links pi;
     last_updated := last_updated pi; error := error pi |}.

Definition set_development_requirements (pi : policy_info) (r : list string)
  : policy_info :=
  {| municipality := municipality pi; zoning := zoning pi;
     land_use_bylaw := land_use_bylaw pi;
     permitted_uses := permitted_uses pi;
     discretionary_uses := discretionary_uses pi;
     setbacks := setbacks pi;
     density_restrictions := density_restrictions pi;
     height_restrictions := height_restrictions pi;
     special_provisions := special_provisions pi;
     development_requirements := r;
     contact_info := contact_info pi; bylaw_links := bylaw_links pi;
     last_updated := last_updated pi; error := error pi |}.

Definition set_error (pi : policy_info) (msg : string) : policy_info :=
  {| municipality := municipality pi; zoning := zoning pi;
     land_use_bylaw := land_use_bylaw pi;
     permitted_uses := permitted_uses pi;
     discretionary_uses := discretionary_uses pi;
     setbacks := setbacks pi;
     density_restrictions := density_restrictions pi;
     height_restrictions := height_restrictions pi;
     special_provisions := special_provisions pi;
     development_requirements := development_requirements pi;
     contact_info := contact_info pi; bylaw_links := bylaw_links pi;
     last_updated := last_updated pi; error := Some msg |}.

(** The record built before the [try] block. *)
Definition initial_policy (muni : MunicipalityLookup.municipality)
    (now : string) : policy_info :=
  {| municipality := MunicipalityLookup.name muni;
     zoning := None; land_use_bylaw := None;
     permitted_uses := []; discretionary_uses := [];
     setbacks := []; density_restrictions := []; height_restrictions := [];
     special_provisions := []; development_requirements := [];
     contact_info := MunicipalityLookup.contact_info (MunicipalityLookup.stored muni);
     bylaw_links := [];
     last_updated := now; error := None |}.

(** The body of the [try] block up to the statement that writes the cache:
    the policy record as it stands when the block is left, and the exception
    that left it, if any. *)
Definition try_block (impl : internals)
    (muni : MunicipalityLookup.municipality) (p : property_info)
    (pi : policy_info) : policy_info * option exn :=
  match zoning_step impl muni p with
  | Raise e => (pi, Some e)
  | Return zoning_info =>
      let pi := match zoning_info with
                | Some zi => update pi zi
                | None => pi
                end in
      match bylaw_step impl muni with
      | Raise e => (pi, Some e)
      | Return bylaw =>
          let pi := match bylaw with
                    | Some b => set_land_use_bylaw pi b
                    | None => pi
                    end in
          match requirements_step impl muni (zoning pi) with
          | Raise e => (pi, Some e)
          | Return reqs =>
              let pi := match reqs with
                        | [] => pi
                        | _ :: _ => set_development_requirements pi reqs
                        end in
              (pi, None)
          end
      end
  end.

(** [self.policy_cache]. *)
Definition cache := Dict.t policy_info.

(** The built-in [hash] applied to [str(property_info)]. *)
Definition hasher := property_info -> Z.

Definition cache_key (hash : hasher) (muni : MunicipalityLookup.municipality)
    (p : property_info) : string :=
  (MunicipalityLookup.name muni ++ "_" ++ str_of_int (hash p))%string.

(** [get_land_use_policies]: the returned record and the cache afterwards. *)
Definition get_land_use_policies (impl : internals) (hash : hasher)
    (now : string) (policy_cache : cache)
    (muni : MunicipalityLookup.municipality) (p : property_info)
  : policy_info * cache :=
  let key := cache_key hash muni p in
  (* Check cache first *)
  match Dict.get policy_cache key with
  | Some cached => (cached, policy_cache)
  | None =>
      match try_block impl muni p (initial_policy muni now) with
      | (pi, None) =>
          (* Cache the results *)
          (pi, Dict.set policy_cache key pi)
      | (pi, Some e) =>
          (set_error pi
             ("Error retrieving policy information: " ++ exn_str e)%string,
           policy_cache)
      end
  end.

Record cottage_potential : Type := {
  total_acreage : F64.float;
  developable_acreage : F64.float;
  estimated_cottage_units : Z;
  phased_development : bool;
  recommended_phase_1 : Z
}.

Record analysis : Type := {
  feasibility : string;
  potential : option cottage_potential;
  regulatory_considerations : list string;
  next_steps : list string
}.

Definition the_next_steps : list string :=
  ["Schedule pre-application meeting with planning department";
   "Obtain detailed zoning map and bylaw review";
   "Conduct environmental site assessment";
   "Verify utility capacity and availability";
   "Consult with development engineer";
   "Prepare preliminary site plan"].

Definition point_four : F64.float := F64.lit false 4 1.
Definition four_point_five : F64.float := F64.lit false 45 1.

(** [int(x)]: infinities raise [OverflowError], NaN raises [ValueError]. *)
Definition int_of_float (x : F64.float) : outcome Z :=
  match F64.trunc x with
  | Some z => Return z
  | None =>
      match x with
      | S754_nan => Raise (ValueError "cannot convert float NaN to integer")
      | _ => Raise (OverflowError "cannot convert float infinity to integer")
      end
  end.

(** The cottage potential computed in the "Rural Commercial" branch. *)
Definition cottage_units (policy : policy_info) (acreage : F64.float)
  : outcome (option cottage_potential) :=
  if F64.leb (F64.of_Z 14) acreage then
    let max_coverage :=
      get_or (Dict.get (density_restrictions policy) "maximum_site_coverage") "40%" in
    if contains "40%" max_coverage then
      let developable_area := F64.mul acreage point_four in
      match int_of_float (F64.mul developable_area four_point_five) with
      | Raise e => Raise e
      | Return potential_cottages =>
          Return (Some {| total_acreage := acreage;
                          developable_acreage := developable_area;
                          estimated_cottage_units := potential_cottages;
                          phased_development := true;
                          recommended_phase_1 := Z.min 5 potential_cottages |})
      end
    else Return None
  else Return None.

Definition get_cottage_development_analysis (policy : policy_info)
    (property_details : PropertyParser.property_details) : outcome analysis :=
  match zoning policy with
  | None => Raise (TypeError "argument of type 'NoneType' is not iterable")
  | Some zoning =>
      let acreage := get_or (PropertyParser.acreage property_details) (F64.of_Z 0) in
      if contains "Rural Commercial" zoning || contains "RC" zoning then
        match cottage_units policy acreage with
        | Raise e => Raise e
        | Return cp =>
            Return {| feasibility := "High";
                      potential := cp;
                      regulatory_considerations :=
                        ["Tourist accommodation is typically permitted use";
                         "Development permit required for each phase";
                         "Site plan approval needed";
                         "Septic system capacity assessment required";
                         "Water supply adequacy verification needed";
                         "Fire access and safety plan required"];
                      next_steps := the_next_steps |}
        end
      else if contains "Rural" zoning then
        Return {| feasibility := "Moderate";
                  potential := None;
                  regulatory_considerations :=
                    ["May require rezoning to Rural Commercial";
                     "Discretionary use application may be possible";
                     "Bed and breakfast operations typically allowed";
                     "Small scale tourism may be permitted"];
                  next_steps := the_next_steps |}
      else
        Return {| feasibility := "Low";
                  potential := None;
                  regulatory_considerations :=
                    ["Rezoning likely required";
                     "Commercial use not typically permitted";
                     "Significant regulatory hurdles expected"];
                  next_steps := the_next_steps |}
  end.

End PolicyRetrieval.

(* ================================================================== *)
(** ** The resolver on a store of objects

    In this second rendering of municipality_lookup.py dictionaries and
    lists are objects of a store, values refer to them by address,
    [dict.copy] allocates a new object that shares the nested objects of the
    original, and an item assignment updates the object it is applied to.  It
    is the rendering in which mutation of [municipalities_data] can be
    told apart from mutation of a copy. *)

Module Store.

Import Py.

Definition loc := nat.

Inductive value : Type :=
| VNone
| VStr (s : string)
| VInt (z : Z)
| VFloat (x : F64.float)
| VRef (l : loc).

Inductive object : Type :=
| ODict (d : Dict.t value)
| OList (l : list value).

Definition heap := list object.

(** A computation on the store: its outcome and the store it leaves. *)
Definition M (A : Type) : Type := heap -> outcome A * heap.

Definition ret {A} (a : A) : M A := fun h => (Return a, h).

Definition raise {A} (e : exn) : M A := fun h => (Raise e, h).

Definition bind {A B} (m : M A) (f : A -> M B) : M B :=
  fun h =>
    match m h with
    | (Return a, h') => f a h'
    | (Raise e, h') => (Raise e, h')
    end.

Notation "x <- m ;; k" := (bind m (fun x => k))
  (at level 61, m at next level, right associativity).
Notation "m ;;; k" := (bind m (fun _ => k))
  (at level 61, right associativity).

Definition alloc (o : object) : M value :=
  fun h => (Return (VRef (length h)), h ++ [o]).

Fixpoint put (h : heap) (l : loc) (o : object) : heap :=
  match h, l with
  | [], _ => []
  | _ :: h', O => o :: h'
  | x :: h', S l' => x :: put h' l' o
  end.

Definition read (l : loc) : M object :=
  fun h =>
    match nth_error h l with
    | Some o => (Return o, h)
    | None => (Raise (OtherException "dangling reference"), h)
    end.

Definition write (l : loc) (o : object) : M unit :=
  fun h => (Return tt, put h l o).

(** The entries of the dictionary a value refers to. *)
Definition as_dict (v : value) : M (Dict.t value) :=
  match v with
  | VRef l =>
      o <- read l ;;
      match o with
      | ODict d => ret d
      | OList _ => raise (TypeError "not a dictionary")
      end
  | _ => raise (TypeError "not a dictionary")
  end.

(** [d[k]]. *)
Definition getitem (v : value) (k : string) : M value :=
  d <- as_dict v ;;
  match Dict.get d k with
  | Some x => ret x
  | None => raise (OtherException k)          (* KeyError *)
  end.

(** [d.get(k)]. *)
Definition dict_get (v : value) (k : string) : M value :=
  d <- as_dict v ;;
  ret (match Dict.get d k with
       | Some x => x
       | None => VNone
       end).

(** [d.items()]. *)
Definition dict_items (v : value) : M (list (string * value)) := as_dict v.

(** [d.copy()]: a new dictionary with the same entries. *)
Definition dict_copy (v : value) : M value :=
  d <- as_dict v ;;
  alloc (ODict d).

(** [d[k] = x]. *)
Definition setitem (v : value) (k : string) (x : value) : M unit :=
  match v with
  | VRef l =>
      o <- read l ;;
      match o with
      | ODict d => write l (ODict (Dict.set d k x))
      | OList _ => raise (TypeError "not a dictionary")
      end
  | _ => raise (TypeError "object does not support item assignment")
  end.

(** Truthiness. *)
Definition truth (v : value) : M bool :=
  match v with
  | VNone => ret false
  | VStr s => ret (truthy s)
  | VInt z => ret (negb (z =? 0)%Z)
  | VFloat x => ret (negb (SFeqb x (S754_zero false)))
  | VRef l =>
      o <- read l ;;
      ret (match o with
           | ODict [] => false
           | OList [] => false
           | _ => true
           end)
  end.

Definition as_float (v : value) : M F64.float :=
  match v with
  | VFloat x => ret x
  | VInt z => ret (F64.of_Z z)
  | _ => raise (TypeError "a number is required")
  end.

Definition as_str (v : value) : M string :=
  match v with
  | VStr s => ret s
  | _ => raise (TypeError "a string is required")
  end.

(** *** The table as a tree of objects *)

Definition opt_entry (k : string) (o : option value) : Dict.t value :=
  match o with
  | Some v => [(k, v)]
  | None => []
  end.

Definition store_record (r : MunicipalityLookup.municipality_data) : M value :=
  coords <-
    match MunicipalityLookup.muni_coordinates r with
    | Some (lat, lon) =>
        c <- alloc (ODict [("lat", VFloat lat); ("lon", VFloat lon)]) ;;
        ret (Some c)
    | None => ret None
    end ;;
  ci <- alloc (ODict
                 [("phone", VStr (MunicipalityLookup.phone
                                    (MunicipalityLookup.contact_info r)));
                  ("address", VStr (MunicipalityLookup.contact_address
                                      (MunicipalityLookup.contact_info r)))]) ;;
  alloc (ODict
           ([("type", VStr (MunicipalityLookup.muni_type r))]
            ++ opt_entry "population"
                 (option_map VInt (MunicipalityLookup.population r))
            ++ opt_entry "coordinates" coords
            ++ [("website", VStr (MunicipalityLookup.website r));
                ("planning_dept", VStr (MunicipalityLookup.planning_dept r));
                ("land_use_bylaw", VStr (MunicipalityLookup.land_use_bylaw r))]
            ++ opt_entry "zoning_map"
                 (option_map VStr (MunicipalityLookup.zoning_map r))
            ++ [("contact_info", ci)])).

Fixpoint store_entries (entries : Dict.t MunicipalityLookup.municipality_data)
  : M (Dict.t value) :=
  match entries with
  | [] => ret []
  | (n, r) :: rest =>
      v <- store_record r ;;
      vs <- store_entries rest ;;
      ret ((n, v) :: vs)
  end.

(** [self.municipalities_data = self._load_municipalities_data()] for a
    table [t]: the address of the outer dictionary. *)
Definition store_table (t : MunicipalityLookup.table) : M value :=
  cs <- store_entries (MunicipalityLookup.cities t) ;;
  cities <- alloc (ODict cs) ;;
  ks <- store_entries (MunicipalityLookup.counties t) ;;
  counties <- alloc (ODict ks) ;;
  alloc (ODict [("cities", cities); ("counties", counties)]).

(** *** The resolver operations; [self] is [self.municipalities_data] *)

Fixpoint find_in (entries : list (string * value)) (cat name_lower : string)
  : M value :=
  match entries with
  | [] => ret VNone
  | (muni_name, data) :: rest =>
      if MunicipalityLookup.name_matches muni_name name_lower then
        result <- dict_copy data ;;
        setitem result "name" (VStr muni_name) ;;;
        setitem result "category" (VStr cat) ;;;
        ret result
      else find_in rest cat name_lower
  end.

Definition _find_by_name (self : value) (nm : string) : M value :=
  let name_lower := lower nm in
  cities <- getitem self "cities" ;;
  entries <- dict_items cities ;;
  found <- find_in entries "city" name_lower ;;
  match found with
  | VNone =>
      counties <- getitem self "counties" ;;
      entries <- dict_items counties ;;
      find_in entries "county" name_lower
  | _ => ret found
  end.

Definition closest : Type := value * F64.float.

Definition consider (dist : MunicipalityLookup.geodesic) (lat lon : F64.float)
    (category_name : string) (st : closest) (entry : string * value)
  : M closest :=
  let '(municipality_name, municipality_data) := entry in
  muni_coords <- dict_get municipality_data "coordinates" ;;
  present <- truth muni_coords ;;
  if present : bool then
    mlat_v <- getitem muni_coords "lat" ;;
    mlon_v <- getitem muni_coords "lon" ;;
    mlat <- as_float mlat_v ;;
    mlon <- as_float mlon_v ;;
    let distance := dist (lat, lon) (mlat, mlon) in
    if F64.ltb distance MunicipalityLookup.fifty && F64.ltb distance (snd st) then
      result <- dict_copy municipality_data ;;
      setitem result "name" (VStr municipality_name) ;;;
      setitem result "category" (VStr (rstrip_s category_name)) ;;;
      setitem result "distance_km" (VFloat distance) ;;;
      ret (result, distance)
    else ret st
  else ret st.

(** [for x in xs: st = body st x]. *)
Fixpoint for_each {S X} (body : S -> X -> M S) (xs : list X) (st : S) : M S :=
  match xs with
  | [] => ret st
  | x :: rest => st' <- body st x ;; for_each body rest st'
  end.

Definition scan_category (dist : MunicipalityLookup.geodesic)
    (lat lon : F64.float) (st : closest) (category : string * value)
  : M closest :=
  entries <- dict_items (snd category) ;;
  for_each (consider dist lat lon (fst category)) entries st.

Definition _find_by_coordinates (dist : MunicipalityLookup.geodesic)
    (self : value) (lat lon : F64.float) : M value :=
  categories <- dict_items self ;;
  st <- for_each (scan_category dist lat lon) categories (VNone, F64.inf) ;;
  ret (fst st).

Definition _find_by_legal_description (self : value)
    (legal_desc : PropertyParser.parsed_legal) : M value :=
  let components := PropertyParser.legal_components legal_desc in
  if mem (PropertyParser.legal_type legal_desc) ["quarter_section"; "section"] then
    match Dict.get components "township", Dict.get components "range" with
    | Some township, Some range_num =>
        if truthy township && truthy range_num then
          match int township, int range_num with
          | Some township_int, Some range_int =>
              if MunicipalityLookup.red_deer_band township_int range_int
              then _find_by_name self "Red Deer"
              else if MunicipalityLookup.edmonton_band township_int range_int
              then _find_by_name self "Edmonton"
              else if MunicipalityLookup.athabasca_band township_int range_int
              then _find_by_name self "Athabasca"
              else ret VNone
          | _, _ => ret VNone                 (* ValueError, caught *)
          end
        else ret VNone
    | _, _ => ret VNone
    end
  else ret VNone.

Fixpoint first_by_name (self : value) (hints : list string) : M value :=
  match hints with
  | [] => ret VNone
  | hint :: rest =>
      municipality <- _find_by_name self hint ;;
      match municipality with
      | VNone => first_by_name self rest
      | _ => ret municipality
      end
  end.

Definition _find_by_address_components (self : value)
    (address : PropertyParser.parsed_address) : M value :=
  first_by_name self
    (MunicipalityLookup._extract_location_hints
       (PropertyParser.full_address address)).

(** [m] if it found a municipality, else [next]. *)
Definition or_else (m next : M value) : M value :=
  found <- m ;;
  match found with
  | VNone => next
  | _ => ret found
  end.

Definition find_municipality (dist : MunicipalityLookup.geodesic)
    (self : value) (p : PropertyParser.property_info) : M value :=
  or_else (first_by_name self (PropertyParser.municipality_hints p))
  (or_else
     match PropertyParser.coordinates_of p with
     | Some c => _find_by_coordinates dist self (PropertyParser.latitude c)
                   (PropertyParser.longitude c)
     | None => ret VNone
     end
  (or_else
     match PropertyParser.parsed_legal_of p with
     | Some legal_desc =>
         if negb (String.eqb (PropertyParser.legal_type legal_desc) "unknown")
         then _find_by_legal_description self legal_desc
         else ret VNone
     | None => ret VNone
     end
     match PropertyParser.parsed_address_of p with
     | Some address => _find_by_address_components self address
     | None => ret VNone
     end)).

(** The copies made by the loops of [get_supported_municipalities], each
    with the name it is sorted by. *)
Definition copy_entry (category_name : string) (acc : list (string * value))
    (entry : string * value) : M (list (string * value)) :=
  municipality <- dict_copy (snd entry) ;;
  setitem municipality "name" (VStr (fst entry)) ;;;
  setitem municipality "category" (VStr (rstrip_s category_name)) ;;;
  ret (acc ++ [(fst entry, municipality)]).

Definition copy_category (acc : list (string * value))
    (category : string * value) : M (list (string * value)) :=
  entries <- dict_items (snd category) ;;
  for_each (copy_entry (fst category)) entries acc.

Fixpoint insert_by_key (x : string * value) (l : list (string * value))
  : list (string * value) :=
  match l with
  | [] => [x]
  | y :: l' =>
      if String.ltb (fst y) (fst x) then y :: insert_by_key x l'
      else x :: l
  end.

Definition get_supported_municipalities (self : value) : M value :=
  categories <- dict_items self ;;
  municipalities <- for_each copy_category categories [] ;;
  alloc (OList (map snd (fold_right insert_by_key [] municipalities))).

Definition get_municipality_details (self : value) (municipality_name : string)
  : M value :=
  municipality <- _find_by_name self municipality_name ;;
  match municipality with
  | VNone => ret municipality
  | _ =>
      services <- alloc (OList [VStr "Land Use Bylaw Information";
                                VStr "Zoning Maps";
                                VStr "Development Permits";
                                VStr "Subdivision Applications";
                                VStr "Planning Consultation"]) ;;
      setitem municipality "supported_services" services ;;;
      times <- alloc (ODict [("development_permit", VStr "4-6 weeks");
                             ("subdivision", VStr "3-6 months");
                             ("rezoning", VStr "6-12 months")]) ;;
      setitem municipality "typical_processing_times" times ;;;
      ret municipality
  end.

End Store.

(* ================================================================== *)
(** ** app.py

    The request handler [analyze_property] without its transport: the JSON
    body is a dictionary of strings, the reply is the status with the
    results or the error message.  [str] of a dictionary, used in the
    considerations, and the clock are parameters. *)

Module App.

Import Py.

Record feasibility_summary : Type := {
  development_potential : string;
  key_considerations : list string;
  recommended_actions : list string
}.

(** [any(term in zoning.lower() for term in terms)]. *)
Definition any_term (terms : list string) (zoning : string) : bool :=
  existsb (fun term => contains term (lower zoning)) terms.

Definition nonempty {A} (l : list A) : bool :=
  match l with
  | [] => false
  | _ :: _ => true
  end.

Definition _generate_feasibility_summary (dict_str : Dict.t string -> string)
    (policy_info : PolicyRetrieval.policy_info) : feasibility_summary :=
  let potential :=
    match PolicyRetrieval.zoning policy_info with
    | Some zoning =>
        if truthy zoning then
          (* Analyze zoning for development potential *)
          if any_term ["residential"; "commercial"; "mixed"] zoning then "High"
          else if any_term ["agricultural"; "rural"] zoning then "Moderate"
          else "Low"
        else "Unknown"
    | None => "Unknown"
    end in
  {| development_potential := potential;
     key_considerations :=
       (if nonempty (PolicyRetrieval.setbacks policy_info)
        then [("Setback requirements: "
               ++ dict_str (PolicyRetrieval.setbacks policy_info))%string]
        else [])
       ++ (if nonempty (PolicyRetrieval.density_restrictions policy_info)
           then [("Density restrictions: "
                  ++ dict_str (PolicyRetrieval.density_restrictions policy_info))%string]
           else [])
       ++ PolicyRetrieval.special_provisions policy_info;
     recommended_actions :=
       ["Consult with municipal planning department";
        "Review detailed zoning bylaws";
        "Consider environmental assessments if required";
        "Verify utility availability and capacity"] |}.

Record results : Type := {
  property_info : PropertyParser.property_info;
  municipality_info : MunicipalityLookup.municipality;
  policy_info : PolicyRetrieval.policy_info;
  analysis_date : string;
  summary : feasibility_summary
}.

Inductive response : Type :=
| Ok (r : results)                       (* status 200 *)
| Error (status : nat) (message : string).

(** What the handler reads from its surroundings. *)
Record environment : Type := {
  geo : PropertyParser.geolocator;
  dist : MunicipalityLookup.geodesic;
  table : MunicipalityLookup.table;
  hash : PolicyRetrieval.hasher;
  clock : string;                        (* time.strftime *)
  today : string;                        (* datetime.now().isoformat() *)
  dict_str : Dict.t string -> string
}.

(** [data.get(k, '')]. *)
Definition field (data : Dict.t string) (k : string) : string :=
  match Dict.get data k with
  | Some v => v
  | None => ""
  end.

Definition analyze_property (env : environment)
    (policy_cache : PolicyRetrieval.cache) (data : Dict.t string)
  : response * PolicyRetrieval.cache :=
  (* Parse property information *)
  match PropertyParser.parse_property_info (geo env)
          (field data "address") (field data "legal_description")
          (field data "additional_info") with
  | None => (Error 400 "Unable to parse property information", policy_cache)
  | Some p =>
      (* Lookup municipality *)
      match MunicipalityLookup.find_municipality (dist env) (table env) p with
      | None =>
          (Error 404 "Municipality not found or not supported", policy_cache)
      | Some muni =>
          (* Retrieve policies and zoning information *)
          let '(policy, policy_cache') :=
            PolicyRetrieval.get_land_use_policies PolicyRetrieval.methods
              (hash env) (clock env) policy_cache muni p in
          (Ok {| property_info := p;
                 municipality_info := muni;
                 policy_info := policy;
                 analysis_date := today env;
                 summary := _generate_feasibility_summary (dict_str env) policy |},
           policy_cache')
      end
  end.

End App.

(* ================================================================== *)
(** * Properties *)

(** A stand-in for the geodesic distance in the examples: two points with
    the same coordinates are 0 km apart, any two others 1000 km. *)
Definition on_the_spot : MunicipalityLookup.geodesic :=
  fun p q =>
    if SFeqb (fst p) (fst q) && SFeqb (snd p) (snd q)
    then S754_zero false else F64.of_Z 1000.

(** A geocoding service that finds nothing. *)
Definition nowhere : PropertyParser.geolocator :=
  fun _ => PropertyParser.NoLocation.

(* ------------------------------------------------------------------ *)
(** ** The validity gate of the parser *)

Section ValidityGate.

Import PropertyParser.

Variable geo : geolocator.

(** The six signals of an input triple, as [parse_property_info] computes
    them before the gate. *)
Definition address_signal (address : string) : bool :=
  typed_address (if Py.truthy address then Some (_parse_address address) else None).

Definition legal_signal (legal_description : string) : bool :=
  typed_legal (if Py.truthy legal_description
               then Some (_parse_legal_description legal_description) else None).

Definition coordinate_signal (address : string) : bool :=
  is_some (if Py.truthy address then _geocode_address geo address else None).

Definition hint_signal (address legal_description additional_info : string) : bool :=
  (0 <? length (_extract_municipality_hints
                  (address ++ " " ++ legal_description ++ " " ++ additional_info)%string))%nat.

Definition detail_signal (additional_info : string) : bool :=
  (0 <? details_len (if Py.truthy additional_info
                     then _extract_property_details additional_info
                     else no_details))%nat.

Definition raw_signal (address legal_description additional_info : string) : bool :=
  Py.truthy address || Py.truthy legal_description || Py.truthy additional_info.

Lemma gate_unfold address legal_description additional_info :
  parse_property_info geo address legal_description additional_info = None <->
  (address_signal address || legal_signal legal_description ||
   coordinate_signal address ||
   hint_signal address legal_description additional_info ||
   detail_signal additional_info ||
   raw_signal address legal_description additional_info) = false.
Proof.
  unfold parse_property_info, _is_valid_property_info, has_address, has_legal,
    has_coordinates, has_municipality_hints, has_property_details,
    has_raw_input, address_signal, legal_signal, coordinate_signal,
    hint_signal, detail_signal, raw_signal; cbn [raw parsed_address_of
    parsed_legal_of coordinates_of municipality_hints details raw_address
    raw_legal_description raw_additional_info].
  match goal with
  | |- (if ?b then _ else _) = None <-> _ => destruct b
  end; split; intro H; try reflexivity; discriminate H.
Qed.

Lemma truthy_false s : Py.truthy s = false -> s = "".
Proof. destruct s; [reflexivity | discriminate]. Qed.

Lemma empty_input_has_no_signal :
  (address_signal "" || legal_signal "" || coordinate_signal "" ||
   hint_signal "" "" "" || detail_signal "" || raw_signal "" "" "") = false.
Proof. reflexivity. Qed.

End ValidityGate.

(** C3.  An input triple without any parsable signal (no typed address, no
    typed legal description, no coordinates, no municipality hint, no
    property detail, all three raw texts empty) makes [parse_property_info]
    return [None]; no record comes back. *)
Theorem parse_property_info_no_signal_none :
  forall geo address legal_description additional_info,
    address_signal address = false ->
    legal_signal legal_description = false ->
    coordinate_signal geo address = false ->
    hint_signal address legal_description additional_info = false ->
    detail_signal additional_info = false ->
    raw_signal address legal_description additional_info = false ->
    PropertyParser.parse_property_info geo address legal_description
      additional_info = None.
Proof.
  intros geo a l i Ha Hl Hc Hh Hd Hr.
  apply gate_unfold.
  rewrite Ha, Hl, Hc, Hh, Hd, Hr. reflexivity.
Qed.

Lemma parse_property_info_no_signal_none_witness :
  PropertyParser.parse_property_info nowhere "" "" "" = None.
Proof.
  apply (parse_property_info_no_signal_none nowhere "" "" "");
    reflexivity.
Defined.

(** The gate fails on the empty triple only: as soon as one of the three
    texts is not empty a record is returned. *)
Lemma parse_property_info_none_iff_empty :
  forall geo address legal_description additional_info,
    PropertyParser.parse_property_info geo address legal_description
      additional_info = None <->
    address = "" /\ legal_description = "" /\ additional_info = "".
Proof.
  intros geo a l i. rewrite gate_unfold. split.
  - intro H. repeat (apply orb_false_iff in H; destruct H as [H ?]).
    match goal with
    | R : raw_signal _ _ _ = false |- _ =>
        unfold raw_signal in R;
        repeat (apply orb_false_iff in R; destruct R as [R ?])
    end.
    repeat split; apply truthy_false; assumption.
  - intros (-> & -> & ->). apply empty_input_has_no_signal.
Qed.

(** A returned record always satisfies the gate. *)
Lemma parse_property_info_valid :
  forall geo address legal_description additional_info p,
    PropertyParser.parse_property_info geo address legal_description
      additional_info = Some p ->
    PropertyParser._is_valid_property_info p = true.
Proof.
  intros geo a l i p. unfold PropertyParser.parse_property_info.
  match goal with
  | |- (if ?b then _ else _) = _ -> _ => destruct b eqn:E
  end; intro H; [| discriminate].
  injection H as <-. exact E.
Qed.

(* ------------------------------------------------------------------ *)
(** ** The resolver: order of the strategies *)

Section StrategyOrder.

Import PropertyParser MunicipalityLookup.

Variable dist : geodesic.
Variable t : table.

(** [first_by_name] returns the match of the first hint that has one. *)
Lemma first_by_name_some hints m :
  first_by_name t hints = Some m <->
  exists pre h post,
    hints = pre ++ h :: post /\
    Forall (fun x => _find_by_name t x = None) pre /\
    _find_by_name t h = Some m.
Proof.
  revert m. induction hints as [| x hints IH]; intro m; cbn [first_by_name].
  - split; [discriminate |].
    intros (pre & h & post & E & _). destruct pre; discriminate E.
  - destruct (_find_by_name t x) as [mx |] eqn:Ex.
    + split.
      * intro H. injection H as <-.
        exists [], x, hints. split; [reflexivity | split; [constructor | exact Ex]].
      * intros (pre & h & post & E & Hpre & Hh).
        destruct pre as [| y pre]; cbn in E; injection E as E1 E2; subst.
        -- congruence.
        -- inversion Hpre; congruence.
    + rewrite IH. split.
      * intros (pre & h & post & E & Hpre & Hh).
        exists (x :: pre), h, post. rewrite E.
        split; [reflexivity | split; [constructor |]; assumption].
      * intros (pre & h & post & E & Hpre & Hh).
        destruct pre as [| y pre]; cbn in E; injection E as E1 E2; subst.
        -- congruence.
        -- exists pre, h, post. inversion Hpre; subst.
           split; [reflexivity | split; assumption].
Qed.

Lemma first_by_name_none hints :
  first_by_name t hints = None <->
  Forall (fun x => _find_by_name t x = None) hints.
Proof.
  induction hints as [| x hints IH]; cbn [first_by_name].
  - split; [constructor | reflexivity].
  - destruct (_find_by_name t x) eqn:Ex.
    + split; [discriminate | intro H; inversion H; congruence].
    + rewrite IH. split; [constructor; assumption | intro H; inversion H; assumption].
Qed.

Lemma first_by_name_in hints h m :
  In h hints -> _find_by_name t h = Some m ->
  exists m0, first_by_name t hints = Some m0.
Proof.
  intros Hin Hh. destruct (first_by_name t hints) as [m0 |] eqn:E.
  - exists m0. reflexivity.
  - apply first_by_name_none in E. rewrite Forall_forall in E.
    specialize (E h Hin). congruence.
Qed.

(** Strategy 1 decides whenever it succeeds, whatever the other fields of
    the record are. *)
Lemma find_municipality_by_hint p m :
  first_by_name t (municipality_hints p) = Some m ->
  find_municipality dist t p = Some m.
Proof. intro H. unfold find_municipality. rewrite H. reflexivity. Qed.

(** The chain with its strategies named: each one is tried only when the
    ones before it returned [None]. *)
Lemma find_municipality_chain p :
  find_municipality dist t p =
  match first_by_name t (municipality_hints p) with
  | Some m => Some m
  | None =>
      match match coordinates_of p with
            | Some c => _find_by_coordinates dist t (latitude c) (longitude c)
            | None => None
            end with
      | Some m => Some m
      | None =>
          match match parsed_legal_of p with
                | Some ld =>
                    if negb (String.eqb (legal_type ld) "unknown")
                    then _find_by_legal_description t ld else None
                | None => None
                end with
          | Some m => Some m
          | None =>
              match parsed_address_of p with
              | Some a => _find_by_address_components t a
              | None => None
              end
          end
      end
  end.
Proof. reflexivity. Qed.

End StrategyOrder.

(** C1.  Strategy 1 has precedence.  When a record carries a hint [h] that
    matches a municipality, and coordinates that the coordinate strategy
    resolves to a municipality [m_near] different from every municipality a
    hint matches, [find_municipality] returns the match of the first
    matching hint and not [m_near]. *)
Theorem find_municipality_name_hint_first :
  forall dist t p h m c m_near,
    In h (PropertyParser.municipality_hints p) ->
    MunicipalityLookup._find_by_name t h = Some m ->
    PropertyParser.coordinates_of p = Some c ->
    MunicipalityLookup._find_by_coordinates dist t
      (PropertyParser.latitude c) (PropertyParser.longitude c) = Some m_near ->
    (forall x mx, In x (PropertyParser.municipality_hints p) ->
                  MunicipalityLookup._find_by_name t x = Some mx ->
                  MunicipalityLookup.name mx <> MunicipalityLookup.name m_near) ->
    exists pre h0 post m0,
      PropertyParser.municipality_hints p = pre ++ h0 :: post /\
      Forall (fun x => MunicipalityLookup._find_by_name t x = None) pre /\
      MunicipalityLookup._find_by_name t h0 = Some m0 /\
      MunicipalityLookup.find_municipality dist t p = Some m0 /\
      MunicipalityLookup.find_municipality dist t p <> Some m_near.
Proof.
  intros dist t p h m c m_near Hin Hh Hc Hnear Hdiff.
  destruct (first_by_name_in t _ h m Hin Hh) as [m0 H0].
  pose proof H0 as H1. apply first_by_name_some in H1.
  destruct H1 as (pre & h0 & post & E & Hpre & Hh0).
  exists pre, h0, post, m0. repeat split; try assumption.
  - apply find_municipality_by_hint. exact H0.
  - rewrite (find_municipality_by_hint dist t p m0 H0).
    intro Heq. injection Heq as ->.
    apply (Hdiff h0 m_near); [| exact Hh0 | reflexivity].
    rewrite E. apply in_or_app. right. left. reflexivity.
Qed.

(** A record with the hint "Red Deer" and the coordinates of Edmonton. *)
Definition red_deer_hint_at_edmonton : PropertyParser.property_info :=
  {| PropertyParser.raw :=
       {| PropertyParser.raw_address := "";
          PropertyParser.raw_legal_description := "";
          PropertyParser.raw_additional_info := "near Red Deer" |};
     PropertyParser.parsed_address_of := None;
     PropertyParser.parsed_legal_of := None;
     PropertyParser.coordinates_of :=
       Some {| PropertyParser.latitude := MunicipalityLookup.north 535461;
               PropertyParser.longitude := MunicipalityLookup.west 1134938;
               PropertyParser.display_name := "Edmonton, Alberta, Canada" |};
     PropertyParser.municipality_hints := ["Red Deer"];
     PropertyParser.details := PropertyParser.no_details |}.

Lemma find_municipality_name_hint_first_witness :
  option_map MunicipalityLookup.name
    (MunicipalityLookup._find_by_coordinates on_the_spot
       MunicipalityLookup._load_municipalities_data
       (MunicipalityLookup.north 535461) (MunicipalityLookup.west 1134938))
  = Some "Edmonton" /\
  exists pre h0 post m0,
    PropertyParser.municipality_hints red_deer_hint_at_edmonton
      = pre ++ h0 :: post /\
    Forall (fun x => MunicipalityLookup._find_by_name
                       MunicipalityLookup._load_municipalities_data x = None) pre /\
    MunicipalityLookup._find_by_name
      MunicipalityLookup._load_municipalities_data h0 = Some m0 /\
    MunicipalityLookup.find_municipality on_the_spot
      MunicipalityLookup._load_municipalities_data red_deer_hint_at_edmonton
      = Some m0 /\
    MunicipalityLookup.find_municipality on_the_spot
      MunicipalityLookup._load_municipalities_data red_deer_hint_at_edmonton
      <> Some
           {| MunicipalityLookup.stored :=
                MunicipalityLookup.city "city" 1010899
                  (MunicipalityLookup.north 535461)
                  (MunicipalityLookup.west 1134938)
                  "https://www.edmonton.ca" "development@edmonton.ca"
                  "https://www.edmonton.ca/city_government/bylaws/zoning-bylaw"
                  (Some "https://maps.edmonton.ca/map.aspx?id=ZoningBylaw")
                  "311" "1 Sir Winston Churchill Square, Edmonton, AB T5J 2R7";
              MunicipalityLookup.name := "Edmonton";
              MunicipalityLookup.category := "citie";
              MunicipalityLookup.distance_km := Some (S754_zero false);
              MunicipalityLookup.supported_services := None;
              MunicipalityLookup.typical_processing_times := None |}.
Proof.
  split; [vm_compute; reflexivity |].
  eapply (find_municipality_name_hint_first on_the_spot
            MunicipalityLookup._load_municipalities_data
            red_deer_hint_at_edmonton "Red Deer").
  - left. reflexivity.
  - vm_compute. reflexivity.
  - reflexivity.
  - vm_compute. reflexivity.
  - intros x mx [<- | []] Hx. vm_compute in Hx. injection Hx as <-.
    vm_compute. discriminate.
Defined.

(* ------------------------------------------------------------------ *)
(** ** The resolver: the 50 km bound of the coordinate strategy *)

Section CoordinateBound.

Import MunicipalityLookup.

Variable dist : geodesic.
Variable t : table.
Variables lat lon : F64.float.

(** [m] is the copy of a stored record whose reference point lies less
    than 50 km from the query point; its "distance_km" is that distance. *)
Definition within_fifty (m : municipality) : Prop :=
  exists category_name entries coords,
    In (category_name, entries) (items t) /\
    In (name m, stored m) entries /\
    category m = Py.rstrip_s category_name /\
    muni_coordinates (stored m) = Some coords /\
    distance_km m = Some (dist (lat, lon) coords) /\
    F64.ltb (dist (lat, lon) coords) fifty = true.

Definition bounded (st : closest) : Prop :=
  match fst st with
  | None => True
  | Some m => within_fifty m
  end.

Lemma consider_bounded category_name entries st entry :
  In (category_name, entries) (items t) ->
  In entry entries ->
  bounded st ->
  bounded (consider dist lat lon category_name st entry).
Proof.
  intros Hcat Hin Hst. destruct entry as [n data]. unfold consider.
  destruct (muni_coordinates data) as [mc |] eqn:Emc; [| exact Hst].
  destruct (F64.ltb (dist (lat, lon) mc) fifty) eqn:E50; [| exact Hst].
  destruct (F64.ltb (dist (lat, lon) mc) (snd st)); [| exact Hst].
  cbn [andb bounded fst].
  exists category_name, entries, mc. cbn.
  repeat split; assumption.
Qed.

Lemma scan_entries_bounded category_name entries :
  In (category_name, entries) (items t) ->
  forall todo st,
    incl todo entries ->
    bounded st ->
    bounded (fold_left (consider dist lat lon category_name) todo st).
Proof.
  intros Hcat todo. induction todo as [| e todo IH]; intros st Hincl Hst.
  - exact Hst.
  - cbn [fold_left]. apply IH.
    + intros x Hx. apply Hincl. right. exact Hx.
    + apply (consider_bounded category_name entries); try assumption.
      apply Hincl. left. reflexivity.
Qed.

Lemma scan_categories_bounded :
  forall todo st,
    incl todo (items t) ->
    bounded st ->
    bounded (fold_left (scan_category dist lat lon) todo st).
Proof.
  induction todo as [| c todo IH]; intros st Hincl Hst.
  - exact Hst.
  - cbn [fold_left]. apply IH.
    + intros x Hx. apply Hincl. right. exact Hx.
    + destruct c as [cn entries]. unfold scan_category. cbn [fst snd].
      apply (scan_entries_bounded cn entries).
      * apply Hincl. left. reflexivity.
      * apply incl_refl.
      * exact Hst.
Qed.

End CoordinateBound.

(** The invariant at the end of the two loops. *)
Lemma find_by_coordinates_bounded :
  forall dist t lat lon m,
    MunicipalityLookup._find_by_coordinates dist t lat lon = Some m ->
    within_fifty dist t lat lon m.
Proof.
  intros dist t lat lon m Hm.
  pose proof (scan_categories_bounded dist t lat lon
                (MunicipalityLookup.items t) (None, F64.inf)
                (incl_refl _) I) as H.
  unfold MunicipalityLookup._find_by_coordinates in Hm.
  unfold bounded in H. rewrite Hm in H. exact H.
Qed.

(** C7.  For every query point the coordinate strategy returns [None] or
    the copy of a stored record whose distance from the query point, as
    computed by the geodesic function, is below 50 km; that distance is the
    "distance_km" of the result. *)
Theorem find_by_coordinates_within_50km :
  forall dist t lat lon,
    MunicipalityLookup._find_by_coordinates dist t lat lon = None \/
    exists m,
      MunicipalityLookup._find_by_coordinates dist t lat lon = Some m /\
      within_fifty dist t lat lon m.
Proof.
  intros dist t lat lon.
  destruct (MunicipalityLookup._find_by_coordinates dist t lat lon)
    as [m |] eqn:E.
  - right. exists m. split; [reflexivity |].
    apply find_by_coordinates_bounded. exact E.
  - left. reflexivity.
Qed.

(** The bound read on the result. *)
Corollary find_by_coordinates_never_far :
  forall dist t lat lon m,
    MunicipalityLookup._find_by_coordinates dist t lat lon = Some m ->
    exists d,
      MunicipalityLookup.distance_km m = Some d /\
      F64.ltb d MunicipalityLookup.fifty = true.
Proof.
  intros dist t lat lon m Hm.
  destruct (find_by_coordinates_bounded dist t lat lon m Hm)
    as (cn & entries & coords & _ & _ & _ & _ & Hd & Hlt).
  exists (dist (lat, lon) coords). split; [exact Hd | exact Hlt].
Qed.

(** At the coordinates of Edmonton, with the stand-in distance, the
    strategy returns the Edmonton record at distance 0. *)
Example find_by_coordinates_at_edmonton :
  option_map (fun m => (MunicipalityLookup.name m,
                        MunicipalityLookup.category m,
                        MunicipalityLookup.distance_km m))
    (MunicipalityLookup._find_by_coordinates on_the_spot
       MunicipalityLookup._load_municipalities_data
       (MunicipalityLookup.north 535461) (MunicipalityLookup.west 1134938))
  = Some ("Edmonton", "citie", Some (S754_zero false)).
Proof. vm_compute. reflexivity. Qed.

(* ------------------------------------------------------------------ *)
(** ** The resolver: the legal-description heuristic *)

Section LegalDescription.

Import PropertyParser MunicipalityLookup.

(** The table of the program. *)
Definition the_table : table := _load_municipalities_data.

(** The record [_find_by_name] builds for the city stored under [n]. *)
Definition the_city (n : string) : option municipality :=
  option_map (fun data => named_copy data n "city") (Dict.get (cities the_table) n).

Lemma find_red_deer : _find_by_name the_table "Red Deer" = the_city "Red Deer".
Proof. vm_compute. reflexivity. Qed.

Lemma find_edmonton : _find_by_name the_table "Edmonton" = the_city "Edmonton".
Proof. vm_compute. reflexivity. Qed.

Lemma find_athabasca : _find_by_name the_table "Athabasca" = the_city "Athabasca".
Proof. vm_compute. reflexivity. Qed.

Lemma the_city_some n m : the_city n = Some m -> name m = n.
Proof.
  unfold the_city. destruct (Dict.get (cities the_table) n); [| discriminate].
  intro H. injection H as <-. reflexivity.
Qed.

Lemma int_truthy s z : Py.int s = Some z -> Py.truthy s = true.
Proof. destruct s; [discriminate | reflexivity]. Qed.

(** The bands as the [if]/[elif] chain decides them. *)
Definition decided_band (township_int range_int : Z) : option string :=
  if red_deer_band township_int range_int then Some "Red Deer"
  else if edmonton_band township_int range_int then Some "Edmonton"
  else if athabasca_band township_int range_int then Some "Athabasca"
  else None.

Lemma decided_band_spec township_int range_int n :
  decided_band township_int range_int = Some n <->
  (20 <= range_int <= 30)%Z /\
  ((40 <= township_int <= 50)%Z /\ n = "Red Deer" \/
   (51 <= township_int <= 60)%Z /\ n = "Edmonton" \/
   (61 <= township_int <= 70)%Z /\ n = "Athabasca").
Proof.
  unfold decided_band, red_deer_band, edmonton_band, athabasca_band, range_20_30.
  repeat match goal with
         | |- context [(?a <=? ?b)%Z] => destruct (Z.leb_spec a b)
         end; cbn [andb]; split.
  all: try (intro Hn; discriminate Hn).
  all: try (intro Hn; injection Hn as <-; split; [lia |];
            first [ left; split; [lia | reflexivity]
                  | right; left; split; [lia | reflexivity]
                  | right; right; split; [lia | reflexivity] ]).
  all: intros [? [[? E] | [[? E] | [? E]]]]; rewrite E;
    solve [reflexivity | exfalso; lia].
Qed.

Lemma find_by_legal_description_unfold ld :
  _find_by_legal_description the_table ld =
  if Py.mem (legal_type ld) ["quarter_section"; "section"] then
    match Dict.get (legal_components ld) "township",
          Dict.get (legal_components ld) "range" with
    | Some township, Some range_num =>
        if Py.truthy township && Py.truthy range_num then
          match Py.int township, Py.int range_num with
          | Some township_int, Some range_int =>
              match decided_band township_int range_int with
              | Some n => the_city n
              | None => None
              end
          | _, _ => None
          end
        else None
    | _, _ => None
    end
  else None.
Proof.
  unfold _find_by_legal_description, decided_band.
  destruct (Py.mem _ _); [| reflexivity].
  destruct (Dict.get _ "township") as [ts |]; [| reflexivity].
  destruct (Dict.get _ "range") as [rs |]; [| reflexivity].
  destruct (Py.truthy ts && Py.truthy rs); [| reflexivity].
  destruct (Py.int ts) as [ti |]; [| reflexivity].
  destruct (Py.int rs) as [ri |]; [| reflexivity].
  destruct (red_deer_band ti ri); [apply find_red_deer |].
  destruct (edmonton_band ti ri); [apply find_edmonton |].
  destruct (athabasca_band ti ri); [apply find_athabasca | reflexivity].
Qed.

End LegalDescription.

(** C4, as the code has it.  The legal-description strategy returns a
    municipality exactly when the type is quarter_section or section and the
    township and range components are integer numerals with range in 20..30
    and township in 40..50 (Red Deer), 51..60 (Edmonton) or 61..70
    (Athabasca); the conditions written in the code share the townships 50
    and 60, which the order of the chain gives to Red Deer and to Edmonton.
    Every other input gives [None]. *)
Theorem find_by_legal_description_bands :
  forall ld m,
    MunicipalityLookup._find_by_legal_description the_table ld = Some m <->
    Py.mem (PropertyParser.legal_type ld) ["quarter_section"; "section"] = true /\
    exists township range_num township_int range_int,
      Dict.get (PropertyParser.legal_components ld) "township" = Some township /\
      Dict.get (PropertyParser.legal_components ld) "range" = Some range_num /\
      Py.int township = Some township_int /\
      Py.int range_num = Some range_int /\
      (20 <= range_int <= 30)%Z /\
      ((40 <= township_int <= 50)%Z /\ the_city "Red Deer" = Some m \/
       (51 <= township_int <= 60)%Z /\ the_city "Edmonton" = Some m \/
       (61 <= township_int <= 70)%Z /\ the_city "Athabasca" = Some m).
Proof.
  intros ld m. rewrite find_by_legal_description_unfold.
  destruct (Py.mem _ _); [| split; [discriminate | intros [H _]; discriminate H]].
  split.
  - intro H. split; [reflexivity |].
    destruct (Dict.get _ "township") as [ts |]; [| discriminate H].
    destruct (Dict.get _ "range") as [rs |]; [| discriminate H].
    destruct (Py.truthy ts && Py.truthy rs); [| discriminate H].
    destruct (Py.int ts) as [ti |] eqn:Eti; [| discriminate H].
    destruct (Py.int rs) as [ri |] eqn:Eri; [| discriminate H].
    destruct (decided_band ti ri) as [n |] eqn:Eb; [| discriminate H].
    apply decided_band_spec in Eb. destruct Eb as [Hr Hb].
    exists ts, rs, ti, ri.
    split; [reflexivity |]. split; [reflexivity |].
    split; [exact Eti |]. split; [exact Eri |].
    split; [exact Hr |].
    destruct Hb as [[Ht ->] | [[Ht ->] | [Ht ->]]]; auto.
  - intros [_ (ts & rs & ti & ri & Ets & Ers & Eti & Eri & Hr & Hb)].
    rewrite Ets, Ers, Eti, Eri.
    rewrite (int_truthy ts ti Eti), (int_truthy rs ri Eri). cbn [andb].
    assert (exists n, decided_band ti ri = Some n /\ the_city n = Some m)
      as (n & En & Em).
    { destruct Hb as [[Ht E] | [[Ht E] | [Ht E]]];
        [exists "Red Deer" | exists "Edmonton" | exists "Athabasca"];
        (split; [apply decided_band_spec; split; [exact Hr | auto] | exact E]). }
    rewrite En. exact Em.
Qed.

(** The three effective bands are pairwise disjoint: the municipality is a
    function of the township and the range. *)
Lemma decided_band_functional :
  forall township_int range_int n n',
    decided_band township_int range_int = Some n ->
    decided_band township_int range_int = Some n' -> n = n'.
Proof. intros ti ri n n' H H'. congruence. Qed.

(** Township 50, range 25 satisfies the condition written for Red Deer and
    the one written for Edmonton, and township 60 the ones for Edmonton and
    Athabasca; "SW 14-50-25-W4" resolves to Red Deer although it lies in the
    band 50..60 stated for Edmonton. *)
Lemma legal_bands_overlap_at_50 :
  MunicipalityLookup.red_deer_band 50 25 = true /\
  MunicipalityLookup.edmonton_band 50 25 = true /\
  MunicipalityLookup.edmonton_band 60 25 = true /\
  MunicipalityLookup.athabasca_band 60 25 = true /\
  option_map MunicipalityLookup.name
    (MunicipalityLookup._find_by_legal_description the_table
       (PropertyParser._parse_legal_description "SW 14-50-25-W4"))
  = Some "Red Deer" /\
  ~ (forall township_int range_int,
        MunicipalityLookup.red_deer_band township_int range_int = true ->
        MunicipalityLookup.edmonton_band township_int range_int = false).
Proof.
  repeat split; try (vm_compute; reflexivity).
  intro H. specialize (H 50%Z 25%Z eq_refl). discriminate H.
Qed.

Lemma find_by_legal_description_bands_witness :
  exists m,
    MunicipalityLookup._find_by_legal_description the_table
      (PropertyParser._parse_legal_description "SW 14-55-25-W4") = Some m /\
    MunicipalityLookup.name m = "Edmonton".
Proof.
  destruct (the_city "Edmonton") as [m |] eqn:E; [| discriminate E].
  exists m. split.
  - apply (find_by_legal_description_bands
             (PropertyParser._parse_legal_description "SW 14-55-25-W4") m).
    split; [reflexivity |].
    exists "55", "25", 55%Z, 25%Z.
    repeat split; try reflexivity; try lia.
    right. left. split; [lia | exact E].
  - apply (the_city_some "Edmonton" m E).
Defined.

(* ------------------------------------------------------------------ *)
(** ** The sample legal description *)

Definition sw_14_45_25_w4 : PropertyParser.parsed_legal :=
  {| PropertyParser.legal_type := "quarter_section";
     PropertyParser.legal_components :=
       [("quarter", "SW"); ("section", "14"); ("township", "45");
        ("range", "25"); ("meridian_direction", "W"); ("meridian", "4")];
     PropertyParser.full_description := "SW 14-45-25-W4" |}.

Lemma parse_sw_14_45_25_w4 :
  PropertyParser._parse_legal_description "SW 14-45-25-W4" = sw_14_45_25_w4.
Proof. vm_compute. reflexivity. Qed.

(** The record [parse_property_info] builds from that legal description
    alone: no hints, no coordinates. *)
Lemma parse_property_info_sw_14_45_25_w4 :
  forall geo,
  exists p,
    PropertyParser.parse_property_info geo "" "SW 14-45-25-W4" "" = Some p /\
    PropertyParser.parsed_legal_of p = Some sw_14_45_25_w4 /\
    PropertyParser.municipality_hints p = [] /\
    PropertyParser.coordinates_of p = None.
Proof.
  intro geo. eexists. split; [vm_compute; reflexivity |].
  repeat split.
Qed.

(** C2.  "SW 14-45-25-W4" parses as a quarter section with quarter SW,
    section 14, township 45, range 25, meridian direction W and meridian 4;
    township 45 and range 25 satisfy the Red Deer condition; and a record
    with this parsed legal description, no hints and no coordinates resolves
    to the Red Deer record. *)
Theorem sample_legal_description_resolves_to_red_deer :
  forall dist p,
    PropertyParser.parsed_legal_of p
      = Some (PropertyParser._parse_legal_description "SW 14-45-25-W4") ->
    PropertyParser.municipality_hints p = [] ->
    PropertyParser.coordinates_of p = None ->
    PropertyParser._parse_legal_description "SW 14-45-25-W4" = sw_14_45_25_w4 /\
    MunicipalityLookup.red_deer_band 45 25 = true /\
    MunicipalityLookup._find_by_legal_description the_table sw_14_45_25_w4
      = the_city "Red Deer" /\
    MunicipalityLookup.find_municipality dist the_table p = the_city "Red Deer" /\
    option_map MunicipalityLookup.name
      (MunicipalityLookup.find_municipality dist the_table p) = Some "Red Deer".
Proof.
  intros dist p Hl Hh Hc.
  assert (MunicipalityLookup._find_by_legal_description the_table sw_14_45_25_w4
          = the_city "Red Deer") as Hld by (vm_compute; reflexivity).
  assert (MunicipalityLookup.find_municipality dist the_table p
          = the_city "Red Deer") as Hfm.
  { rewrite find_municipality_chain, Hh, Hc, Hl, parse_sw_14_45_25_w4.
    cbn [MunicipalityLookup.first_by_name PropertyParser.legal_type
         sw_14_45_25_w4].
    change (negb ("quarter_section" =? "unknown")%string) with true.
    cbv iota. rewrite Hld. vm_compute. reflexivity. }
  split; [apply parse_sw_14_45_25_w4 |].
  split; [reflexivity |].
  split; [exact Hld |].
  split; [exact Hfm |].
  rewrite Hfm. vm_compute. reflexivity.
Qed.

Lemma sample_legal_description_resolves_to_red_deer_witness :
  option_map MunicipalityLookup.name
    (match PropertyParser.parse_property_info nowhere "" "SW 14-45-25-W4" "" with
     | Some p => MunicipalityLookup.find_municipality on_the_spot the_table p
     | None => None
     end) = Some "Red Deer".
Proof.
  destruct (PropertyParser.parse_property_info nowhere "" "SW 14-45-25-W4" "")
    as [p |] eqn:E; [| vm_compute in E; discriminate E].
  vm_compute in E. injection E as <-.
  apply (sample_legal_description_resolves_to_red_deer on_the_spot);
    vm_compute; reflexivity.
Defined.

(* ------------------------------------------------------------------ *)
(** ** The address parser *)

Section AddressType.

Import PropertyParser.

(** The postal code as it is stored: upper case, spaces removed. *)
Definition normalized_postal_code (m : Re.groups) : string :=
  Py.remove_spaces (Py.upper (Re.group m 1)).

Lemma get_set_same {V} (d : Dict.t V) k v : Dict.get (Dict.set d k v) k = Some v.
Proof.
  induction d as [| [k' v'] d IH]; cbn.
  - rewrite String.eqb_refl. reflexivity.
  - destruct (String.eqb k k') eqn:E; cbn.
    + rewrite String.eqb_refl. reflexivity.
    + rewrite E. exact IH.
Qed.

Lemma get_set_other {V} (d : Dict.t V) k k' v :
  String.eqb k' k = false -> Dict.get (Dict.set d k v) k' = Dict.get d k'.
Proof.
  intro Hne. induction d as [| [k0 v0] d IH]; cbn.
  - rewrite Hne. reflexivity.
  - destruct (String.eqb k k0) eqn:E; cbn.
    + apply String.eqb_eq in E. subst k0. rewrite Hne. reflexivity.
    + destruct (String.eqb k' k0); [reflexivity | exact IH].
Qed.

(** The type and the components before the postal code is attached. *)
Definition street_or_rural (address : string) : string * Dict.t string :=
  match Re.search rural_address_re address with
  | Some m => ("rural", [("road_type", Re.group m 1);
                         ("road_number", Re.group m 2)])
  | None =>
      match Re.search street_address_re address with
      | Some m => ("street", [("number", Re.group m 1);
                              ("street", Py.strip (Re.group m 2))])
      | None => ("unknown", [])
      end
  end.

Lemma parse_address_unfold address :
  _parse_address address =
  {| address_type := fst (street_or_rural address);
     address_components :=
       match Re.search postal_code_re address with
       | Some m => Dict.set (snd (street_or_rural address)) "postal_code"
                     (normalized_postal_code m)
       | None => snd (street_or_rural address)
       end;
     full_address := Py.strip address |}.
Proof.
  unfold _parse_address, street_or_rural, normalized_postal_code.
  destruct (Re.search street_address_re address);
    destruct (Re.search rural_address_re address);
    destruct (Re.search postal_code_re address); reflexivity.
Qed.

End AddressType.

(** C5, as the code has it, for an address of ASCII characters.  The
    street pattern is tested first and the rural pattern second, each with
    its own [if], and the rural result replaces the street result.  So the
    type and the component map before the postal code are: rural with
    "road_type" and "road_number" whenever the rural pattern matches,
    whether or not the street pattern matches too; street with "number" and
    the stripped "street" when the street pattern matches alone; unknown
    with no component when neither matches.  A matched postal code, in upper
    case with its blanks removed, is then stored under "postal_code" in that
    map; without a postal match the map is returned as it is. *)
Theorem parse_address_type :
  forall address,
    Py.isascii address = true ->
    let parsed := PropertyParser._parse_address address in
    let street := Re.search PropertyParser.street_address_re address in
    let rural := Re.search PropertyParser.rural_address_re address in
    let postal := Re.search PropertyParser.postal_code_re address in
    exists components,
      ((forall s r, street = Some s -> rural = Some r ->
          PropertyParser.address_type parsed = "rural" /\
          components = [("road_type", Re.group r 1);
                        ("road_number", Re.group r 2)]) /\
       (forall r, street = None -> rural = Some r ->
          PropertyParser.address_type parsed = "rural" /\
          components = [("road_type", Re.group r 1);
                        ("road_number", Re.group r 2)]) /\
       (forall s, street = Some s -> rural = None ->
          PropertyParser.address_type parsed = "street" /\
          components = [("number", Re.group s 1);
                        ("street", Py.strip (Re.group s 2))]) /\
       (street = None -> rural = None ->
          PropertyParser.address_type parsed = "unknown" /\
          components = [])) /\
      (forall m, postal = Some m ->
         PropertyParser.address_components parsed
           = Dict.set components "postal_code"
               (Py.remove_spaces (Py.upper (Re.group m 1))) /\
         Dict.get (PropertyParser.address_components parsed) "postal_code"
           = Some (Py.remove_spaces (Py.upper (Re.group m 1))) /\
         forall k, String.eqb k "postal_code" = false ->
           Dict.get (PropertyParser.address_components parsed) k
             = Dict.get components k) /\
      (postal = None ->
         PropertyParser.address_components parsed = components).
Proof.
  intros address _ parsed street rural postal.
  subst parsed street rural postal.
  rewrite parse_address_unfold.
  cbn [PropertyParser.address_type PropertyParser.address_components].
  exists (snd (street_or_rural address)).
  unfold street_or_rural, normalized_postal_code.
  split; [| split].
  - destruct (Re.search PropertyParser.rural_address_re address) as [r |];
      destruct (Re.search PropertyParser.street_address_re address) as [s |];
      cbn [fst snd];
      (split; [| split; [| split]]); intros; try discriminate;
      repeat match goal with
             | H : Some _ = Some _ |- _ => injection H as <-
             end;
      split; reflexivity.
  - intros m Hm. rewrite Hm. split; [reflexivity |].
    split; [apply get_set_same |].
    intros k Hk. apply get_set_other. exact Hk.
  - intros Hm. rewrite Hm. reflexivity.
Qed.

Lemma parse_address_type_witness :
  PropertyParser.address_type
    (PropertyParser._parse_address "4914 48th Ave, Red Deer, AB T4N 3T4") = "street" /\
  PropertyParser.address_components
    (PropertyParser._parse_address "4914 48th Ave, Red Deer, AB T4N 3T4")
    = [("number", "4914"); ("street", "48th Ave"); ("postal_code", "T4N3T4")].
Proof.
  destruct (parse_address_type "4914 48th Ave, Red Deer, AB T4N 3T4" eq_refl)
    as (components & (_ & _ & Hstreet & _) & Hpostal & _).
  destruct (Hstreet [(2, "48th Ave"); (1, "4914")]) as [Hty Hc];
    [vm_compute; reflexivity | vm_compute; reflexivity |].
  destruct (Hpostal [(1, "T4N 3T4")]) as [Hp _]; [vm_compute; reflexivity |].
  split; [exact Hty |].
  rewrite Hp, Hc. vm_compute. reflexivity.
Defined.

(** A rural address without a street match: the components are the rural
    ones, and no postal code is added. *)
Example rural_address_alone :
  Re.search PropertyParser.street_address_re "RR 2 Ponoka County" = None /\
  PropertyParser._parse_address "RR 2 Ponoka County"
  = {| PropertyParser.address_type := "rural";
       PropertyParser.address_components :=
         [("road_type", "RR"); ("road_number", "2")];
       PropertyParser.full_address := "RR 2 Ponoka County" |}.
Proof. split; vm_compute; reflexivity. Qed.

(** "123 Main Street RR 2" is matched by the street pattern and by the
    rural pattern, and its type is rural, not street. *)
Lemma both_patterns_give_rural :
  Re.search PropertyParser.street_address_re "123 Main Street RR 2"
    = Some [(2, "Main Street"); (1, "123")] /\
  Re.search PropertyParser.rural_address_re "123 Main Street RR 2"
    = Some [(2, "2"); (1, "RR")] /\
  PropertyParser.address_type (PropertyParser._parse_address "123 Main Street RR 2")
    = "rural" /\
  PropertyParser.address_type (PropertyParser._parse_address "123 Main Street RR 2")
    <> "street".
Proof.
  repeat split; try (vm_compute; reflexivity).
  vm_compute. discriminate.
Qed.

(* ------------------------------------------------------------------ *)
(** ** The zoning lookup tables *)

Section ZoningTables.

Import PolicyRetrieval.

(** The zoning code is one of the four of [zoning_codes]. *)
Lemma zoning_code_produced muni p :
  In (zi_zoning (_get_zoning_information muni p)) zoning_codes.
Proof.
  unfold _get_zoning_information, zoning_codes.
  destruct (Py.mem "commercial" _).
  - destruct (F64.ltb _ _); cbn; auto.
  - destruct (Py.mem "rural" _ || F64.ltb _ _); cbn; auto 6.
Qed.

Lemma setbacks_nonempty zoning : _get_typical_setbacks zoning <> [].
Proof.
  unfold _get_typical_setbacks.
  repeat match goal with
         | |- context [if ?b then _ else _] => destruct b
         end; discriminate.
Qed.

Lemma height_nonempty zoning : _get_height_restrictions zoning <> [].
Proof.
  unfold _get_height_restrictions.
  repeat match goal with
         | |- context [if ?b then _ else _] => destruct b
         end; discriminate.
Qed.

(** The density chain has three branches and no default. *)
Lemma density_empty_iff zoning :
  _get_density_restrictions zoning = [] <->
  (Py.contains "RC" zoning || Py.contains "Rural Commercial" zoning ||
   (Py.contains "RUR" zoning || Py.contains "Rural" zoning) ||
   Py.contains "R1" zoning) = false.
Proof.
  unfold _get_density_restrictions.
  destruct (Py.contains "RC" zoning || Py.contains "Rural Commercial" zoning);
    [split; discriminate |].
  destruct (Py.contains "RUR" zoning || Py.contains "Rural" zoning);
    [split; discriminate |].
  destruct (Py.contains "R1" zoning); split; try discriminate; reflexivity.
Qed.

End ZoningTables.

(** C6, as the code has it.  Each of the three lookups is a chain of
    substring tests on the zoning string in which the first branch whose
    test holds gives the table, whatever the later tests say.  The setback
    chain tests "R1" or "Single Family", then "RC" or "Rural Commercial",
    then "RUR" or "Rural", and has a default table; the height chain tests
    "RC" or "Commercial", then "RUR" or "Rural", and has a default table; so
    both return a non-empty table for every string.  The density chain tests
    "RC" or "Rural Commercial", then "RUR" or "Rural", then "R1", and has no
    default: it returns the empty table exactly for a string that passes
    none of its tests, which among the four codes of the engine is the case
    of "C2 - Community Commercial" alone. *)
Theorem zoning_lookups_defaults :
  forall zoning,
    let has sub := Py.contains sub zoning in
    (* setbacks *)
    (has "R1" || has "Single Family" = true ->
     PolicyRetrieval._get_typical_setbacks zoning
       = [("front", "7.5 meters"); ("rear", "7.5 meters");
          ("side", "1.5 meters")]) /\
    (has "R1" || has "Single Family" = false ->
     has "RC" || has "Rural Commercial" = true ->
     PolicyRetrieval._get_typical_setbacks zoning
       = [("front", "15 meters"); ("rear", "15 meters");
          ("side", "7.5 meters")]) /\
    (has "R1" || has "Single Family" = false ->
     has "RC" || has "Rural Commercial" = false ->
     has "RUR" || has "Rural" = true ->
     PolicyRetrieval._get_typical_setbacks zoning
       = [("front", "30 meters"); ("rear", "15 meters");
          ("side", "15 meters")]) /\
    (has "R1" || has "Single Family" = false ->
     has "RC" || has "Rural Commercial" = false ->
     has "RUR" || has "Rural" = false ->
     PolicyRetrieval._get_typical_setbacks zoning
       = [("front", "6 meters"); ("rear", "6 meters");
          ("side", "3 meters")]) /\
    (* density restrictions *)
    (has "RC" || has "Rural Commercial" = true ->
     PolicyRetrieval._get_density_restrictions zoning
       = [("maximum_site_coverage", "40%");
          ("maximum_floor_area_ratio", "0.5");
          ("minimum_lot_size", "2 hectares")]) /\
    (has "RC" || has "Rural Commercial" = false ->
     has "RUR" || has "Rural" = true ->
     PolicyRetrieval._get_density_restrictions zoning
       = [("maximum_site_coverage", "25%");
          ("minimum_lot_size", "2 hectares");
          ("maximum_dwelling_units", "1 per lot")]) /\
    (has "RC" || has "Rural Commercial" = false ->
     has "RUR" || has "Rural" = false ->
     has "R1" = true ->
     PolicyRetrieval._get_density_restrictions zoning
       = [("maximum_site_coverage", "35%");
          ("minimum_lot_size", "600 square meters");
          ("maximum_dwelling_units", "1 per lot")]) /\
    (PolicyRetrieval._get_density_restrictions zoning = [] <->
     has "RC" = false /\ has "Rural Commercial" = false /\
     has "RUR" = false /\ has "Rural" = false /\ has "R1" = false) /\
    (* height restrictions *)
    (has "RC" || has "Commercial" = true ->
     PolicyRetrieval._get_height_restrictions zoning
       = [("maximum_height", "12 meters"); ("maximum_stories", "3")]) /\
    (has "RC" || has "Commercial" = false ->
     has "RUR" || has "Rural" = true ->
     PolicyRetrieval._get_height_restrictions zoning
       = [("maximum_height", "10 meters"); ("maximum_stories", "2.5")]) /\
    (has "RC" || has "Commercial" = false ->
     has "RUR" || has "Rural" = false ->
     PolicyRetrieval._get_height_restrictions zoning
       = [("maximum_height", "9 meters"); ("maximum_stories", "2.5")]) /\
    (* the defaults *)
    PolicyRetrieval._get_typical_setbacks zoning <> [] /\
    PolicyRetrieval._get_height_restrictions zoning <> [] /\
    (* the codes of the engine *)
    (forall muni p,
        zoning = PolicyRetrieval.zi_zoning
                   (PolicyRetrieval._get_zoning_information muni p) ->
        In zoning PolicyRetrieval.zoning_codes /\
        (PolicyRetrieval._get_density_restrictions zoning = [] <->
         zoning = "C2 - Community Commercial")).
Proof.
  intros zoning has. subst has. cbv beta.
  repeat match goal with
         | |- _ /\ _ => split
         end;
    try (unfold PolicyRetrieval._get_typical_setbacks,
           PolicyRetrieval._get_density_restrictions,
           PolicyRetrieval._get_height_restrictions;
         intros;
         repeat match goal with
                | H : ?b = _ |- context [if ?b then _ else _] => rewrite H
                end;
         reflexivity).
  - rewrite density_empty_iff. rewrite !orb_false_iff. tauto.
  - apply setbacks_nonempty.
  - apply height_nonempty.
  - intros muni p Hz.
    pose proof (zoning_code_produced muni p) as Hin. rewrite <- Hz in Hin.
    split; [exact Hin |].
    unfold PolicyRetrieval.zoning_codes in Hin. cbn [In] in Hin.
    destruct Hin as [<- | [<- | [<- | [<- | []]]]]; clear Hz;
      (split; [vm_compute; intro H; first [discriminate H | reflexivity]
              | intro H; first [discriminate H | vm_compute; reflexivity]]).
Qed.

Lemma zoning_lookups_defaults_witness :
  PolicyRetrieval._get_density_restrictions "RC - Rural Commercial"
    = [("maximum_site_coverage", "40%");
       ("maximum_floor_area_ratio", "0.5");
       ("minimum_lot_size", "2 hectares")] /\
  Py.contains "Rural" "RC - Rural Commercial" = true /\
  PolicyRetrieval._get_typical_setbacks "C2 - Community Commercial"
    = [("front", "6 meters"); ("rear", "6 meters"); ("side", "3 meters")] /\
  PolicyRetrieval._get_height_restrictions "C2 - Community Commercial"
    = [("maximum_height", "12 meters"); ("maximum_stories", "3")].
Proof.
  destruct (zoning_lookups_defaults "RC - Rural Commercial")
    as (_ & _ & _ & _ & Hd & _).
  destruct (zoning_lookups_defaults "C2 - Community Commercial")
    as (_ & _ & _ & Hs & _ & _ & _ & _ & Hh & _).
  split; [apply Hd; vm_compute; reflexivity |].
  split; [vm_compute; reflexivity |].
  split; [apply Hs; vm_compute; reflexivity |].
  apply Hh. vm_compute. reflexivity.
Defined.

(* ------------------------------------------------------------------ *)
(** ** The cottage development analysis *)

(** The floats 14.55 and 5.82. *)
Definition acres_14_55 : F64.float := F64.lit false 1455 2.
Definition acres_5_82 : F64.float := F64.lit false 582 2.

Lemma acres_14_55_parsed : F64.of_decimal "14.55" = Some acres_14_55.
Proof. vm_compute. reflexivity. Qed.

(** In binary64 the product of 14.55 and 0.4 is the float 5.82, and the
    product of that and 4.5 truncates to 26. *)
Lemma developable_area_14_55 :
  F64.mul acres_14_55 PolicyRetrieval.point_four = acres_5_82 /\
  F64.trunc (F64.mul acres_5_82 PolicyRetrieval.four_point_five) = Some 26%Z.
Proof. split; vm_compute; reflexivity. Qed.

(** C8.  With acreage 14.55, a zoning that contains "Rural Commercial" and
    a density table whose "maximum_site_coverage" is "40%", the analysis has
    feasibility High, developable area 14.55 x 0.4 = 5.82, floor(5.82 x 4.5)
    = 26 estimated cottage units and min(5, 26) = 5 units in phase 1. *)
Theorem cottage_analysis_sample :
  forall policy zoning details,
    PolicyRetrieval.zoning policy = Some zoning ->
    Py.contains "Rural Commercial" zoning = true ->
    Dict.get (PolicyRetrieval.density_restrictions policy) "maximum_site_coverage"
      = Some "40%" ->
    PropertyParser.acreage details = Some acres_14_55 ->
    exists a,
      PolicyRetrieval.get_cottage_development_analysis policy details
        = Py.Return a /\
      PolicyRetrieval.feasibility a = "High" /\
      PolicyRetrieval.potential a =
        Some {| PolicyRetrieval.total_acreage := acres_14_55;
                PolicyRetrieval.developable_acreage := acres_5_82;
                PolicyRetrieval.estimated_cottage_units := 26;
                PolicyRetrieval.phased_development := true;
                PolicyRetrieval.recommended_phase_1 := 5 |}.
Proof.
  intros policy zoning details Hz Hrc Hd Ha.
  unfold PolicyRetrieval.get_cottage_development_analysis.
  rewrite Hz, Hrc, Ha. cbn [orb PolicyRetrieval.get_or].
  unfold PolicyRetrieval.cottage_units. rewrite Hd.
  cbn [PolicyRetrieval.get_or].
  change (F64.leb (F64.of_Z 14) acres_14_55) with true.
  change (Py.contains "40%" "40%") with true.
  cbv iota.
  destruct developable_area_14_55 as [Hmul Htrunc].
  rewrite Hmul. unfold PolicyRetrieval.int_of_float. rewrite Htrunc.
  eexists. split; [reflexivity |]. split; reflexivity.
Qed.

(** The sample property details, and the policy record the engine computes
    for them with the municipality the test script falls back to: the
    result of [_find_by_name "Wetaskiwin County"], which is the city of
    Wetaskiwin, found first by the substring test. *)
Definition sample_details : PropertyParser.property_details :=
  PropertyParser._extract_property_details
    "14.55 acre rural commercial property, cottages for rent".

Definition sample_property : PropertyParser.property_info :=
  {| PropertyParser.raw :=
       {| PropertyParser.raw_address := "";
          PropertyParser.raw_legal_description := "";
          PropertyParser.raw_additional_info :=
            "14.55 acre rural commercial property, cottages for rent" |};
     PropertyParser.parsed_address_of := None;
     PropertyParser.parsed_legal_of := None;
     PropertyParser.coordinates_of := None;
     PropertyParser.municipality_hints := [];
     PropertyParser.details := sample_details |}.

Definition fallback_municipality : MunicipalityLookup.municipality :=
  match MunicipalityLookup._find_by_name the_table "Wetaskiwin County" with
  | Some m => m
  | None => MunicipalityLookup.named_copy
              (MunicipalityLookup.county (S754_zero false) (S754_zero false)
                 "" "" "" "" "") "" ""
  end.

Definition sample_policy : PolicyRetrieval.policy_info :=
  fst (PolicyRetrieval.get_land_use_policies PolicyRetrieval.methods
         (fun _ => 0%Z) "2024-01-01 00:00:00" [] fallback_municipality
         sample_property).

Lemma cottage_analysis_sample_witness :
  exists a,
    PolicyRetrieval.get_cottage_development_analysis sample_policy sample_details
      = Py.Return a /\
    PolicyRetrieval.feasibility a = "High" /\
    PolicyRetrieval.potential a =
      Some {| PolicyRetrieval.total_acreage := acres_14_55;
              PolicyRetrieval.developable_acreage := acres_5_82;
              PolicyRetrieval.estimated_cottage_units := 26;
              PolicyRetrieval.phased_development := true;
              PolicyRetrieval.recommended_phase_1 := 5 |}.
Proof.
  apply (cottage_analysis_sample sample_policy "RC - Rural Commercial"
           sample_details); vm_compute; reflexivity.
Defined.

(** The engine produces "C2 - Community Commercial" for a commercial hint
    with at most 5 acres, and the density lookup of that code is empty,
    while its setback and height lookups are not. *)
Definition small_commercial_property : PropertyParser.property_info :=
  {| PropertyParser.raw :=
       {| PropertyParser.raw_address := "";
          PropertyParser.raw_legal_description := "";
          PropertyParser.raw_additional_info := "3 acres commercial" |};
     PropertyParser.parsed_address_of := None;
     PropertyParser.parsed_legal_of := None;
     PropertyParser.coordinates_of := None;
     PropertyParser.municipality_hints := [];
     PropertyParser.details :=
       PropertyParser._extract_property_details "3 acres commercial" |}.

Lemma density_lookup_empty_for_c2 :
  PolicyRetrieval.zi_zoning
    (PolicyRetrieval._get_zoning_information fallback_municipality
       small_commercial_property)
    = "C2 - Community Commercial" /\
  PolicyRetrieval.zi_density_restrictions
    (PolicyRetrieval._get_zoning_information fallback_municipality
       small_commercial_property) = [] /\
  PolicyRetrieval._get_density_restrictions "C2 - Community Commercial" = [] /\
  PolicyRetrieval._get_typical_setbacks "C2 - Community Commercial"
    = [("front", "6 meters"); ("rear", "6 meters"); ("side", "3 meters")] /\
  PolicyRetrieval._get_height_restrictions "C2 - Community Commercial"
    = [("maximum_height", "12 meters"); ("maximum_stories", "3")].
Proof.
  split; [vm_compute; reflexivity |].
  split; [vm_compute; reflexivity |].
  split; [vm_compute; reflexivity |].
  split; vm_compute; reflexivity.
Qed.

(* ------------------------------------------------------------------ *)
(** ** The policy cache *)

Section PolicyCache.

Import PolicyRetrieval.

Variable hash : hasher.

(** The [try] block never touches the "error" key. *)
Lemma try_block_error impl muni p pi :
  error (fst (try_block impl muni p pi)) = error pi.
Proof.
  unfold try_block.
  destruct (zoning_step impl muni p) as [[zi |] | e]; cbn [fst];
    try reflexivity;
    (destruct (bylaw_step impl muni) as [[b |] | e']; cbn [fst];
     try reflexivity;
     match goal with
     | |- context [requirements_step impl muni ?z] =>
         destruct (requirements_step impl muni z) as [[| r rs] | e'']
     end; reflexivity).
Qed.

(** The block is left by an exception exactly when one of the three calls
    raises it. *)
Lemma try_block_raises impl muni p pi e :
  snd (try_block impl muni p pi) = Some e <->
  zoning_step impl muni p = Py.Raise e \/
  (exists zi, zoning_step impl muni p = Py.Return zi /\
              bylaw_step impl muni = Py.Raise e) \/
  (exists zi b z, zoning_step impl muni p = Py.Return zi /\
                  bylaw_step impl muni = Py.Return b /\
                  requirements_step impl muni z = Py.Raise e /\
                  z = zoning (match b with
                              | Some b' => set_land_use_bylaw
                                             (match zi with
                                              | Some zi' => update pi zi'
                                              | None => pi
                                              end) b'
                              | None => match zi with
                                        | Some zi' => update pi zi'
                                        | None => pi
                                        end
                              end)).
Proof.
  unfold try_block.
  destruct (zoning_step impl muni p) as [zi | e0].
  - destruct (bylaw_step impl muni) as [b | e1].
    + match goal with
      | |- context [requirements_step impl muni ?z] =>
          destruct (requirements_step impl muni z) as [reqs | e2] eqn:Er
      end.
      * cbn [snd]. split; [discriminate |].
        intros [H | [(zi' & H & H') | (zi' & b' & z & H1 & H2 & H3 & ->)]];
          try discriminate.
        injection H1 as <-. injection H2 as <-. congruence.
      * cbn [snd]. split.
        -- intro H. injection H as <-. right. right.
           eexists zi, b, _. repeat split; try reflexivity. exact Er.
        -- intros [H | [(zi' & H & H') | (zi' & b' & z & H1 & H2 & H3 & ->)]];
             try discriminate.
           injection H1 as <-. injection H2 as <-. congruence.
    + cbn [snd]. split.
      * intro H. injection H as <-. right. left. exists zi. split; reflexivity.
      * intros [H | [(zi' & H & H') | (zi' & b' & z & H1 & H2 & _)]];
          try discriminate. congruence.
  - cbn [snd]. split.
    + intro H. injection H as <-. left. reflexivity.
    + intros [H | [(zi' & H & _) | (zi' & b' & z & H & _)]];
        try discriminate. congruence.
Qed.

(** The methods of the class return: with them the block is never left by
    an exception. *)
Lemma methods_never_raise muni p pi :
  snd (try_block methods muni p pi) = None.
Proof.
  unfold try_block, methods; cbn [zoning_step bylaw_step requirements_step].
  destruct (_get_bylaw_information muni);
    match goal with
    | |- context [_get_development_requirements muni ?z] =>
        destruct (_get_development_requirements muni z)
    end; reflexivity.
Qed.

Lemma cache_hit impl now policy_cache muni p cached :
  Dict.get policy_cache (cache_key hash muni p) = Some cached ->
  get_land_use_policies impl hash now policy_cache muni p
    = (cached, policy_cache).
Proof. intro H. unfold get_land_use_policies. rewrite H. reflexivity. Qed.

Lemma cache_miss_stored impl now policy_cache muni p :
  Dict.get policy_cache (cache_key hash muni p) = None ->
  snd (try_block impl muni p (initial_policy muni now)) = None ->
  let result := fst (try_block impl muni p (initial_policy muni now)) in
  get_land_use_policies impl hash now policy_cache muni p
    = (result, Dict.set policy_cache (cache_key hash muni p) result) /\
  error result = None.
Proof.
  intros Hmiss Hok result. unfold get_land_use_policies. rewrite Hmiss.
  split.
  - subst result. destruct (try_block impl muni p (initial_policy muni now))
      as [pi [e |]]; [discriminate Hok | reflexivity].
  - subst result. rewrite try_block_error. reflexivity.
Qed.

Lemma cache_miss_error impl now policy_cache muni p e :
  Dict.get policy_cache (cache_key hash muni p) = None ->
  snd (try_block impl muni p (initial_policy muni now)) = Some e ->
  get_land_use_policies impl hash now policy_cache muni p
    = (set_error (fst (try_block impl muni p (initial_policy muni now)))
         ("Error retrieving policy information: " ++ Py.exn_str e)%string,
       policy_cache).
Proof.
  intros Hmiss Herr. unfold get_land_use_policies. rewrite Hmiss.
  destruct (try_block impl muni p (initial_policy muni now)) as [pi [e' |]];
    cbn [snd fst] in *; [| discriminate Herr].
  injection Herr as ->. reflexivity.
Qed.

End PolicyCache.

(** C10.  For a call of [get_land_use_policies] with the cache
    [policy_cache]:
    - on a hit the stored record is returned, whatever the internal calls
      would do, and the cache is unchanged;
    - on a miss, when [_get_zoning_information], [_get_bylaw_information]
      and [_get_development_requirements] all return, the record with their
      results, which has no "error" key, is returned and stored under the
      key;
    - on a miss, when one of the three calls raises (the calls before it
      having returned), the returned record carries the "error" message of
      that exception and the cache is unchanged: the key is still absent,
      and a later call with the same key whose three calls return computes
      a new record, without error and with its own time, and stores it. *)
Theorem policy_cache_behaviour :
  forall impl hash now policy_cache muni p,
    let key := PolicyRetrieval.cache_key hash muni p in
    let call := PolicyRetrieval.get_land_use_policies impl hash now
                  policy_cache muni p in
    let zoned now zi :=
      match zi with
      | Some zoning_info =>
          PolicyRetrieval.update (PolicyRetrieval.initial_policy muni now)
            zoning_info
      | None => PolicyRetrieval.initial_policy muni now
      end in
    let with_bylaw now zi b :=
      match b with
      | Some bylaw_info =>
          PolicyRetrieval.set_land_use_bylaw (zoned now zi) bylaw_info
      | None => zoned now zi
      end in
    let with_requirements now zi b reqs :=
      match reqs with
      | [] => with_bylaw now zi b
      | _ :: _ =>
          PolicyRetrieval.set_development_requirements (with_bylaw now zi b)
            reqs
      end in
    let all_return impl now zi b reqs :=
      PolicyRetrieval.zoning_step impl muni p = Py.Return zi /\
      PolicyRetrieval.bylaw_step impl muni = Py.Return b /\
      PolicyRetrieval.requirements_step impl muni
        (PolicyRetrieval.zoning (with_bylaw now zi b)) = Py.Return reqs in
    let one_raises e :=
      PolicyRetrieval.zoning_step impl muni p = Py.Raise e \/
      (exists zi,
          PolicyRetrieval.zoning_step impl muni p = Py.Return zi /\
          PolicyRetrieval.bylaw_step impl muni = Py.Raise e) \/
      (exists zi b,
          PolicyRetrieval.zoning_step impl muni p = Py.Return zi /\
          PolicyRetrieval.bylaw_step impl muni = Py.Return b /\
          PolicyRetrieval.requirements_step impl muni
            (PolicyRetrieval.zoning (with_bylaw now zi b)) = Py.Raise e) in
    (forall cached,
        Dict.get policy_cache key = Some cached ->
        call = (cached, policy_cache) /\
        forall impl' now',
          PolicyRetrieval.get_land_use_policies impl' hash now' policy_cache
            muni p = (cached, policy_cache)) /\
    (forall zi b reqs,
        Dict.get policy_cache key = None ->
        all_return impl now zi b reqs ->
        fst call = with_requirements now zi b reqs /\
        PolicyRetrieval.error (fst call) = None /\
        snd call = Dict.set policy_cache key (fst call) /\
        Dict.get (snd call) key = Some (fst call)) /\
    (forall e,
        Dict.get policy_cache key = None ->
        one_raises e ->
        PolicyRetrieval.error (fst call)
          = Some ("Error retrieving policy information: " ++ Py.exn_str e)%string /\
        snd call = policy_cache /\
        Dict.get (snd call) key = None /\
        forall impl' now' zi b reqs,
          all_return impl' now' zi b reqs ->
          let later := PolicyRetrieval.get_land_use_policies impl' hash now'
                         (snd call) muni p in
          fst later = with_requirements now' zi b reqs /\
          PolicyRetrieval.error (fst later) = None /\
          PolicyRetrieval.last_updated (fst later) = now' /\
          Dict.get (snd later) key = Some (fst later)).
Proof.
  intros impl hash now policy_cache muni p key call zoned with_bylaw
    with_requirements all_return one_raises.
  assert (Hreturn : forall impl0 now0 cache0 zi b reqs,
             Dict.get cache0 key = None ->
             all_return impl0 now0 zi b reqs ->
             PolicyRetrieval.get_land_use_policies impl0 hash now0 cache0 muni p
             = (with_requirements now0 zi b reqs,
                Dict.set cache0 key (with_requirements now0 zi b reqs))).
  { intros impl0 now0 cache0 zi b reqs Hmiss (Hz & Hb & Hr).
    unfold PolicyRetrieval.get_land_use_policies. fold key. rewrite Hmiss.
    unfold PolicyRetrieval.try_block. rewrite Hz, Hb.
    fold (zoned now0 zi). fold (with_bylaw now0 zi b). rewrite Hr.
    destruct reqs; reflexivity. }
  assert (Hclean : forall now0 zi b reqs,
             PolicyRetrieval.error (with_requirements now0 zi b reqs) = None /\
             PolicyRetrieval.last_updated (with_requirements now0 zi b reqs)
             = now0).
  { intros now0 zi b reqs.
    destruct reqs, b, zi; split; reflexivity. }
  split; [| split].
  - intros cached Hhit. split.
    + apply cache_hit. exact Hhit.
    + intros impl' now'. apply cache_hit. exact Hhit.
  - intros zi b reqs Hmiss Hall. subst call.
    rewrite (Hreturn impl now policy_cache zi b reqs Hmiss Hall).
    cbn [fst snd]. split; [reflexivity |].
    split; [apply Hclean |]. split; [reflexivity | apply get_set_same].
  - intros e Hmiss Hraise.
    assert (Hcall : exists pi,
               call = (PolicyRetrieval.set_error pi
                         ("Error retrieving policy information: "
                          ++ Py.exn_str e)%string,
                       policy_cache)).
    { subst call. unfold PolicyRetrieval.get_land_use_policies. fold key.
      rewrite Hmiss. unfold PolicyRetrieval.try_block.
      destruct Hraise as [Hz | [(zi & Hz & Hb) | (zi & b & Hz & Hb & Hr)]].
      - rewrite Hz. eexists. reflexivity.
      - rewrite Hz, Hb. eexists. reflexivity.
      - rewrite Hz, Hb. fold (zoned now zi). fold (with_bylaw now zi b).
        rewrite Hr. eexists. reflexivity. }
    destruct Hcall as [pi Hcall]. rewrite Hcall. cbn [fst snd].
    split; [reflexivity |]. split; [reflexivity |]. split; [exact Hmiss |].
    intros impl' now' zi b reqs Hall.
    rewrite (Hreturn impl' now' policy_cache zi b reqs Hmiss Hall).
    cbn [fst snd]. split; [reflexivity |].
    split; [apply Hclean |]. split; [apply Hclean | apply get_set_same].
Qed.

(** Internal calls of which the second raises: the bylaw cannot be
    fetched. *)
Definition bylaw_unreachable : PolicyRetrieval.internals :=
  {| PolicyRetrieval.zoning_step :=
       PolicyRetrieval.zoning_step PolicyRetrieval.methods;
     PolicyRetrieval.bylaw_step :=
       fun _ => Py.Raise (Py.OtherException "connection refused");
     PolicyRetrieval.requirements_step :=
       PolicyRetrieval.requirements_step PolicyRetrieval.methods |}.

Lemma policy_cache_behaviour_witness :
  let hash := fun _ : PropertyParser.property_info => 0%Z in
  let failed :=
    PolicyRetrieval.get_land_use_policies bylaw_unreachable hash
      "2024-01-01 00:00:00" [] fallback_municipality sample_property in
  let retried :=
    PolicyRetrieval.get_land_use_policies PolicyRetrieval.methods hash
      "2024-01-01 00:00:01" (snd failed) fallback_municipality sample_property in
  PolicyRetrieval.error (fst failed)
    = Some "Error retrieving policy information: connection refused" /\
  snd failed = [] /\
  PolicyRetrieval.error (fst retried) = None /\
  PolicyRetrieval.last_updated (fst retried) = "2024-01-01 00:00:01" /\
  Dict.get (snd retried)
    (PolicyRetrieval.cache_key hash fallback_municipality sample_property)
    = Some (fst retried).
Proof.
  intros hash failed retried.
  destruct (policy_cache_behaviour bylaw_unreachable hash
              "2024-01-01 00:00:00" [] fallback_municipality sample_property)
    as (_ & _ & Herr).
  destruct (Herr (Py.OtherException "connection refused") eq_refl)
    as (He & Hc & _ & Hlater).
  { right. left. eexists. split; reflexivity. }
  fold failed in He, Hc, Hlater.
  split; [exact He |]. split; [exact Hc |].
  destruct (Hlater PolicyRetrieval.methods "2024-01-01 00:00:01"
              _ _ _ (conj eq_refl (conj eq_refl eq_refl)))
    as (_ & Hne & Hnow & Hget).
  fold retried in Hne, Hnow, Hget.
  split; [exact Hne |]. split; [exact Hnow | exact Hget].
Defined.

Example sample_cache_key :
  PolicyRetrieval.cache_key (fun _ => 0%Z) fallback_municipality sample_property
  = "Wetaskiwin_0".
Proof. vm_compute. reflexivity. Qed.

Example fallback_municipality_is_the_city :
  MunicipalityLookup.name fallback_municipality = "Wetaskiwin" /\
  MunicipalityLookup.category fallback_municipality = "city".
Proof. split; vm_compute; reflexivity. Qed.

(* ------------------------------------------------------------------ *)
(** ** The table is never mutated *)

Section StoreFrame.

Import Store.

(** The store the operation is called in. *)
Variable base : heap.

(** A result that is [None] or the address of an object allocated after
    [base] was taken. *)
Definition new_in (v : value) : Prop :=
  match v with
  | VNone => True
  | VRef l => length base <= l
  | _ => False
  end.

(** Run in any store that extends [base], [m] leaves a store that extends
    [base], and what it returns satisfies [Q]. *)
Definition keeps {A} (m : M A) (Q : A -> Prop) : Prop :=
  forall ext,
    (exists ext', snd (m (base ++ ext)) = base ++ ext') /\
    (forall a, fst (m (base ++ ext)) = Py.Return a -> Q a).

Definition any {A} : A -> Prop := fun _ => True.

Lemma keeps_ret {A} (a : A) (Q : A -> Prop) : Q a -> keeps (ret a) Q.
Proof.
  intros Ha ext. split.
  - exists ext. reflexivity.
  - cbn. intros a' E. injection E as <-. exact Ha.
Qed.

Lemma keeps_raise {A} (e : Py.exn) (Q : A -> Prop) : keeps (raise e) Q.
Proof.
  intro ext. split.
  - exists ext. reflexivity.
  - cbn. intros a E. discriminate E.
Qed.

Lemma keeps_bind {A B} (m : M A) (f : A -> M B) (Q : A -> Prop) (R : B -> Prop) :
  keeps m Q -> (forall a, Q a -> keeps (f a) R) -> keeps (bind m f) R.
Proof.
  intros Hm Hf ext. unfold bind.
  destruct (Hm ext) as [[ext' Hh] Hq].
  destruct (m (base ++ ext)) as [[a | e] h'] eqn:E; cbn [fst snd] in *.
  - subst h'. apply (Hf a (Hq a eq_refl)).
  - split; [exists ext'; exact Hh | intros b Hb; discriminate Hb].
Qed.

Lemma keeps_weaken {A} (m : M A) (Q R : A -> Prop) :
  keeps m Q -> (forall a, Q a -> R a) -> keeps m R.
Proof.
  intros Hm HQR ext. destruct (Hm ext) as [Hh Hq].
  split; [exact Hh | intros a E; apply HQR, Hq, E].
Qed.

Lemma keeps_read l : keeps (read l) any.
Proof.
  intro ext. unfold read.
  destruct (nth_error (base ++ ext) l); (split; [exists ext; reflexivity |]);
    intros; exact I.
Qed.

Lemma keeps_alloc o : keeps (alloc o) new_in.
Proof.
  intro ext. unfold alloc. cbn [fst snd]. split.
  - exists (ext ++ [o]). rewrite app_assoc. reflexivity.
  - intros a E. injection E as <-. cbn. rewrite length_app. lia.
Qed.

Lemma put_beyond (h ext : heap) l o :
  length h <= l -> put (h ++ ext) l o = h ++ put ext (l - length h) o.
Proof.
  revert l. induction h as [| x h IH]; intros l Hl; cbn [length app] in *.
  - rewrite Nat.sub_0_r. reflexivity.
  - destruct l as [| l]; [lia |]. cbn [put]. rewrite IH by lia. reflexivity.
Qed.

Lemma keeps_write l o : length base <= l -> keeps (write l o) any.
Proof.
  intros Hl ext. unfold write. cbn [fst snd]. split.
  - exists (put ext (l - length base) o). apply put_beyond. exact Hl.
  - intros; exact I.
Qed.

Lemma keeps_as_dict v : keeps (as_dict v) any.
Proof.
  destruct v; try apply keeps_raise. cbn [as_dict].
  eapply keeps_bind; [apply keeps_read |].
  intros [d | l'] _; [apply keeps_ret; exact I | apply keeps_raise].
Qed.

Lemma keeps_getitem v k : keeps (getitem v k) any.
Proof.
  unfold getitem. eapply keeps_bind; [apply keeps_as_dict |].
  intros d _. destruct (Dict.get d k); [apply keeps_ret; exact I | apply keeps_raise].
Qed.

Lemma keeps_dict_get v k : keeps (dict_get v k) any.
Proof.
  unfold dict_get. eapply keeps_bind; [apply keeps_as_dict |].
  intros d _. apply keeps_ret. exact I.
Qed.

Lemma keeps_truth v : keeps (truth v) any.
Proof.
  destruct v; cbn [truth]; try (apply keeps_ret; exact I).
  eapply keeps_bind; [apply keeps_read |].
  intros o _. apply keeps_ret. exact I.
Qed.

Lemma keeps_as_float v : keeps (as_float v) any.
Proof. destruct v; cbn; first [apply keeps_ret; exact I | apply keeps_raise]. Qed.

Lemma keeps_dict_copy v : keeps (dict_copy v) new_in.
Proof.
  unfold dict_copy. eapply keeps_bind; [apply keeps_as_dict |].
  intros d _. apply keeps_alloc.
Qed.

(** An item assignment on a new object. *)
Lemma keeps_setitem v k x : new_in v -> keeps (setitem v k x) any.
Proof.
  intro Hv. destruct v; cbn [setitem]; try apply keeps_raise.
  eapply keeps_bind; [apply keeps_read |].
  intros [d | l'] _; [apply keeps_write; exact Hv | apply keeps_raise].
Qed.

Lemma keeps_for_each {S X} (body : S -> X -> M S) (Inv : S -> Prop) :
  (forall st x, Inv st -> keeps (body st x) Inv) ->
  forall xs st, Inv st -> keeps (for_each body xs st) Inv.
Proof.
  intros Hbody xs. induction xs as [| x xs IH]; intros st Hst; cbn [for_each].
  - apply keeps_ret. exact Hst.
  - eapply keeps_bind; [apply Hbody; exact Hst |].
    intros st' Hst'. apply IH. exact Hst'.
Qed.

(** The copy with its "name" and "category". *)
Lemma keeps_named_copy data n cat :
  keeps (result <- dict_copy data ;;
         setitem result "name" (VStr n) ;;;
         setitem result "category" (VStr cat) ;;;
         ret result) new_in.
Proof.
  eapply keeps_bind; [apply keeps_dict_copy |].
  intros result Hnew.
  eapply keeps_bind; [apply keeps_setitem; exact Hnew |]. intros _ _.
  eapply keeps_bind; [apply keeps_setitem; exact Hnew |]. intros _ _.
  apply keeps_ret. exact Hnew.
Qed.

Lemma keeps_find_in entries cat name_lower :
  keeps (find_in entries cat name_lower) new_in.
Proof.
  induction entries as [| [n data] rest IH]; cbn [find_in].
  - apply keeps_ret. exact I.
  - destruct (MunicipalityLookup.name_matches n name_lower);
      [apply keeps_named_copy | exact IH].
Qed.

Lemma keeps_find_by_name self nm : keeps (_find_by_name self nm) new_in.
Proof.
  unfold _find_by_name.
  eapply keeps_bind; [apply keeps_getitem |]. intros cities _.
  eapply keeps_bind; [apply keeps_as_dict |]. intros entries _.
  eapply keeps_bind; [apply keeps_find_in |]. intros found Hfound.
  destruct found; try (apply keeps_ret; exact Hfound).
  eapply keeps_bind; [apply keeps_getitem |]. intros counties _.
  eapply keeps_bind; [apply keeps_as_dict |]. intros entries' _.
  apply keeps_find_in.
Qed.

Definition new_closest (st : closest) : Prop := new_in (fst st).

Lemma keeps_consider dist lat lon category_name st entry :
  new_closest st ->
  keeps (consider dist lat lon category_name st entry) new_closest.
Proof.
  intro Hst. destruct entry as [n data]. unfold consider.
  eapply keeps_bind; [apply keeps_dict_get |]. intros muni_coords _.
  eapply keeps_bind; [apply keeps_truth |]. intros [|] _;
    [| apply keeps_ret; exact Hst].
  eapply keeps_bind; [apply keeps_getitem |]. intros mlat_v _.
  eapply keeps_bind; [apply keeps_getitem |]. intros mlon_v _.
  eapply keeps_bind; [apply keeps_as_float |]. intros mlat _.
  eapply keeps_bind; [apply keeps_as_float |]. intros mlon _.
  destruct (F64.ltb _ _ && F64.ltb _ _); [| apply keeps_ret; exact Hst].
  eapply keeps_bind; [apply keeps_dict_copy |]. intros result Hnew.
  eapply keeps_bind; [apply keeps_setitem; exact Hnew |]. intros _ _.
  eapply keeps_bind; [apply keeps_setitem; exact Hnew |]. intros _ _.
  eapply keeps_bind; [apply keeps_setitem; exact Hnew |]. intros _ _.
  apply keeps_ret. exact Hnew.
Qed.

Lemma keeps_find_by_coordinates dist self lat lon :
  keeps (_find_by_coordinates dist self lat lon) new_in.
Proof.
  unfold _find_by_coordinates.
  eapply keeps_bind; [apply keeps_as_dict |]. intros categories _.
  eapply keeps_bind.
  - apply (keeps_for_each _ new_closest); [| exact I].
    intros st category Hst. unfold scan_category.
    eapply keeps_bind; [apply keeps_as_dict |]. intros entries _.
    apply (keeps_for_each _ new_closest); [| exact Hst].
    intros st' entry Hst'. apply keeps_consider. exact Hst'.
  - intros st Hst. apply keeps_ret. exact Hst.
Qed.

Lemma keeps_find_by_legal_description self legal_desc :
  keeps (_find_by_legal_description self legal_desc) new_in.
Proof.
  unfold _find_by_legal_description.
  repeat match goal with
         | |- keeps (ret VNone) _ => apply keeps_ret; exact I
         | |- keeps (_find_by_name _ _) _ => apply keeps_find_by_name
         | |- keeps (if ?b then _ else _) _ => destruct b
         | |- keeps (match ?o with _ => _ end) _ => destruct o
         end.
Qed.

Lemma keeps_first_by_name self hints : keeps (first_by_name self hints) new_in.
Proof.
  induction hints as [| hint rest IH]; cbn [first_by_name].
  - apply keeps_ret. exact I.
  - eapply keeps_bind; [apply keeps_find_by_name |]. intros found Hfound.
    destruct found; try (apply keeps_ret; exact Hfound). exact IH.
Qed.

Lemma keeps_or_else m next :
  keeps m new_in -> keeps next new_in -> keeps (or_else m next) new_in.
Proof.
  intros Hm Hnext. unfold or_else.
  eapply keeps_bind; [exact Hm |]. intros found Hfound.
  destruct found; try (apply keeps_ret; exact Hfound). exact Hnext.
Qed.

Lemma keeps_find_municipality dist self p :
  keeps (find_municipality dist self p) new_in.
Proof.
  unfold find_municipality.
  apply keeps_or_else; [apply keeps_first_by_name |].
  apply keeps_or_else.
  { destruct (PropertyParser.coordinates_of p);
      [apply keeps_find_by_coordinates | apply keeps_ret; exact I]. }
  apply keeps_or_else.
  { destruct (PropertyParser.parsed_legal_of p) as [ld |];
      [| apply keeps_ret; exact I].
    destruct (negb _);
      [apply keeps_find_by_legal_description | apply keeps_ret; exact I]. }
  destruct (PropertyParser.parsed_address_of p);
    [apply keeps_first_by_name | apply keeps_ret; exact I].
Qed.

Lemma keeps_get_supported_municipalities self :
  keeps (get_supported_municipalities self) new_in.
Proof.
  unfold get_supported_municipalities.
  eapply keeps_bind; [apply keeps_as_dict |]. intros categories _.
  eapply keeps_bind.
  - apply (keeps_for_each _ any); [| exact I].
    intros acc category _. unfold copy_category.
    eapply keeps_bind; [apply keeps_as_dict |]. intros entries _.
    apply (keeps_for_each _ any); [| exact I].
    intros acc' entry _. unfold copy_entry.
    eapply keeps_bind; [apply keeps_dict_copy |]. intros result Hnew.
    eapply keeps_bind; [apply keeps_setitem; exact Hnew |]. intros _ _.
    eapply keeps_bind; [apply keeps_setitem; exact Hnew |]. intros _ _.
    apply keeps_ret. exact I.
  - intros municipalities _. apply keeps_alloc.
Qed.

Lemma keeps_get_municipality_details self municipality_name :
  keeps (get_municipality_details self municipality_name) new_in.
Proof.
  unfold get_municipality_details.
  eapply keeps_bind; [apply keeps_find_by_name |]. intros municipality Hnew.
  destruct municipality; try (apply keeps_ret; exact Hnew);
    try (exfalso; exact Hnew).
  eapply keeps_bind; [apply keeps_alloc |]. intros services _.
  eapply keeps_bind; [apply keeps_setitem; exact Hnew |]. intros _ _.
  eapply keeps_bind; [apply keeps_alloc |]. intros times _.
  eapply keeps_bind; [apply keeps_setitem; exact Hnew |]. intros _ _.
  apply keeps_ret. exact Hnew.
Qed.

(** What [keeps] says of a call made in [base] itself. *)
Definition untouched {A} (m : M A) (Q : A -> Prop) : Prop :=
  (exists ext, snd (m base) = base ++ ext) /\
  (forall l o, nth_error base l = Some o -> nth_error (snd (m base)) l = Some o) /\
  (forall a, fst (m base) = Py.Return a -> Q a).

Lemma keeps_untouched {A} (m : M A) (Q : A -> Prop) :
  keeps m Q -> untouched m Q.
Proof.
  intro H. destruct (H []) as [[ext Hh] Hq]. rewrite app_nil_r in Hh, Hq.
  split; [exists ext; exact Hh | split; [| exact Hq]].
  intros l o Hl. rewrite Hh. rewrite nth_error_app1; [exact Hl |].
  apply nth_error_Some. congruence.
Qed.

End StoreFrame.

(** The store after [__init__]: the 48 objects of the table, the outer
    dictionary last. *)
Definition loaded : Store.heap :=
  snd (Store.store_table the_table []).

Definition loaded_self : Store.value := Store.VRef 47.

Example loaded_table :
  Store.store_table the_table [] = (Py.Return loaded_self, loaded) /\
  length loaded = 48 /\
  nth_error loaded 47
    = Some (Store.ODict [("cities", Store.VRef 18); ("counties", Store.VRef 46)]).
Proof.
  split; [vm_compute; reflexivity |].
  split; vm_compute; reflexivity.
Qed.

(** Looking up "red deer" in that store allocates one object, the copy of
    the stored record of Red Deer (object 2) with the two added keys; the
    copy shares the nested dictionaries 0 and 1 with the stored record. *)
Example find_red_deer_in_store :
  nth_error loaded 2
    = Some (Store.ODict
              [("type", Store.VStr "city"); ("population", Store.VInt 100844);
               ("coordinates", Store.VRef 0);
               ("website", Store.VStr "https://www.reddeer.ca");
               ("planning_dept", Store.VStr "planning@reddeer.ca");
               ("land_use_bylaw",
                Store.VStr "https://www.reddeer.ca/city-government/bylaws-and-policies/land-use-bylaw/");
               ("zoning_map",
                Store.VStr "https://www.reddeer.ca/city-services/planning-and-development/zoning-maps/");
               ("contact_info", Store.VRef 1)]) /\
  Store._find_by_name loaded_self "red deer" loaded
    = (Py.Return (Store.VRef 48),
       loaded ++
       [Store.ODict
          [("type", Store.VStr "city"); ("population", Store.VInt 100844);
           ("coordinates", Store.VRef 0);
           ("website", Store.VStr "https://www.reddeer.ca");
           ("planning_dept", Store.VStr "planning@reddeer.ca");
           ("land_use_bylaw",
            Store.VStr "https://www.reddeer.ca/city-government/bylaws-and-policies/land-use-bylaw/");
           ("zoning_map",
            Store.VStr "https://www.reddeer.ca/city-services/planning-and-development/zoning-maps/");
           ("contact_info", Store.VRef 1);
           ("name", Store.VStr "Red Deer"); ("category", Store.VStr "city")]]).
Proof. split; vm_compute; reflexivity. Qed.

(** The other operations on the loaded table: each returns a new address
    and leaves the 48 objects in place. *)
Definition seen_from_outside (r : Py.outcome Store.value * Store.heap)
  : Py.outcome Store.value * Store.heap * nat :=
  (fst r, firstn 48 (snd r), length (snd r)).

Example operations_in_store :
  seen_from_outside
    (Store.get_municipality_details loaded_self "Ponoka County" loaded)
    = (Py.Return (Store.VRef 48), loaded, 51) /\
  seen_from_outside (Store.get_supported_municipalities loaded_self loaded)
    = (Py.Return (Store.VRef 63), loaded, 64) /\
  seen_from_outside
    (Store._find_by_coordinates on_the_spot loaded_self
       (MunicipalityLookup.north 535461) (MunicipalityLookup.west 1134938) loaded)
    = (Py.Return (Store.VRef 48), loaded, 49) /\
  seen_from_outside
    (Store.find_municipality on_the_spot loaded_self red_deer_hint_at_edmonton
       loaded)
    = (Py.Return (Store.VRef 48), loaded, 49).
Proof.
  split; [vm_compute; reflexivity |].
  split; [vm_compute; reflexivity |].
  split; vm_compute; reflexivity.
Qed.

(* ------------------------------------------------------------------ *)
(** ** The matcher finds matches only *)

Section MatcherSound.

Import Re.

(** [Matches r pre g g']: the pattern [r] matches exactly the text [pre]
    and turns the groups [g] into [g']. *)
Inductive Matches : re -> list ascii -> groups -> groups -> Prop :=
| M_eps g : Matches Eps [] g g
| M_cls p c g : p c = true -> Matches (Cls p) [c] g g
| M_lit t pre g :
    starts_with_ci (Py.chars t) pre = Some [] -> Matches (Lit t) pre g g
| M_rep p lo hi pre g :
    forallb p pre = true ->
    lo <= length pre ->
    match hi with
    | Some n => length pre <= n
    | None => True
    end ->
    Matches (Rep p lo hi) pre g g
| M_cat r1 r2 pre1 pre2 g g1 g2 :
    Matches r1 pre1 g g1 -> Matches r2 pre2 g1 g2 ->
    Matches (Cat r1 r2) (pre1 ++ pre2) g g2
| M_alt_l r1 r2 pre g g' : Matches r1 pre g g' -> Matches (Alt r1 r2) pre g g'
| M_alt_r r1 r2 pre g g' : Matches r2 pre g g' -> Matches (Alt r1 r2) pre g g'
| M_grp i r pre g g' :
    Matches r pre g g' -> Matches (Grp i r) pre g ((i, Py.str pre) :: g').

Lemma starts_with_ci_split p l rest :
  starts_with_ci p l = Some rest ->
  exists pre, l = pre ++ rest /\ starts_with_ci p pre = Some [].
Proof.
  revert l. induction p as [| a p IH]; intros l H; cbn in H.
  - injection H as <-. exists []. split; reflexivity.
  - destruct l as [| b l]; [discriminate |].
    destruct (Ascii.eqb (Py.lower_char a) (Py.lower_char b)) eqn:E;
      [| discriminate].
    destruct (IH l H) as (pre & -> & Hpre).
    exists (b :: pre). split; [reflexivity |]. cbn. rewrite E. exact Hpre.
Qed.

Lemma greedy_sound {A} p (k : list ascii -> option A) x :
  forall s lo hi,
    greedy p lo hi s k = Some x ->
    exists pre rest,
      s = pre ++ rest /\ forallb p pre = true /\ lo <= length pre /\
      match hi with
      | Some n => length pre <= n
      | None => True
      end /\
      k rest = Some x.
Proof.
  assert (Hstop : forall s lo hi,
             match lo with
             | O => k s
             | S _ => None
             end = Some x ->
             exists pre rest,
               s = pre ++ rest /\ forallb p pre = true /\ lo <= length pre /\
               match hi with
               | Some n => length pre <= n
               | None => True
               end /\
               k rest = Some x).
  { intros s lo hi H. destruct lo; [| discriminate].
    exists [], s. cbn. repeat split; try lia; [destruct hi; [lia | exact I] | exact H]. }
  induction s as [| c s IH]; intros lo hi H; cbn [greedy] in H.
  - destruct (hi_zero hi); apply Hstop; exact H.
  - destruct (hi_zero hi) eqn:Ez; [apply Hstop; exact H |].
    destruct (p c) eqn:Ep; [| apply Hstop; exact H].
    destruct (greedy p (pred lo) (hi_pred hi) s k) as [y |] eqn:Eg;
      [| apply Hstop; exact H].
    injection H as ->.
    destruct (IH _ _ Eg) as (pre & rest & -> & Hall & Hlo & Hhi & Hk).
    exists (c :: pre), rest. cbn [app forallb length]. rewrite Ep, Hall.
    repeat split; try lia; [| exact Hk].
    destruct hi as [[| n] |]; cbn in *; [discriminate | lia | exact I].
Qed.

Lemma consumed_prefix (pre rest : list ascii) :
  consumed (pre ++ rest) rest = Py.str pre.
Proof.
  unfold consumed. rewrite length_app.
  replace (length pre + length rest - length rest) with (length pre) by lia.
  rewrite firstn_app, firstn_all, Nat.sub_diag. cbn. rewrite app_nil_r.
  reflexivity.
Qed.

(** Soundness of the continuation-passing matcher. *)
Lemma run_sound {A} r :
  forall s g (k : list ascii -> groups -> option A) x,
    run r s g k = Some x ->
    exists pre rest g',
      s = pre ++ rest /\ Matches r pre g g' /\ k rest g' = Some x.
Proof.
  induction r as [| p | t | p lo hi | r1 IH1 r2 IH2 | r1 IH1 r2 IH2 | i r IH];
    intros s g k x H; cbn [run] in H.
  - exists [], s, g. repeat split; [constructor | exact H].
  - destruct s as [| c s]; [discriminate |].
    destruct (p c) eqn:Ep; [| discriminate].
    exists [c], s, g. repeat split; [constructor; exact Ep | exact H].
  - destruct (starts_with_ci (Py.chars t) s) as [rest |] eqn:E; [| discriminate].
    destruct (starts_with_ci_split _ _ _ E) as (pre & -> & Hpre).
    exists pre, rest, g. repeat split; [constructor; exact Hpre | exact H].
  - destruct (greedy_sound _ _ _ _ _ _ H) as (pre & rest & -> & Hall & Hlo & Hhi & Hk).
    exists pre, rest, g. repeat split; [constructor; assumption | exact Hk].
  - destruct (IH1 _ _ _ _ H) as (pre1 & rest1 & g1 & -> & M1 & H1).
    destruct (IH2 _ _ _ _ H1) as (pre2 & rest2 & g2 & -> & M2 & H2).
    exists (pre1 ++ pre2), rest2, g2. rewrite app_assoc.
    repeat split; [econstructor; eassumption | exact H2].
  - destruct (run r1 s g k) as [y |] eqn:E1.
    + injection H as ->.
      destruct (IH1 _ _ _ _ E1) as (pre & rest & g' & -> & M & Hk).
      exists pre, rest, g'. repeat split; [apply M_alt_l; exact M | exact Hk].
    + destruct (IH2 _ _ _ _ H) as (pre & rest & g' & -> & M & Hk).
      exists pre, rest, g'. repeat split; [apply M_alt_r; exact M | exact Hk].
  - destruct (IH _ _ _ _ H) as (pre & rest & g' & -> & M & Hk).
    rewrite consumed_prefix in Hk.
    exists pre, rest, ((i, Py.str pre) :: g').
    repeat split; [constructor; exact M | exact Hk].
Qed.

(** A successful search returns the groups of a match of some part of the
    text. *)
Lemma search_sound r s g :
  search r s = Some g ->
  exists before pre rest,
    Py.chars s = before ++ pre ++ rest /\ Matches r pre [] g.
Proof.
  unfold search. generalize (Py.chars s) as l.
  induction l as [| c l IH]; cbn [search_chars]; intro H.
  - destruct (match_at r []) as [g0 |] eqn:E; [| discriminate].
    injection H as ->. unfold match_at in E.
    destruct (run_sound _ _ _ _ _ E) as (pre & rest & g' & Hs & M & Hk).
    injection Hk as ->. exists [], pre, rest. split; [exact Hs | exact M].
  - destruct (match_at r (c :: l)) as [g0 |] eqn:E.
    + injection H as ->. unfold match_at in E.
      destruct (run_sound _ _ _ _ _ E) as (pre & rest & g' & Hs & M & Hk).
      injection Hk as ->. exists [], pre, rest. split; [exact Hs | exact M].
    + destruct (IH H) as (before & pre & rest & -> & M).
      exists (c :: before), pre, rest. split; [reflexivity | exact M].
Qed.

End MatcherSound.

(* ------------------------------------------------------------------ *)
(** ** The acreage numeral is always a decimal numeral *)

Section AcreageNumeral.

Import Re.

Lemma take_while_app p l r :
  forallb p l = true -> Py.take_while p (l ++ r) = l ++ Py.take_while p r.
Proof.
  induction l as [| c l IH]; cbn; [reflexivity |].
  destruct (p c); cbn; [| discriminate].
  intro H. rewrite IH by exact H. reflexivity.
Qed.

Lemma drop_while_app p l r :
  forallb p l = true -> Py.drop_while p (l ++ r) = Py.drop_while p r.
Proof.
  induction l as [| c l IH]; cbn; [reflexivity |].
  destruct (p c); cbn; [exact IH | discriminate].
Qed.

Lemma take_while_all p l : forallb p l = true -> Py.take_while p l = l.
Proof.
  intro H. rewrite <- (app_nil_r l) at 1. rewrite take_while_app by exact H.
  cbn. apply app_nil_r.
Qed.

Lemma drop_while_all p l : forallb p l = true -> Py.drop_while p l = [].
Proof.
  intro H. rewrite <- (app_nil_r l). rewrite drop_while_app by exact H.
  reflexivity.
Qed.

(** Digits, an optional point, digits: [float] accepts it. *)
Lemma of_decimal_numeral (d1 dot d2 : list ascii) :
  forallb Py.is_digit d1 = true -> 1 <= length d1 ->
  forallb (Ascii.eqb "."%char) dot = true -> length dot <= 1 ->
  forallb Py.is_digit d2 = true ->
  exists x, F64.of_decimal (Py.str (d1 ++ dot ++ d2)) = Some x.
Proof.
  intros H1 Hn Hdot Hdn H2. unfold F64.of_decimal, Py.chars, Py.str.
  rewrite list_ascii_of_string_of_list_ascii.
  destruct dot as [| c dot].
  - cbn [app].
    assert (Hall : forallb Py.is_digit (d1 ++ d2) = true)
      by (rewrite forallb_app, H1, H2; reflexivity).
    rewrite take_while_all, drop_while_all by exact Hall.
    destruct d1 as [| c1 d1]; [cbn in Hn; lia |].
    cbn [app forallb]. eexists. reflexivity.
  - destruct dot; [| cbn in Hdn; lia].
    cbn [forallb] in Hdot. apply andb_true_iff in Hdot.
    destruct Hdot as [Hdot _]. apply Ascii.eqb_eq in Hdot. subst c.
    rewrite take_while_app, drop_while_app by exact H1.
    cbn [app Py.take_while Py.drop_while].
    change (Py.is_digit "."%char) with false. cbv iota.
    rewrite app_nil_r, H2.
    destruct d1 as [| c1 d1]; [cbn in Hn; lia |].
    eexists. reflexivity.
Qed.

(** The numeral captured by the acreage pattern is accepted by [float]:
    the default of [float_of_numeral] is never used. *)
Lemma acreage_numeral_decimal info m :
  search PropertyParser.acreage_re info = Some m ->
  exists x,
    F64.of_decimal (group m 1) = Some x /\
    PropertyParser.float_of_numeral (group m 1) = x.
Proof.
  intro H. apply search_sound in H.
  destruct H as (before & pre & rest & _ & M).
  unfold PropertyParser.acreage_re, cat, plus, opt, star, ws in M.
  inversion M as [| | | | r1 r2 pre1 pre2 g g1 g2 Mg Mrest | | |]; subst; clear M.
  inversion Mg as [| | | | | | | i r p0 g g' Min]; subst; clear Mg.
  inversion Min as [| | | | r1 r2 d1 p12 g g1 g2 Md1 M12 | | |]; subst; clear Min.
  inversion Md1; subst; clear Md1.
  inversion M12 as [| | | | r1 r2 dot d2 g g1 g2 Mdot Md2 | | |]; subst; clear M12.
  inversion Mdot; subst; clear Mdot.
  inversion Md2; subst; clear Md2.
  inversion Mrest as [| | | | r1 r2 w p34 g g1 g2 Mw M34 | | |]; subst; clear Mrest.
  inversion Mw; subst; clear Mw.
  inversion M34 as [| | | | r1 r2 a s0 g g1 g2 Ma Ms | | |]; subst; clear M34.
  inversion Ma; subst; clear Ma.
  inversion Ms; subst; clear Ms.
  cbn [group Nat.eqb].
  destruct (of_decimal_numeral d1 dot d2) as [x Hx]; try assumption.
  exists x. split; [exact Hx |].
  unfold PropertyParser.float_of_numeral. rewrite Hx. reflexivity.
Qed.

End AcreageNumeral.

(* ------------------------------------------------------------------ *)
(** ** The two renderings of the resolver agree

    Reading the objects of the store back into records relates the
    operations of [Store] to the functions of [MunicipalityLookup]. *)

Definition obind {A B} (o : option A) (f : A -> option B) : option B :=
  match o with
  | Some a => f a
  | None => None
  end.

Section Decode.

Import Store.

Variable h : heap.

(** The dictionary a value refers to. *)
Definition dict_at (v : value) : option (Dict.t value) :=
  match v with
  | VRef l =>
      match nth_error h l with
      | Some (ODict d) => Some d
      | _ => None
      end
  | _ => None
  end.

Definition str_value (v : value) : option string :=
  match v with
  | VStr s => Some s
  | _ => None
  end.

Definition int_value (v : value) : option Z :=
  match v with
  | VInt z => Some z
  | _ => None
  end.

Definition float_value (v : value) : option F64.float :=
  match v with
  | VFloat x => Some x
  | _ => None
  end.

(** A key that must be present, and a key that may be absent. *)
Definition required {A} (d : Dict.t value) (k : string)
    (f : value -> option A) : option A :=
  obind (Dict.get d k) f.

Definition optional {A} (d : Dict.t value) (k : string)
    (f : value -> option A) : option (option A) :=
  match Dict.get d k with
  | Some v => option_map Some (f v)
  | None => Some None
  end.

Definition decode_coordinates (v : value) : option (F64.float * F64.float) :=
  obind (dict_at v) (fun cd =>
  obind (required cd "lat" float_value) (fun lat =>
  obind (required cd "lon" float_value) (fun lon =>
  Some (lat, lon)))).

Definition decode_contact (v : value) : option MunicipalityLookup.contact :=
  obind (dict_at v) (fun cd =>
  obind (required cd "phone" str_value) (fun ph =>
  obind (required cd "address" str_value) (fun addr =>
  Some {| MunicipalityLookup.phone := ph;
          MunicipalityLookup.contact_address := addr |}))).

(** The stored entries of a record dictionary. *)
Definition decode_stored (d : Dict.t value)
  : option MunicipalityLookup.municipality_data :=
  obind (required d "type" str_value) (fun ty =>
  obind (optional d "population" int_value) (fun pop =>
  obind (optional d "coordinates" decode_coordinates) (fun co =>
  obind (required d "website" str_value) (fun web =>
  obind (required d "planning_dept" str_value) (fun dept =>
  obind (required d "land_use_bylaw" str_value) (fun bylaw =>
  obind (optional d "zoning_map" str_value) (fun zmap =>
  obind (required d "contact_info" decode_contact) (fun ci =>
  Some {| MunicipalityLookup.muni_type := ty;
          MunicipalityLookup.population := pop;
          MunicipalityLookup.muni_coordinates := co;
          MunicipalityLookup.website := web;
          MunicipalityLookup.planning_dept := dept;
          MunicipalityLookup.land_use_bylaw := bylaw;
          MunicipalityLookup.zoning_map := zmap;
          MunicipalityLookup.contact_info := ci |})))))))).

Fixpoint str_values (l : list value) : option (list string) :=
  match l with
  | [] => Some []
  | v :: l' =>
      obind (str_value v) (fun s =>
      obind (str_values l') (fun ss => Some (s :: ss)))
  end.

Fixpoint str_entries (d : Dict.t value) : option (Dict.t string) :=
  match d with
  | [] => Some []
  | (k, v) :: d' =>
      obind (str_value v) (fun s =>
      obind (str_entries d') (fun ss => Some ((k, s) :: ss)))
  end.

Definition decode_str_list (v : value) : option (list string) :=
  match v with
  | VRef l =>
      match nth_error h l with
      | Some (OList vs) => str_values vs
      | _ => None
      end
  | _ => None
  end.

Definition decode_str_dict (v : value) : option (Dict.t string) :=
  obind (dict_at v) str_entries.

(** A result of the resolver: [None], or the record read at the address. *)
Definition decode_result (v : value)
  : option (option MunicipalityLookup.municipality) :=
  match v with
  | VNone => Some None
  | _ =>
      obind (dict_at v) (fun d =>
      obind (decode_stored d) (fun data =>
      obind (required d "name" str_value) (fun n =>
      obind (required d "category" str_value) (fun cat =>
      obind (optional d "distance_km" float_value) (fun dist =>
      obind (optional d "supported_services" decode_str_list) (fun services =>
      obind (optional d "typical_processing_times" decode_str_dict) (fun times =>
      Some (Some {| MunicipalityLookup.stored := data;
                    MunicipalityLookup.name := n;
                    MunicipalityLookup.category := cat;
                    MunicipalityLookup.distance_km := dist;
                    MunicipalityLookup.supported_services := services;
                    MunicipalityLookup.typical_processing_times := times |}))))))))
  end.

(** The keys of a stored record. *)
Definition stored_keys : list string :=
  ["type"; "population"; "coordinates"; "website"; "planning_dept";
   "land_use_bylaw"; "zoning_map"; "contact_info"].

Definition only_stored_keys (d : Dict.t value) : bool :=
  forallb (fun k => Py.mem k stored_keys) (Dict.keys d).

(** A stored record: a dictionary with stored keys only. *)
Definition decode_record (v : value)
  : option MunicipalityLookup.municipality_data :=
  obind (dict_at v) (fun d =>
  if only_stored_keys d then decode_stored d else None).

(** The entries of a category: names and stored records. *)
Fixpoint decode_entries (vs : Dict.t value)
  : option (Dict.t MunicipalityLookup.municipality_data) :=
  match vs with
  | [] => Some []
  | (n, v) :: vs' =>
      obind (decode_record v) (fun data =>
      obind (decode_entries vs') (fun rest => Some ((n, data) :: rest)))
  end.

(** The table read at [self]: an outer dictionary with exactly the keys
    "cities" and "counties", in this order. *)
Definition decode_table (self : value) : option MunicipalityLookup.table :=
  match dict_at self with
  | Some [(k1, cv); (k2, kv)] =>
      if String.eqb k1 "cities" && String.eqb k2 "counties" then
        obind (obind (dict_at cv) decode_entries) (fun cs =>
        obind (obind (dict_at kv) decode_entries) (fun ks =>
        Some {| MunicipalityLookup.cities := cs;
                MunicipalityLookup.counties := ks |}))
      else None
  | _ => None
  end.

End Decode.

Example loaded_table_decodes :
  decode_table loaded loaded_self = Some the_table.
Proof. vm_compute. reflexivity. Qed.

Example find_red_deer_decodes :
  decode_result (snd (Store._find_by_name loaded_self "red deer" loaded))
    (Store.VRef 48)
  = Some (MunicipalityLookup._find_by_name the_table "red deer").
Proof. vm_compute. reflexivity. Qed.

Section DecodeFacts.

Import Store.

Lemma obind_some {A B} (o : option A) (f : A -> option B) b :
  obind o f = Some b -> exists a, o = Some a /\ f a = Some b.
Proof. destruct o as [a |]; [intro H; exists a; split; [reflexivity | exact H] | discriminate]. Qed.

(** Objects keep their address and contents when the store grows. *)
Lemma dict_at_ext h ext v d :
  dict_at h v = Some d -> dict_at (h ++ ext) v = Some d.
Proof.
  destruct v; try discriminate. cbn [dict_at].
  destruct (nth_error h l) as [o |] eqn:E; [| discriminate].
  rewrite nth_error_app1 by (apply nth_error_Some; congruence).
  rewrite E. trivial.
Qed.

Lemma required_ext {A} (f g : value -> option A) d k x :
  (forall v y, f v = Some y -> g v = Some y) ->
  required d k f = Some x -> required d k g = Some x.
Proof.
  intros Hfg. unfold required. destruct (Dict.get d k) as [v |]; [| discriminate].
  cbn. apply Hfg.
Qed.

Lemma optional_ext {A} (f g : value -> option A) d k x :
  (forall v y, f v = Some y -> g v = Some y) ->
  optional d k f = Some x -> optional d k g = Some x.
Proof.
  intros Hfg. unfold optional. destruct (Dict.get d k) as [v |]; [| trivial].
  destruct (f v) as [y |] eqn:E; [| discriminate].
  rewrite (Hfg v y E). trivial.
Qed.

Lemma decode_coordinates_ext h ext v x :
  decode_coordinates h v = Some x -> decode_coordinates (h ++ ext) v = Some x.
Proof.
  unfold decode_coordinates. intro H.
  apply obind_some in H. destruct H as (cd & Hd & H).
  rewrite (dict_at_ext h ext v cd Hd). exact H.
Qed.

Lemma decode_contact_ext h ext v x :
  decode_contact h v = Some x -> decode_contact (h ++ ext) v = Some x.
Proof.
  unfold decode_contact. intro H.
  apply obind_some in H. destruct H as (cd & Hd & H).
  rewrite (dict_at_ext h ext v cd Hd). exact H.
Qed.

Lemma decode_stored_ext h ext d x :
  decode_stored h d = Some x -> decode_stored (h ++ ext) d = Some x.
Proof.
  unfold decode_stored. intro H.
  apply obind_some in H. destruct H as (ty & -> & H). cbn [obind].
  apply obind_some in H. destruct H as (pop & -> & H). cbn [obind].
  apply obind_some in H. destruct H as (co & Hco & H).
  rewrite (optional_ext _ (decode_coordinates (h ++ ext)) _ _ _
             (decode_coordinates_ext h ext) Hco). cbn [obind].
  apply obind_some in H. destruct H as (web & -> & H). cbn [obind].
  apply obind_some in H. destruct H as (dept & -> & H). cbn [obind].
  apply obind_some in H. destruct H as (bylaw & -> & H). cbn [obind].
  apply obind_some in H. destruct H as (zmap & -> & H). cbn [obind].
  apply obind_some in H. destruct H as (ci & Hci & H).
  rewrite (required_ext _ (decode_contact (h ++ ext)) _ _ _
             (decode_contact_ext h ext) Hci). cbn [obind].
  exact H.
Qed.

Lemma decode_record_ext h ext v x :
  decode_record h v = Some x -> decode_record (h ++ ext) v = Some x.
Proof.
  unfold decode_record. intro H.
  apply obind_some in H. destruct H as (d & Hd & H).
  rewrite (dict_at_ext h ext v d Hd). cbn [obind].
  destruct (only_stored_keys d); [| discriminate].
  apply decode_stored_ext. exact H.
Qed.

Lemma decode_entries_ext h ext vs es :
  decode_entries h vs = Some es -> decode_entries (h ++ ext) vs = Some es.
Proof.
  revert es. induction vs as [| [n v] vs IH]; intros es H; [exact H |].
  cbn [decode_entries] in *.
  apply obind_some in H. destruct H as (data & Hd & H).
  rewrite (decode_record_ext h ext v data Hd). cbn [obind].
  apply obind_some in H. destruct H as (rest & Hr & H).
  rewrite (IH rest Hr). exact H.
Qed.

Lemma decode_str_list_ext h ext v x :
  decode_str_list h v = Some x -> decode_str_list (h ++ ext) v = Some x.
Proof.
  destruct v; try discriminate. cbn [decode_str_list].
  destruct (nth_error h l) as [o |] eqn:E; [| discriminate].
  rewrite nth_error_app1 by (apply nth_error_Some; congruence).
  rewrite E. trivial.
Qed.

Lemma decode_str_dict_ext h ext v x :
  decode_str_dict h v = Some x -> decode_str_dict (h ++ ext) v = Some x.
Proof.
  unfold decode_str_dict. intro H.
  apply obind_some in H. destruct H as (d & Hd & H).
  rewrite (dict_at_ext h ext v d Hd). exact H.
Qed.

Lemma decode_result_ext h ext v x :
  decode_result h v = Some x -> decode_result (h ++ ext) v = Some x.
Proof.
  assert (Hgen :
    obind (dict_at h v) (fun d =>
      obind (decode_stored h d) (fun data =>
      obind (required d "name" str_value) (fun n =>
      obind (required d "category" str_value) (fun cat =>
      obind (optional d "distance_km" float_value) (fun dist =>
      obind (optional d "supported_services" (decode_str_list h)) (fun services =>
      obind (optional d "typical_processing_times" (decode_str_dict h)) (fun times =>
      Some (Some {| MunicipalityLookup.stored := data;
                    MunicipalityLookup.name := n;
                    MunicipalityLookup.category := cat;
                    MunicipalityLookup.distance_km := dist;
                    MunicipalityLookup.supported_services := services;
                    MunicipalityLookup.typical_processing_times := times |}))))))))
    = Some x ->
    obind (dict_at (h ++ ext) v) (fun d =>
      obind (decode_stored (h ++ ext) d) (fun data =>
      obind (required d "name" str_value) (fun n =>
      obind (required d "category" str_value) (fun cat =>
      obind (optional d "distance_km" float_value) (fun dist =>
      obind (optional d "supported_services" (decode_str_list (h ++ ext))) (fun services =>
      obind (optional d "typical_processing_times" (decode_str_dict (h ++ ext))) (fun times =>
      Some (Some {| MunicipalityLookup.stored := data;
                    MunicipalityLookup.name := n;
                    MunicipalityLookup.category := cat;
                    MunicipalityLookup.distance_km := dist;
                    MunicipalityLookup.supported_services := services;
                    MunicipalityLookup.typical_processing_times := times |}))))))))
    = Some x).
  { intro H.
    apply obind_some in H. destruct H as (d & Hd & H).
    rewrite (dict_at_ext h ext v d Hd). cbn [obind].
    apply obind_some in H. destruct H as (data & Hs & H).
    rewrite (decode_stored_ext h ext d data Hs). cbn [obind].
    apply obind_some in H. destruct H as (n & -> & H). cbn [obind].
    apply obind_some in H. destruct H as (cat & -> & H). cbn [obind].
    apply obind_some in H. destruct H as (dist & -> & H). cbn [obind].
    apply obind_some in H. destruct H as (services & Hsv & H).
    rewrite (optional_ext _ (decode_str_list (h ++ ext)) _ _ _
               (decode_str_list_ext h ext) Hsv). cbn [obind].
    apply obind_some in H. destruct H as (times & Htm & H).
    rewrite (optional_ext _ (decode_str_dict (h ++ ext)) _ _ _
               (decode_str_dict_ext h ext) Htm). cbn [obind].
    exact H. }
  destruct v; try exact Hgen. trivial.
Qed.

(** Keys added to a copy do not change what the stored keys decode to. *)
Lemma required_set_other {A} (f : value -> option A) d k k' x :
  String.eqb k' k = false -> required (Dict.set d k x) k' f = required d k' f.
Proof. intro H. unfold required. rewrite get_set_other by exact H. reflexivity. Qed.

Lemma optional_set_other {A} (f : value -> option A) d k k' x :
  String.eqb k' k = false -> optional (Dict.set d k x) k' f = optional d k' f.
Proof. intro H. unfold optional. rewrite get_set_other by exact H. reflexivity. Qed.

Lemma decode_stored_set h d k x :
  Py.mem k stored_keys = false ->
  decode_stored h (Dict.set d k x) = decode_stored h d.
Proof.
  intro Hk. unfold stored_keys in Hk. cbn [Py.mem existsb] in Hk.
  repeat (apply orb_false_iff in Hk; destruct Hk as [? Hk]).
  unfold decode_stored.
  repeat first [ rewrite required_set_other
                   by (rewrite String.eqb_sym; assumption)
               | rewrite optional_set_other
                   by (rewrite String.eqb_sym; assumption) ].
  reflexivity.
Qed.

(** A stored record has none of the keys the resolver adds. *)
Lemma get_absent (d : Dict.t value) k :
  only_stored_keys d = true -> Py.mem k stored_keys = false ->
  Dict.get d k = None.
Proof.
  intros Hd Hk. induction d as [| [k' v] d IH]; [reflexivity |].
  unfold only_stored_keys in Hd, IH.
  cbn [Dict.keys map fst forallb] in Hd.
  apply andb_true_iff in Hd. destruct Hd as [Hk' Hd].
  cbn [Dict.get]. destruct (String.eqb k k') eqn:E.
  - apply String.eqb_eq in E. subst k'. congruence.
  - apply IH. exact Hd.
Qed.

End DecodeFacts.

Section RunFacts.

Import Store.

Lemma bind_run {A B} (m : M A) (f : A -> M B) h a h' :
  m h = (Py.Return a, h') -> bind m f h = f a h'.
Proof. intro H. unfold bind. rewrite H. reflexivity. Qed.

Lemma as_dict_run h v d : dict_at h v = Some d -> as_dict v h = (Py.Return d, h).
Proof.
  destruct v; try discriminate. cbn [dict_at as_dict]. unfold bind, read.
  destruct (nth_error h l) as [[d' | l'] |]; try discriminate.
  intro H. injection H as ->. reflexivity.
Qed.

Lemma getitem_run h v d k x :
  dict_at h v = Some d -> Dict.get d k = Some x ->
  getitem v k h = (Py.Return x, h).
Proof.
  intros Hd Hk. unfold getitem.
  rewrite (bind_run _ _ _ _ _ (as_dict_run h v d Hd)), Hk. reflexivity.
Qed.

Lemma dict_get_run h v d k :
  dict_at h v = Some d ->
  dict_get v k h = (Py.Return match Dict.get d k with
                              | Some x => x
                              | None => VNone
                              end, h).
Proof.
  intros Hd. unfold dict_get.
  rewrite (bind_run _ _ _ _ _ (as_dict_run h v d Hd)). reflexivity.
Qed.

Lemma dict_copy_run h v d :
  dict_at h v = Some d ->
  dict_copy v h = (Py.Return (VRef (length h)), h ++ [ODict d]).
Proof.
  intros Hd. unfold dict_copy.
  rewrite (bind_run _ _ _ _ _ (as_dict_run h v d Hd)). reflexivity.
Qed.

Lemma nth_error_last {A} (l : list A) x : nth_error (l ++ [x]) (length l) = Some x.
Proof. rewrite nth_error_app2, Nat.sub_diag by lia. reflexivity. Qed.

Lemma put_last h o o' : put (h ++ [o]) (length h) o' = h ++ [o'].
Proof. rewrite put_beyond, Nat.sub_diag by lia. reflexivity. Qed.

(** An item assignment on the object allocated last. *)
Lemma setitem_last h d k x :
  setitem (VRef (length h)) k x (h ++ [ODict d])
  = (Py.Return tt, h ++ [ODict (Dict.set d k x)]).
Proof.
  cbn [setitem]. unfold bind, read. rewrite nth_error_last.
  unfold write. rewrite put_last. reflexivity.
Qed.

Lemma dict_at_last h d : dict_at (h ++ [ODict d]) (VRef (length h)) = Some d.
Proof. cbn [dict_at]. rewrite nth_error_last. reflexivity. Qed.

(** The copy with two added keys, and what it decodes to. *)
Lemma named_copy_run h v d n cat :
  dict_at h v = Some d ->
  (result <- dict_copy v ;;
   setitem result "name" (VStr n) ;;;
   setitem result "category" (VStr cat) ;;;
   ret result) h
  = (Py.Return (VRef (length h)),
     h ++ [ODict (Dict.set (Dict.set d "name" (VStr n)) "category" (VStr cat))]).
Proof.
  intro Hd.
  rewrite (bind_run _ _ _ _ _ (dict_copy_run h v d Hd)).
  rewrite (bind_run _ _ _ _ _ (setitem_last h d _ _)).
  rewrite (bind_run _ _ _ _ _ (setitem_last h _ _ _)).
  reflexivity.
Qed.

Lemma record_parts h v data :
  decode_record h v = Some data ->
  exists d, dict_at h v = Some d /\ only_stored_keys d = true /\
            decode_stored h d = Some data.
Proof.
  unfold decode_record. intro H.
  apply obind_some in H. destruct H as (d & Hd & H).
  exists d. destruct (only_stored_keys d); [| discriminate].
  repeat split; assumption.
Qed.

Lemma named_copy_decodes h d data n cat :
  only_stored_keys d = true ->
  decode_stored h d = Some data ->
  decode_result
    (h ++ [ODict (Dict.set (Dict.set d "name" (VStr n)) "category" (VStr cat))])
    (VRef (length h))
  = Some (Some (MunicipalityLookup.named_copy data n cat)).
Proof.
  intros Hk Hs. unfold decode_result. rewrite dict_at_last. cbn [obind].
  rewrite !decode_stored_set by reflexivity.
  rewrite (decode_stored_ext _ _ _ _ Hs). cbn [obind].
  unfold required, optional.
  repeat first [ rewrite get_set_same
               | rewrite get_set_other by reflexivity ].
  rewrite !(get_absent d) by (assumption || reflexivity).
  reflexivity.
Qed.

End RunFacts.

Section FindByNameRefines.

Import Store.

(** The loop of [_find_by_name] in the store and on the records. *)
Lemma find_in_refines cat name_lower :
  forall vs es h,
    decode_entries h vs = Some es ->
    exists v ext,
      find_in vs cat name_lower h = (Py.Return v, h ++ ext) /\
      decode_result (h ++ ext) v
        = Some (MunicipalityLookup.find_in es cat name_lower).
Proof.
  induction vs as [| [n v] vs IH]; intros es h H; cbn [decode_entries] in H.
  - injection H as <-. exists VNone, []. rewrite app_nil_r.
    split; reflexivity.
  - apply obind_some in H. destruct H as (data & Hrec & H).
    apply obind_some in H. destruct H as (rest & Hrest & H).
    injection H as <-.
    cbn [find_in MunicipalityLookup.find_in].
    destruct (MunicipalityLookup.name_matches n name_lower).
    + destruct (record_parts h v data Hrec) as (d & Hd & Hk & Hs).
      eexists _, _. split.
      * apply named_copy_run. exact Hd.
      * apply named_copy_decodes; assumption.
    + apply IH. exact Hrest.
Qed.

Lemma table_parts h self t :
  decode_table h self = Some t ->
  exists cv kv cs ks,
    dict_at h self = Some [("cities", cv); ("counties", kv)] /\
    dict_at h cv = Some cs /\ dict_at h kv = Some ks /\
    decode_entries h cs = Some (MunicipalityLookup.cities t) /\
    decode_entries h ks = Some (MunicipalityLookup.counties t).
Proof.
  unfold decode_table. intro H.
  destruct (dict_at h self) as [[| [k1 cv] [| [k2 kv] [|]]] |];
    try discriminate H.
  destruct (String.eqb k1 "cities") eqn:E1; [| discriminate H].
  destruct (String.eqb k2 "counties") eqn:E2; [| discriminate H].
  apply String.eqb_eq in E1, E2. subst k1 k2. cbn [andb] in H.
  apply obind_some in H. destruct H as (cs' & Hcs & H).
  apply obind_some in Hcs. destruct Hcs as (cs & Hcv & Hcs).
  apply obind_some in H. destruct H as (ks' & Hks & H).
  apply obind_some in Hks. destruct Hks as (ks & Hkv & Hks).
  injection H as <-. cbn.
  exists cv, kv, cs, ks. repeat split; assumption.
Qed.

Lemma decode_none h v : decode_result h v = Some None -> v = VNone.
Proof.
  destruct v; try reflexivity; unfold decode_result; intro H;
    repeat (apply obind_some in H; destruct H as (? & _ & H));
    discriminate H.
Qed.

(** [_find_by_name] on a stored table returns, at a new address or as
    [None], the record that [_find_by_name] on the table returns. *)
Lemma find_by_name_refines h self t nm :
  decode_table h self = Some t ->
  exists v ext,
    _find_by_name self nm h = (Py.Return v, h ++ ext) /\
    decode_result (h ++ ext) v = Some (MunicipalityLookup._find_by_name t nm).
Proof.
  intro Ht.
  destruct (table_parts h self t Ht) as (cv & kv & cs & ks & Hself & Hcv & Hkv & Hcs & Hks).
  unfold _find_by_name, MunicipalityLookup._find_by_name, dict_items.
  rewrite (bind_run _ _ _ _ _ (getitem_run h self _ "cities" cv Hself eq_refl)).
  rewrite (bind_run _ _ _ _ _ (as_dict_run h cv cs Hcv)).
  destruct (find_in_refines "city" (Py.lower nm) cs _ h Hcs) as (v & ext & Hrun & Hdec).
  rewrite (bind_run _ _ _ _ _ Hrun).
  destruct (MunicipalityLookup.find_in (MunicipalityLookup.cities t) "city"
              (Py.lower nm)) as [m |] eqn:Em.
  - exists v, ext. split; [| exact Hdec].
    destruct v; try reflexivity. discriminate Hdec.
  - apply decode_none in Hdec. subst v.
    rewrite (bind_run _ _ _ _ _
               (getitem_run (h ++ ext) self _ "counties" kv
                  (dict_at_ext h ext _ _ Hself) eq_refl)).
    rewrite (bind_run _ _ _ _ _ (as_dict_run _ kv ks (dict_at_ext h ext _ _ Hkv))).
    destruct (find_in_refines "county" (Py.lower nm) ks _ (h ++ ext)
                (decode_entries_ext h ext _ _ Hks)) as (v & ext' & Hrun' & Hdec').
    exists v, (ext ++ ext'). rewrite app_assoc. split; assumption.
Qed.

End FindByNameRefines.

Section FindByCoordinatesRefines.

Import Store.

Variable dist : MunicipalityLookup.geodesic.
Variables lat lon : F64.float.

Lemma stored_coordinates h d data :
  decode_stored h d = Some data ->
  optional d "coordinates" (decode_coordinates h)
  = Some (MunicipalityLookup.muni_coordinates data).
Proof.
  unfold decode_stored. intro H.
  apply obind_some in H. destruct H as (ty & _ & H).
  apply obind_some in H. destruct H as (pop & _ & H).
  apply obind_some in H. destruct H as (co & Hco & H).
  apply obind_some in H. destruct H as (web & _ & H).
  apply obind_some in H. destruct H as (dept & _ & H).
  apply obind_some in H. destruct H as (bylaw & _ & H).
  apply obind_some in H. destruct H as (zmap & _ & H).
  apply obind_some in H. destruct H as (ci & _ & H).
  injection H as <-. exact Hco.
Qed.

Lemma coordinates_parts h cv a b :
  decode_coordinates h cv = Some (a, b) ->
  exists cd, dict_at h cv = Some cd /\
             Dict.get cd "lat" = Some (VFloat a) /\
             Dict.get cd "lon" = Some (VFloat b).
Proof.
  unfold decode_coordinates, required. intro H.
  apply obind_some in H. destruct H as (cd & Hcd & H).
  apply obind_some in H. destruct H as (a' & Ha & H).
  apply obind_some in H. destruct H as (b' & Hb & H).
  injection H as <- <-.
  apply obind_some in Ha. destruct Ha as ([] & Hga & Ha); try discriminate Ha.
  apply obind_some in Hb. destruct Hb as ([] & Hgb & Hb); try discriminate Hb.
  injection Ha as <-. injection Hb as <-.
  exists cd. repeat split; assumption.
Qed.

Lemma truth_dict_run h v d k x :
  dict_at h v = Some d -> Dict.get d k = Some x ->
  truth v h = (Py.Return true, h).
Proof.
  destruct v; try discriminate. cbn [dict_at truth]. unfold bind, read.
  destruct (nth_error h l) as [[d' | l'] |]; try discriminate.
  intro H. injection H as ->. intro Hk.
  destruct d; [discriminate Hk | reflexivity].
Qed.

(** The copy with three added keys, and what it decodes to. *)
Lemma located_copy_run h v d n cat x :
  dict_at h v = Some d ->
  (result <- dict_copy v ;;
   setitem result "name" (VStr n) ;;;
   setitem result "category" (VStr cat) ;;;
   setitem result "distance_km" (VFloat x) ;;;
   ret (result, x)) h
  = (Py.Return (VRef (length h), x),
     h ++ [ODict (Dict.set (Dict.set (Dict.set d "name" (VStr n))
                              "category" (VStr cat))
                    "distance_km" (VFloat x))]).
Proof.
  intro Hd.
  rewrite (bind_run _ _ _ _ _ (dict_copy_run h v d Hd)).
  rewrite (bind_run _ _ _ _ _ (setitem_last h d _ _)).
  rewrite (bind_run _ _ _ _ _ (setitem_last h _ _ _)).
  rewrite (bind_run _ _ _ _ _ (setitem_last h _ _ _)).
  reflexivity.
Qed.

Lemma located_copy_decodes h d data n cat x :
  only_stored_keys d = true ->
  decode_stored h d = Some data ->
  decode_result
    (h ++ [ODict (Dict.set (Dict.set (Dict.set d "name" (VStr n))
                              "category" (VStr cat))
                    "distance_km" (VFloat x))])
    (VRef (length h))
  = Some (Some {| MunicipalityLookup.stored := data;
                  MunicipalityLookup.name := n;
                  MunicipalityLookup.category := cat;
                  MunicipalityLookup.distance_km := Some x;
                  MunicipalityLookup.supported_services := None;
                  MunicipalityLookup.typical_processing_times := None |}).
Proof.
  intros Hk Hs. unfold decode_result. rewrite dict_at_last. cbn [obind].
  rewrite !decode_stored_set by reflexivity.
  rewrite (decode_stored_ext _ _ _ _ Hs). cbn [obind].
  unfold required, optional.
  repeat first [ rewrite get_set_same
               | rewrite get_set_other by reflexivity ].
  rewrite !(get_absent d) by (assumption || reflexivity).
  reflexivity.
Qed.

(** One step of the loop of [_find_by_coordinates]. *)
Lemma consider_refines category_name h n v data st o :
  decode_record h v = Some data ->
  decode_result h (fst st) = Some o ->
  exists st' ext,
    consider dist lat lon category_name st (n, v) h
      = (Py.Return st', h ++ ext) /\
    decode_result (h ++ ext) (fst st')
      = Some (fst (MunicipalityLookup.consider dist lat lon category_name
                     (o, snd st) (n, data))) /\
    snd st' = snd (MunicipalityLookup.consider dist lat lon category_name
                     (o, snd st) (n, data)).
Proof.
  intros Hrec Hst.
  destruct (record_parts h v data Hrec) as (d & Hd & Hk & Hs).
  pose proof (stored_coordinates h d data Hs) as Hco.
  assert (Hsame : exists st' ext,
             (@ret closest st) h = (Py.Return st', h ++ ext) /\
             decode_result (h ++ ext) (fst st') = Some o /\ snd st' = snd st).
  { exists st, []. rewrite app_nil_r. repeat split. exact Hst. }
  unfold consider, MunicipalityLookup.consider.
  rewrite (bind_run _ _ _ _ _ (dict_get_run h v d "coordinates" Hd)).
  unfold optional in Hco.
  destruct (Dict.get d "coordinates") as [cv |] eqn:Eg.
  - destruct (decode_coordinates h cv) as [[a b] |] eqn:Ec; [| discriminate Hco].
    injection Hco as <-.
    destruct (coordinates_parts h cv a b Ec) as (cd & Hcd & Hlat & Hlon).
    rewrite (bind_run _ _ _ _ _ (truth_dict_run h cv cd "lat" _ Hcd Hlat)).
    rewrite (bind_run _ _ _ _ _ (getitem_run h cv cd "lat" _ Hcd Hlat)).
    rewrite (bind_run _ _ _ _ _ (getitem_run h cv cd "lon" _ Hcd Hlon)).
    cbn [as_float]. unfold bind at 1 2. cbn [ret snd fst].
    destruct (F64.ltb (dist (lat, lon) (a, b)) MunicipalityLookup.fifty &&
              F64.ltb (dist (lat, lon) (a, b)) (snd st)).
    + eexists _, _. split; [apply located_copy_run; exact Hd |].
      cbn [fst snd]. split; [| reflexivity].
      apply located_copy_decodes; assumption.
    + exact Hsame.
  - injection Hco as <-.
    rewrite (bind_run _ _ _ _ _ (eq_refl : truth VNone h = (Py.Return false, h))).
    exact Hsame.
Qed.

Lemma scan_entries_refines category_name :
  forall vs es h st o,
    decode_entries h vs = Some es ->
    decode_result h (fst st) = Some o ->
    exists st' ext,
      for_each (consider dist lat lon category_name) vs st h
        = (Py.Return st', h ++ ext) /\
      decode_result (h ++ ext) (fst st')
        = Some (fst (fold_left
                       (MunicipalityLookup.consider dist lat lon category_name)
                       es (o, snd st))) /\
      snd st' = snd (fold_left
                       (MunicipalityLookup.consider dist lat lon category_name)
                       es (o, snd st)).
Proof.
  induction vs as [| [n v] vs IH]; intros es h st o H Hst;
    cbn [decode_entries] in H.
  - injection H as <-. exists st, []. rewrite app_nil_r. repeat split. exact Hst.
  - apply obind_some in H. destruct H as (data & Hrec & H).
    apply obind_some in H. destruct H as (rest & Hrest & H).
    injection H as <-. cbn [for_each fold_left].
    destruct (consider_refines category_name h n v data st o Hrec Hst)
      as (st1 & ext1 & Hrun & Hdec & Hsnd).
    rewrite (bind_run _ _ _ _ _ Hrun).
    destruct (IH rest (h ++ ext1) st1 _
                (decode_entries_ext h ext1 _ _ Hrest) Hdec)
      as (st2 & ext2 & Hrun2 & Hdec2 & Hsnd2).
    rewrite Hsnd, <- surjective_pairing in Hdec2, Hsnd2.
    exists st2, (ext1 ++ ext2). rewrite app_assoc. repeat split; assumption.
Qed.

Lemma bind_assoc {A B C} (m : M A) (f : A -> M B) (g : B -> M C) h :
  bind (bind m f) g h = bind m (fun a => bind (f a) g) h.
Proof. unfold bind. destruct (m h) as [[a | e] h']; reflexivity. Qed.

Lemma scan_category_refines category_name cval vs es h st o :
  dict_at h cval = Some vs ->
  decode_entries h vs = Some es ->
  decode_result h (fst st) = Some o ->
  exists st' ext,
    scan_category dist lat lon st (category_name, cval) h
      = (Py.Return st', h ++ ext) /\
    decode_result (h ++ ext) (fst st')
      = Some (fst (MunicipalityLookup.scan_category dist lat lon (o, snd st)
                     (category_name, es))) /\
    snd st' = snd (MunicipalityLookup.scan_category dist lat lon (o, snd st)
                     (category_name, es)).
Proof.
  intros Hc Hes Hst.
  unfold scan_category, MunicipalityLookup.scan_category, dict_items.
  cbn [fst snd].
  rewrite (bind_run _ _ _ _ _ (as_dict_run h cval vs Hc)).
  apply scan_entries_refines; assumption.
Qed.

(** [_find_by_coordinates] on a stored table returns, at a new address or
    as [None], the record that [_find_by_coordinates] on the table
    returns. *)
Lemma find_by_coordinates_refines h self t :
  decode_table h self = Some t ->
  exists v ext,
    _find_by_coordinates dist self lat lon h = (Py.Return v, h ++ ext) /\
    decode_result (h ++ ext) v
      = Some (MunicipalityLookup._find_by_coordinates dist t lat lon).
Proof.
  intro Ht.
  destruct (table_parts h self t Ht)
    as (cv & kv & cs & ks & Hself & Hcv & Hkv & Hcs & Hks).
  unfold _find_by_coordinates, MunicipalityLookup._find_by_coordinates,
    dict_items, MunicipalityLookup.items.
  rewrite (bind_run _ _ _ _ _ (as_dict_run h self _ Hself)).
  cbn [for_each fold_left].
  destruct (scan_category_refines "cities" cv cs _ h (VNone, F64.inf) None
              Hcv Hcs eq_refl)
    as (st1 & ext1 & Hrun1 & Hdec1 & Hsnd1).
  cbn [snd] in Hdec1, Hsnd1.
  destruct (scan_category_refines "counties" kv ks _ (h ++ ext1) st1 _
              (dict_at_ext h ext1 _ _ Hkv)
              (decode_entries_ext h ext1 _ _ Hks) Hdec1)
    as (st2 & ext2 & Hrun2 & Hdec2 & Hsnd2).
  rewrite Hsnd1, <- surjective_pairing in Hdec2, Hsnd2.
  rewrite bind_assoc, (bind_run _ _ _ _ _ Hrun1).
  rewrite bind_assoc, (bind_run _ _ _ _ _ Hrun2).
  exists (fst st2), (ext1 ++ ext2). rewrite app_assoc.
  split; [reflexivity | exact Hdec2].
Qed.

End FindByCoordinatesRefines.

Section ResolverRefines.

Import Store.

Variable self : value.
Variable t : MunicipalityLookup.table.

(** Run in a store where [self] holds the table [t], the operation [m]
    returns, leaves a store that extends the one it started in, and its
    result reads back as [o]. *)
Definition refines (m : M value) (o : option MunicipalityLookup.municipality)
  : Prop :=
  forall h,
    decode_table h self = Some t ->
    exists v ext,
      m h = (Py.Return v, h ++ ext) /\
      decode_result (h ++ ext) v = Some o.

Lemma decode_table_ext h ext :
  decode_table h self = Some t -> decode_table (h ++ ext) self = Some t.
Proof.
  intro Ht.
  destruct (table_parts h self t Ht)
    as (cv & kv & cs & ks & Hself & Hcv & Hkv & Hcs & Hks).
  unfold decode_table.
  rewrite (dict_at_ext h ext _ _ Hself). cbn [String.eqb Ascii.eqb Bool.eqb andb].
  rewrite (dict_at_ext h ext _ _ Hcv), (dict_at_ext h ext _ _ Hkv). cbn [obind].
  rewrite (decode_entries_ext h ext _ _ Hcs), (decode_entries_ext h ext _ _ Hks).
  cbn [obind]. destruct t. reflexivity.
Qed.

Lemma refines_none : refines (ret VNone) None.
Proof.
  intros h _. exists VNone, []. rewrite app_nil_r. split; reflexivity.
Qed.

Lemma refines_find_by_name nm :
  refines (_find_by_name self nm) (MunicipalityLookup._find_by_name t nm).
Proof. intros h Ht. apply find_by_name_refines. exact Ht. Qed.

Lemma refines_find_by_coordinates dist lat lon :
  refines (_find_by_coordinates dist self lat lon)
    (MunicipalityLookup._find_by_coordinates dist t lat lon).
Proof. intros h Ht. apply find_by_coordinates_refines. exact Ht. Qed.

Lemma refines_or_else m next o o' :
  refines m o -> refines next o' ->
  refines (or_else m next) (MunicipalityLookup.or_else o o').
Proof.
  intros Hm Hnext h Ht. unfold or_else.
  destruct (Hm h Ht) as (v & ext & Hrun & Hdec).
  rewrite (bind_run _ _ _ _ _ Hrun).
  destruct o as [x |]; cbn [MunicipalityLookup.or_else].
  - exists v, ext. split; [| exact Hdec].
    destruct v; try reflexivity. discriminate Hdec.
  - apply decode_none in Hdec. subst v.
    destruct (Hnext (h ++ ext) (decode_table_ext h ext Ht))
      as (v' & ext' & Hrun' & Hdec').
    exists v', (ext ++ ext'). rewrite app_assoc. split; assumption.
Qed.

Lemma refines_first_by_name hints :
  refines (first_by_name self hints) (MunicipalityLookup.first_by_name t hints).
Proof.
  induction hints as [| hint rest IH];
    cbn [first_by_name MunicipalityLookup.first_by_name].
  - apply refines_none.
  - apply (refines_or_else _ _ _ _ (refines_find_by_name hint) IH).
Qed.

Lemma refines_find_by_legal_description legal_desc :
  refines (_find_by_legal_description self legal_desc)
    (MunicipalityLookup._find_by_legal_description t legal_desc).
Proof.
  unfold _find_by_legal_description,
    MunicipalityLookup._find_by_legal_description.
  destruct (Py.mem _ _); [| apply refines_none].
  destruct (Dict.get _ "township") as [township |]; [| apply refines_none].
  destruct (Dict.get _ "range") as [range_num |]; [| apply refines_none].
  destruct (Py.truthy township && Py.truthy range_num); [| apply refines_none].
  destruct (Py.int township) as [ti |]; [| apply refines_none].
  destruct (Py.int range_num) as [ri |]; [| apply refines_none].
  destruct (MunicipalityLookup.red_deer_band ti ri);
    [apply refines_find_by_name |].
  destruct (MunicipalityLookup.edmonton_band ti ri);
    [apply refines_find_by_name |].
  destruct (MunicipalityLookup.athabasca_band ti ri);
    [apply refines_find_by_name | apply refines_none].
Qed.

Lemma refines_find_municipality dist p :
  refines (find_municipality dist self p)
    (MunicipalityLookup.find_municipality dist t p).
Proof.
  unfold find_municipality, MunicipalityLookup.find_municipality.
  apply refines_or_else; [apply refines_first_by_name |].
  apply refines_or_else.
  { destruct (PropertyParser.coordinates_of p);
      [apply refines_find_by_coordinates | apply refines_none]. }
  apply refines_or_else.
  { destruct (PropertyParser.parsed_legal_of p) as [ld |];
      [| apply refines_none].
    destruct (negb _);
      [apply refines_find_by_legal_description | apply refines_none]. }
  destruct (PropertyParser.parsed_address_of p);
    [apply refines_first_by_name | apply refines_none].
Qed.

End ResolverRefines.

(** The resolver of the store, run on the loaded table, computes the
    results of the resolver on records. *)
Corollary loaded_find_municipality :
  forall dist p,
  exists v ext,
    Store.find_municipality dist loaded_self p loaded
      = (Py.Return v, loaded ++ ext) /\
    decode_result (loaded ++ ext) v
      = Some (MunicipalityLookup.find_municipality dist the_table p).
Proof.
  intros dist p.
  apply (refines_find_municipality loaded_self the_table dist p loaded).
  apply loaded_table_decodes.
Qed.

(* ================================================================== *)
(** * Further properties of the parser, the resolver and the policy engine *)

(* ------------------------------------------------------------------ *)
(** ** Substring tests and case *)

Section SubstringFacts.

Lemma starts_with_iff p l :
  Py.starts_with p l = true <-> exists post, l = p ++ post.
Proof.
  revert l. induction p as [| a p IH]; intro l; cbn [Py.starts_with].
  - split; [intros _; exists l; reflexivity | reflexivity].
  - destruct l as [| b l].
    + split; [discriminate | intros [post E]; discriminate E].
    + rewrite andb_true_iff, Ascii.eqb_eq, IH. split.
      * intros [-> [post ->]]. exists post. reflexivity.
      * intros [post E]. cbn in E. injection E as -> ->.
        split; [reflexivity | exists post; reflexivity].
Qed.

(** [p in l] holds exactly when [p] occurs in [l] as a contiguous part. *)
Lemma contains_chars_iff p l :
  Py.contains_chars p l = true <-> exists pre post, l = pre ++ p ++ post.
Proof.
  induction l as [| c l IH]; cbn [Py.contains_chars];
    rewrite orb_true_iff, starts_with_iff.
  - split.
    + intros [[post E] | H]; [| discriminate].
      exists [], post. exact E.
    + intros (pre & post & E). left.
      destruct pre; cbn in E; [exists post; exact E | discriminate].
  - rewrite IH. split.
    + intros [[post E] | (pre & post & ->)].
      * exists [], post. exact E.
      * exists (c :: pre), post. reflexivity.
    + intros (pre & post & E). destruct pre as [| c' pre]; cbn in E.
      * left. exists post. exact E.
      * right. injection E as -> ->. exists pre, post. reflexivity.
Qed.

Lemma contains_chars_refl p : Py.contains_chars p p = true.
Proof. apply contains_chars_iff. exists [], []. cbn. rewrite app_nil_r. reflexivity. Qed.

Lemma contains_chars_trans p q l :
  Py.contains_chars p q = true -> Py.contains_chars q l = true ->
  Py.contains_chars p l = true.
Proof.
  rewrite !contains_chars_iff.
  intros (pre1 & post1 & ->) (pre2 & post2 & ->).
  exists (pre2 ++ pre1), (post1 ++ post2).
  rewrite <- !app_assoc. reflexivity.
Qed.

Lemma contains_refl s : Py.contains s s = true.
Proof. apply contains_chars_refl. Qed.

Lemma contains_trans a b c :
  Py.contains a b = true -> Py.contains b c = true -> Py.contains a c = true.
Proof. apply contains_chars_trans. Qed.

Lemma chars_str l : Py.chars (Py.str l) = l.
Proof. apply list_ascii_of_string_of_list_ascii. Qed.

Lemma str_chars s : Py.str (Py.chars s) = s.
Proof. apply string_of_list_ascii_of_string. Qed.

Lemma lower_char_idem c : Py.lower_char (Py.lower_char c) = Py.lower_char c.
Proof. destruct c as [[] [] [] [] [] [] [] []]; reflexivity. Qed.

Lemma lower_upper_char c : Py.lower_char (Py.upper_char c) = Py.lower_char c.
Proof. destruct c as [[] [] [] [] [] [] [] []]; reflexivity. Qed.

Lemma lower_idem s : Py.lower (Py.lower s) = Py.lower s.
Proof.
  unfold Py.lower. rewrite chars_str, map_map.
  f_equal. apply map_ext. apply lower_char_idem.
Qed.

Lemma lower_upper s : Py.lower (Py.upper s) = Py.lower s.
Proof.
  unfold Py.lower, Py.upper. rewrite chars_str, map_map.
  f_equal. apply map_ext. apply lower_upper_char.
Qed.

End SubstringFacts.

(* ------------------------------------------------------------------ *)
(** ** Resolution by name *)

Section ByName.

Import MunicipalityLookup.

(** The equality test of [_find_by_name] adds nothing to the substring
    test. *)
Lemma name_matches_contains muni_name name_lower :
  name_matches muni_name name_lower = Py.contains (Py.lower muni_name) name_lower.
Proof.
  unfold name_matches.
  destruct (String.eqb (Py.lower muni_name) name_lower) eqn:E; [| reflexivity].
  apply String.eqb_eq in E. rewrite <- E, contains_refl. reflexivity.
Qed.

Lemma find_in_some entries cat name_lower m :
  find_in entries cat name_lower = Some m ->
  In (name m, stored m) entries /\ category m = cat /\
  distance_km m = None /\ supported_services m = None /\
  typical_processing_times m = None /\
  Py.contains (Py.lower (name m)) name_lower = true.
Proof.
  induction entries as [| [n data] rest IH]; cbn [find_in]; [discriminate |].
  destruct (name_matches n name_lower) eqn:E.
  - intro H. injection H as <-. cbn.
    rewrite name_matches_contains in E. repeat split; auto.
  - intro H. destruct (IH H) as (Hin & Hrest). split; [right; exact Hin | exact Hrest].
Qed.

Lemma find_in_none entries cat name_lower :
  find_in entries cat name_lower = None <->
  forall n, In n (Dict.keys entries) ->
            Py.contains (Py.lower n) name_lower = false.
Proof.
  induction entries as [| [n data] rest IH]; cbn [find_in Dict.keys map fst].
  - split; [intros _ n [] | reflexivity].
  - rewrite name_matches_contains.
    destruct (Py.contains (Py.lower n) name_lower) eqn:E.
    + split; [discriminate |]. intro H.
      rewrite (H n (or_introl eq_refl)) in E. discriminate E.
    + rewrite IH. unfold Dict.keys. split.
      * intros H n' [<- | Hin]; [exact E | apply H; exact Hin].
      * intros H n' Hin. apply H. right. exact Hin.
Qed.

(** A match in the first entries decides. *)
Lemma find_in_first entries cat name_lower n data :
  In (n, data) entries ->
  Py.contains (Py.lower n) name_lower = true ->
  exists m, find_in entries cat name_lower = Some m.
Proof.
  intros Hin Hc.
  destruct (find_in entries cat name_lower) as [m |] eqn:E; [exists m; reflexivity |].
  rewrite find_in_none in E.
  rewrite (E n) in Hc; [discriminate Hc |].
  unfold Dict.keys. apply (in_map fst) in Hin. exact Hin.
Qed.

End ByName.

(** Name resolution ignores the case of the query. *)
Theorem find_by_name_case_insensitive :
  forall t nm,
    MunicipalityLookup._find_by_name t (Py.upper nm)
      = MunicipalityLookup._find_by_name t nm /\
    MunicipalityLookup._find_by_name t (Py.lower nm)
      = MunicipalityLookup._find_by_name t nm.
Proof.
  intros t nm. unfold MunicipalityLookup._find_by_name.
  rewrite lower_upper, lower_idem. split; reflexivity.
Qed.

Lemma find_by_name_spec :
  forall t nm,
    (forall m,
        MunicipalityLookup._find_by_name t nm = Some m ->
        (In (MunicipalityLookup.name m, MunicipalityLookup.stored m)
            (MunicipalityLookup.cities t) /\
         MunicipalityLookup.category m = "city" \/
         In (MunicipalityLookup.name m, MunicipalityLookup.stored m)
            (MunicipalityLookup.counties t) /\
         MunicipalityLookup.category m = "county" /\
         (forall c, In c (Dict.keys (MunicipalityLookup.cities t)) ->
                    Py.contains (Py.lower c) (Py.lower nm) = false)) /\
        Py.contains (Py.lower (MunicipalityLookup.name m)) (Py.lower nm) = true /\
        MunicipalityLookup.distance_km m = None /\
        MunicipalityLookup.supported_services m = None) /\
    (MunicipalityLookup._find_by_name t nm = None <->
     forall n, In n (MunicipalityLookup._get_supported_regions t) ->
               Py.contains (Py.lower n) (Py.lower nm) = false).
Proof.
  intros t nm. unfold MunicipalityLookup._find_by_name. split.
  - intros m H.
    destruct (MunicipalityLookup.find_in (MunicipalityLookup.cities t) "city"
                (Py.lower nm)) as [m' |] eqn:Ec.
    + injection H as <-.
      destruct (find_in_some _ _ _ _ Ec) as (Hin & Hcat & Hd & Hs & _ & Hc).
      split; [left; split; assumption |]. repeat split; assumption.
    + destruct (find_in_some _ _ _ _ H) as (Hin & Hcat & Hd & Hs & _ & Hc).
      split; [right |]; repeat split; try assumption.
      exact (proj1 (find_in_none _ "city" _) Ec).
  - unfold MunicipalityLookup._get_supported_regions, MunicipalityLookup.items.
    cbn [flat_map snd]. rewrite app_nil_r.
    destruct (MunicipalityLookup.find_in (MunicipalityLookup.cities t) "city"
                (Py.lower nm)) as [m' |] eqn:Ec.
    + split; [discriminate |]. intro H.
      destruct (find_in_some _ _ _ _ Ec) as (Hin & _ & _ & _ & _ & Hc).
      rewrite H in Hc; [discriminate Hc |].
      apply in_or_app. left. unfold Dict.keys.
      apply (in_map fst) in Hin. exact Hin.
    + rewrite find_in_none in Ec. rewrite find_in_none. split.
      * intros H n Hn. apply in_app_or in Hn. destruct Hn; auto.
      * intros H n Hn. apply H. apply in_or_app. right. exact Hn.
Qed.

(** What [_find_by_name] returns: a record of the table whose lower-cased
    name occurs in the lower-cased query, a city if any city matches, with
    no distance and no details; and [None] exactly when no name of the table
    occurs in the query. *)
Theorem find_by_name_characterised :
  forall t nm,
    (forall m,
        MunicipalityLookup._find_by_name t nm = Some m ->
        (In (MunicipalityLookup.name m, MunicipalityLookup.stored m)
            (MunicipalityLookup.cities t) /\
         MunicipalityLookup.category m = "city" \/
         In (MunicipalityLookup.name m, MunicipalityLookup.stored m)
            (MunicipalityLookup.counties t) /\
         MunicipalityLookup.category m = "county" /\
         (forall c, In c (Dict.keys (MunicipalityLookup.cities t)) ->
                    Py.contains (Py.lower c) (Py.lower nm) = false)) /\
        Py.contains (Py.lower (MunicipalityLookup.name m)) (Py.lower nm) = true /\
        MunicipalityLookup.distance_km m = None /\
        MunicipalityLookup.supported_services m = None) /\
    (MunicipalityLookup._find_by_name t nm = None <->
     forall n, In n (MunicipalityLookup._get_supported_regions t) ->
               Py.contains (Py.lower n) (Py.lower nm) = false).
Proof. exact find_by_name_spec. Qed.

Lemma find_by_name_characterised_witness :
  option_map MunicipalityLookup.name
    (MunicipalityLookup._find_by_name the_table "downtown RED DEER area")
    = Some "Red Deer" /\
  Py.contains "red deer" (Py.lower "downtown RED DEER area") = true.
Proof.
  destruct (MunicipalityLookup._find_by_name the_table "downtown RED DEER area")
    as [m |] eqn:E; [| vm_compute in E; discriminate E].
  destruct (find_by_name_characterised the_table "downtown RED DEER area")
    as [H _].
  destruct (H m E) as (_ & Hc & _).
  assert (Hn : MunicipalityLookup.name m = "Red Deer")
    by (vm_compute in E; injection E as <-; reflexivity).
  rewrite Hn in Hc. split; [cbn; rewrite Hn; reflexivity | exact Hc].
Defined.

(** A county whose name contains the name of a city is never returned by
    [_find_by_name]: every query that contains the county's name contains
    the city's name, and cities are tried first. *)
Theorem county_shadowed_by_city :
  forall t city_name county_name,
    In city_name (Dict.keys (MunicipalityLookup.cities t)) ->
    Py.contains (Py.lower city_name) (Py.lower county_name) = true ->
    forall nm m,
      MunicipalityLookup._find_by_name t nm = Some m ->
      MunicipalityLookup.name m = county_name ->
      MunicipalityLookup.category m = "city".
Proof.
  intros t city_name county_name Hcity Hsub nm m Hm Hname.
  destruct (find_by_name_spec t nm) as [H _].
  destruct (H m Hm) as ([[_ Hcat] | (_ & _ & Hnone)] & Hc & _); [exact Hcat |].
  rewrite Hname in Hc.
  specialize (Hnone city_name Hcity).
  rewrite (contains_trans _ _ _ Hsub Hc) in Hnone. discriminate Hnone.
Qed.

(** In the table of the program this concerns four counties: whatever the
    query, [_find_by_name] returns none of them; asked for "Lacombe County"
    it returns the city of Lacombe. *)
Lemma county_shadowed_by_city_witness :
  (forall nm m,
      MunicipalityLookup._find_by_name the_table nm = Some m ->
      MunicipalityLookup.name m = "Lacombe County" ->
      MunicipalityLookup.category m = "city") /\
  option_map (fun m => (MunicipalityLookup.name m, MunicipalityLookup.category m))
    (MunicipalityLookup._find_by_name the_table "Lacombe County")
    = Some ("Lacombe", "city").
Proof.
  split; [| vm_compute; reflexivity].
  apply (county_shadowed_by_city the_table "Lacombe" "Lacombe County").
  - vm_compute. right. right. left. reflexivity.
  - vm_compute. reflexivity.
Defined.

(** The records of these four counties cannot be obtained by name. *)
Corollary shadowed_counties :
  forall nm m,
    MunicipalityLookup._find_by_name the_table nm = Some m ->
    ~ In (MunicipalityLookup.name m)
        ["Lacombe County"; "Wetaskiwin County"; "Camrose County";
         "Athabasca County"].
Proof.
  intros nm m Hm Hin.
  destruct (find_by_name_spec the_table nm) as [H _].
  destruct (H m Hm) as ([[Hc _] | (Hk & _ & Hnone)] & Hsub & _).
  - cbn in Hin. destruct Hin as [E | [E | [E | [E | []]]]];
      rewrite <- E in Hc; vm_compute in Hc; intuition discriminate.
  - assert (Hshadow : forall city county,
               MunicipalityLookup.name m = county ->
               In city (Dict.keys (MunicipalityLookup.cities the_table)) ->
               Py.contains (Py.lower city) (Py.lower county) = true -> False).
    { intros city county E Hcity Hcc. rewrite E in Hsub.
      specialize (Hnone city Hcity).
      rewrite (contains_trans _ _ _ Hcc Hsub) in Hnone. discriminate Hnone. }
    cbn in Hin. destruct Hin as [E | [E | [E | [E | []]]]]; symmetry in E.
    + apply (Hshadow "Lacombe" _ E);
        vm_compute; repeat (first [left; reflexivity | right | reflexivity]).
    + apply (Hshadow "Wetaskiwin" _ E);
        vm_compute; repeat (first [left; reflexivity | right | reflexivity]).
    + apply (Hshadow "Camrose" _ E);
        vm_compute; repeat (first [left; reflexivity | right | reflexivity]).
    + apply (Hshadow "Athabasca" _ E);
        vm_compute; repeat (first [left; reflexivity | right | reflexivity]).
Qed.

(* ------------------------------------------------------------------ *)
(** ** What the resolver returns *)

Section ResolvedRecords.

Import PropertyParser MunicipalityLookup.

Variable dist : geodesic.
Variable t : table.

(** Found by name: stored under its name, category "city" or "county", no
    distance. *)
Definition found_by_name (m : municipality) : Prop :=
  (In (name m, stored m) (cities t) /\ category m = "city" \/
   In (name m, stored m) (counties t) /\ category m = "county") /\
  distance_km m = None.

(** Found by coordinates: stored under its name, category "citie" or
    "countie" (the key of the category without its final "s"), with the
    distance. *)
Definition found_by_coordinates (m : municipality) : Prop :=
  (In (name m, stored m) (cities t) /\ category m = "citie" \/
   In (name m, stored m) (counties t) /\ category m = "countie") /\
  exists d, distance_km m = Some d /\ F64.ltb d fifty = true.

Lemma find_by_name_found nm m : _find_by_name t nm = Some m -> found_by_name m.
Proof.
  intro H. destruct (find_by_name_spec t nm) as [Hs _].
  destruct (Hs m H) as ([[Hin Hc] | (Hin & Hc & _)] & _ & Hd & _);
    (split; [| exact Hd]); [left | right]; split; assumption.
Qed.

Lemma first_by_name_found hints m :
  first_by_name t hints = Some m -> found_by_name m.
Proof.
  intro H. apply first_by_name_some in H.
  destruct H as (pre & h & post & _ & _ & Hh).
  apply (find_by_name_found h). exact Hh.
Qed.

Lemma find_by_legal_description_found ld m :
  _find_by_legal_description t ld = Some m -> found_by_name m.
Proof.
  unfold _find_by_legal_description.
  repeat match goal with
         | |- (if ?b then _ else _) = Some _ -> _ => destruct b
         | |- match ?o with _ => _ end = Some _ -> _ => destruct o
         end; try discriminate; apply find_by_name_found.
Qed.

Lemma find_by_coordinates_found lat lon m :
  _find_by_coordinates dist t lat lon = Some m -> found_by_coordinates m.
Proof.
  intro H. apply find_by_coordinates_bounded in H.
  destruct H as (cn & entries & coords & Hcat & Hin & Hc & _ & Hd & Hlt).
  split; [| exists (dist (lat, lon) coords); split; assumption].
  unfold items in Hcat. cbn [In] in Hcat.
  destruct Hcat as [E | [E | []]]; injection E as <- <-;
    [left | right]; (split; [exact Hin | rewrite Hc; reflexivity]).
Qed.

Lemma find_municipality_found p m :
  find_municipality dist t p = Some m ->
  found_by_name m \/ found_by_coordinates m.
Proof.
  rewrite find_municipality_chain.
  destruct (first_by_name t (municipality_hints p)) as [m1 |] eqn:E1.
  { intro H. injection H as <-. left. apply (first_by_name_found _ _ E1). }
  destruct (match coordinates_of p with
            | Some c => _find_by_coordinates dist t (latitude c) (longitude c)
            | None => None
            end) as [m2 |] eqn:E2.
  { intro H. injection H as <-. right.
    destruct (coordinates_of p) as [c |]; [| discriminate E2].
    apply (find_by_coordinates_found _ _ _ E2). }
  destruct (match parsed_legal_of p with
            | Some ld =>
                if negb (String.eqb (legal_type ld) "unknown")
                then _find_by_legal_description t ld else None
            | None => None
            end) as [m3 |] eqn:E3.
  { intro H. injection H as <-. left.
    destruct (parsed_legal_of p) as [ld |]; [| discriminate E3].
    destruct (negb _); [| discriminate E3].
    apply (find_by_legal_description_found _ _ E3). }
  destruct (parsed_address_of p) as [a |]; [| discriminate].
  intro H. left. apply (first_by_name_found _ _ H).
Qed.

End ResolvedRecords.

(** A municipality returned by [find_municipality] is a record of the
    table, stored under the returned name.  Found by hint, legal description
    or address it has category "city" or "county" and no distance; found by
    coordinates it has category "citie" or "countie" and a distance below
    50 km. *)
Theorem find_municipality_returns_table_record :
  forall dist t p m,
    MunicipalityLookup.find_municipality dist t p = Some m ->
    found_by_name t m \/ found_by_coordinates t m.
Proof. intros dist t p m. apply find_municipality_found. Qed.

Lemma find_municipality_returns_table_record_witness :
  exists m,
    MunicipalityLookup.find_municipality on_the_spot the_table
      red_deer_hint_at_edmonton = Some m /\
    (found_by_name the_table m \/ found_by_coordinates the_table m).
Proof.
  destruct (MunicipalityLookup.find_municipality on_the_spot the_table
              red_deer_hint_at_edmonton) as [m |] eqn:E;
    [| vm_compute in E; discriminate E].
  exists m. split; [reflexivity |].
  apply (find_municipality_returns_table_record on_the_spot the_table
           red_deer_hint_at_edmonton m E).
Defined.

(** The category of one municipality depends on the strategy that finds
    it: [_find_by_coordinates] never returns the category "city" or
    "county" that [_find_by_name] returns, because stripping every final "s"
    from "cities" and "counties" leaves "citie" and "countie". *)
Theorem category_depends_on_strategy :
  forall dist t lat lon nm m m',
    MunicipalityLookup._find_by_coordinates dist t lat lon = Some m ->
    MunicipalityLookup._find_by_name t nm = Some m' ->
    In (MunicipalityLookup.category m) ["citie"; "countie"] /\
    In (MunicipalityLookup.category m') ["city"; "county"] /\
    MunicipalityLookup.category m <> MunicipalityLookup.category m'.
Proof.
  intros dist t lat lon nm m m' Hm Hm'.
  apply find_by_coordinates_found in Hm. apply find_by_name_found in Hm'.
  destruct Hm as [[[_ Hc] | [_ Hc]] _], Hm' as [[[_ Hc'] | [_ Hc']] _];
    rewrite Hc, Hc'; cbn [In];
    (split; [auto | split; [auto | discriminate]]).
Qed.

Lemma category_depends_on_strategy_witness :
  option_map MunicipalityLookup.category
    (MunicipalityLookup._find_by_coordinates on_the_spot the_table
       (MunicipalityLookup.north 535461) (MunicipalityLookup.west 1134938))
    = Some "citie" /\
  option_map MunicipalityLookup.category
    (MunicipalityLookup._find_by_name the_table "Edmonton") = Some "city".
Proof.
  destruct (MunicipalityLookup._find_by_coordinates on_the_spot the_table
              (MunicipalityLookup.north 535461) (MunicipalityLookup.west 1134938))
    as [m |] eqn:E; [| vm_compute in E; discriminate E].
  destruct (MunicipalityLookup._find_by_name the_table "Edmonton")
    as [m' |] eqn:E'; [| vm_compute in E'; discriminate E'].
  destruct (category_depends_on_strategy on_the_spot the_table _ _ _ m m' E E')
    as (H1 & H2 & _).
  assert (Hn : MunicipalityLookup.name m = "Edmonton")
    by (vm_compute in E; injection E as <-; reflexivity).
  split.
  - vm_compute in E. injection E as <-. reflexivity.
  - vm_compute in E'. injection E' as <-. reflexivity.
Defined.

(* ------------------------------------------------------------------ *)
(** ** The coordinate strategy returns a nearest municipality *)

Section FloatOrder.

Lemma ltb_irrefl a : F64.ltb a a = false.
Proof.
  unfold F64.ltb, SFltb, SFcompare.
  destruct a as [[] | [] | | [] m e]; try reflexivity;
    rewrite Z.compare_refl;
    change (Pos.compare_cont Eq m m) with (Pos.compare m m);
    rewrite Pos.compare_refl; reflexivity.
Qed.

Lemma ltb_trans a b c :
  F64.ltb a b = true -> F64.ltb b c = true -> F64.ltb a c = true.
Proof.
  unfold F64.ltb, SFltb, SFcompare.
  destruct a as [[] | [] | | [] ma ea], b as [[] | [] | | [] mb eb],
    c as [[] | [] | | [] mc ec];
    try discriminate; try reflexivity;
    change (Pos.compare_cont Eq ma mb) with (Pos.compare ma mb);
    change (Pos.compare_cont Eq mb mc) with (Pos.compare mb mc);
    change (Pos.compare_cont Eq ma mc) with (Pos.compare ma mc);
    destruct (Z.compare_spec ea eb), (Z.compare_spec eb ec),
      (Z.compare_spec ea ec);
    try discriminate; try reflexivity; try lia;
    destruct (Pos.compare_spec ma mb), (Pos.compare_spec mb mc),
      (Pos.compare_spec ma mc);
    cbn [CompOpp]; try discriminate; try reflexivity; try lia.
Qed.

(** What is below 50 is below [float('inf')]. *)
Lemma ltb_fifty_inf a :
  F64.ltb a MunicipalityLookup.fifty = true -> F64.ltb a F64.inf = true.
Proof.
  destruct a as [[] | [] | | [] m e]; try reflexivity; intro H;
    vm_compute in H; discriminate H.
Qed.

End FloatOrder.

Section Nearest.

Import MunicipalityLookup.

Variable dist : geodesic.
Variables lat lon : F64.float.

(** No entry of [seen] that has coordinates lies strictly nearer than
    [bound]. *)
Definition none_nearer (seen : Dict.t municipality_data) (bound : F64.float)
  : Prop :=
  forall n data c,
    In (n, data) seen -> muni_coordinates data = Some c ->
    F64.ltb (dist (lat, lon) c) bound = false.

(** The loop state after the entries [seen]. *)
Definition nearest_so_far (seen : Dict.t municipality_data) (st : closest)
  : Prop :=
  match fst st with
  | None => snd st = F64.inf /\ none_nearer seen fifty
  | Some m =>
      distance_km m = Some (snd st) /\ F64.ltb (snd st) fifty = true /\
      none_nearer seen (snd st)
  end.

Lemma none_nearer_lower seen bound d :
  none_nearer seen bound -> F64.ltb d bound = true -> none_nearer seen d.
Proof.
  intros H Hd n data c Hin Hc.
  destruct (F64.ltb (dist (lat, lon) c) d) eqn:E; [| reflexivity].
  rewrite <- (H n data c Hin Hc). symmetry. apply (ltb_trans _ d); assumption.
Qed.

Lemma none_nearer_snoc seen bound n data :
  none_nearer seen bound ->
  (forall c, muni_coordinates data = Some c ->
             F64.ltb (dist (lat, lon) c) bound = false) ->
  none_nearer (seen ++ [(n, data)]) bound.
Proof.
  intros H Hnew n' data' c Hin Hc. apply in_app_or in Hin.
  destruct Hin as [Hin | [E | []]]; [apply (H n' data' c Hin Hc) |].
  injection E as <- <-. apply Hnew. exact Hc.
Qed.

Lemma consider_nearest category_name seen st n data :
  nearest_so_far seen st ->
  nearest_so_far (seen ++ [(n, data)])
    (consider dist lat lon category_name st (n, data)).
Proof.
  intro Hst. unfold consider.
  destruct (muni_coordinates data) as [mc |] eqn:Emc.
  2:{ unfold nearest_so_far in *. destruct (fst st).
      - destruct Hst as (Hd & H50 & Hn). repeat split; try assumption.
        apply none_nearer_snoc; [exact Hn | intros c Hc; congruence].
      - destruct Hst as (Hinf & Hn). split; [exact Hinf |].
        apply none_nearer_snoc; [exact Hn | intros c Hc; congruence]. }
  set (d := dist (lat, lon) mc).
  destruct (F64.ltb d fifty) eqn:E50; cbn [andb].
  - destruct (F64.ltb d (snd st)) eqn:Ecur.
    + (* the entry becomes the closest *)
      unfold nearest_so_far. cbn [fst snd distance_km].
      split; [reflexivity |]. split; [exact E50 |].
      apply none_nearer_snoc.
      * unfold nearest_so_far in Hst. destruct (fst st).
        -- destruct Hst as (_ & _ & Hn). apply (none_nearer_lower _ _ _ Hn Ecur).
        -- destruct Hst as (_ & Hn). apply (none_nearer_lower _ _ _ Hn E50).
      * intros c Hc. rewrite Emc in Hc. injection Hc as <-. apply ltb_irrefl.
    + (* within 50 km but not nearer than the closest *)
      unfold nearest_so_far in *. destruct (fst st).
      * destruct Hst as (Hd & H50 & Hn). repeat split; try assumption.
        apply none_nearer_snoc; [exact Hn |].
        intros c Hc. rewrite Emc in Hc. injection Hc as <-. exact Ecur.
      * destruct Hst as (Hinf & Hn). exfalso.
        rewrite Hinf, (ltb_fifty_inf d E50) in Ecur. discriminate Ecur.
  - (* not within 50 km *)
    unfold nearest_so_far in *. destruct (fst st).
    + destruct Hst as (Hd & H50 & Hn). repeat split; try assumption.
      apply none_nearer_snoc; [exact Hn |].
      intros c Hc. rewrite Emc in Hc. injection Hc as <-.
      change (F64.ltb d (snd st) = false).
      destruct (F64.ltb d (snd st)) eqn:Ecur; [| reflexivity].
      rewrite <- E50. symmetry. apply (ltb_trans _ (snd st)); assumption.
    + destruct Hst as (Hinf & Hn). split; [exact Hinf |].
      apply none_nearer_snoc; [exact Hn |].
      intros c Hc. rewrite Emc in Hc. injection Hc as <-. exact E50.
Qed.

Lemma scan_nearest category_name :
  forall todo seen st,
    nearest_so_far seen st ->
    nearest_so_far (seen ++ todo)
      (fold_left (consider dist lat lon category_name) todo st).
Proof.
  induction todo as [| [n data] todo IH]; intros seen st Hst; cbn [fold_left].
  - rewrite app_nil_r. exact Hst.
  - replace (seen ++ (n, data) :: todo) with ((seen ++ [(n, data)]) ++ todo)
      by (rewrite <- app_assoc; reflexivity).
    apply IH. apply consider_nearest. exact Hst.
Qed.

Lemma find_by_coordinates_nearest t :
  nearest_so_far (cities t ++ counties t)
    (fold_left (scan_category dist lat lon) (items t) (None, F64.inf)).
Proof.
  unfold items. cbn [fold_left]. unfold scan_category. cbn [fst snd].
  apply scan_nearest.
  apply (scan_nearest "cities" (cities t) [] (None, F64.inf)).
  split; [reflexivity |]. intros n data c [].
Qed.

End Nearest.

(** The coordinate strategy returns [None] exactly when no municipality of
    the table lies within 50 km of the query point; otherwise it returns a
    municipality such that no municipality of the table is strictly
    nearer. *)
Theorem find_by_coordinates_nearest_within_50km :
  forall dist t lat lon,
    (MunicipalityLookup._find_by_coordinates dist t lat lon = None <->
     none_nearer dist lat lon
       (MunicipalityLookup.cities t ++ MunicipalityLookup.counties t)
       MunicipalityLookup.fifty) /\
    (forall m,
        MunicipalityLookup._find_by_coordinates dist t lat lon = Some m ->
        exists d,
          MunicipalityLookup.distance_km m = Some d /\
          none_nearer dist lat lon
            (MunicipalityLookup.cities t ++ MunicipalityLookup.counties t) d).
Proof.
  intros dist t lat lon.
  pose proof (find_by_coordinates_nearest dist lat lon t) as H.
  pose proof (find_by_coordinates_bounded dist t lat lon) as Hb.
  unfold MunicipalityLookup._find_by_coordinates in *.
  unfold nearest_so_far in H.
  destruct (fst (fold_left (MunicipalityLookup.scan_category dist lat lon)
                   (MunicipalityLookup.items t) (None, F64.inf)))
    as [m |] eqn:E.
  - destruct H as (Hd & H50 & Hn). split.
    + split; [discriminate |]. intro Hnone. exfalso.
      destruct (Hb m eq_refl) as (cn & entries & coords & Hcat & Hin & _ & Hc & _ & Hlt).
      assert (Hall : In (MunicipalityLookup.name m, MunicipalityLookup.stored m)
                       (MunicipalityLookup.cities t ++ MunicipalityLookup.counties t)).
      { unfold MunicipalityLookup.items in Hcat. cbn [In] in Hcat.
        apply in_or_app.
        destruct Hcat as [Ec | [Ec | []]]; injection Ec as <- <-; auto. }
      rewrite (Hnone _ _ _ Hall Hc) in Hlt. discriminate Hlt.
    + intros m' Hm'. injection Hm' as <-.
      eexists. split; [exact Hd | exact Hn].
  - destruct H as (_ & Hn). split.
    + split; [intros _; exact Hn | reflexivity].
    + intros m' Hm'. discriminate Hm'.
Qed.

Lemma find_by_coordinates_nearest_within_50km_witness :
  exists m d,
    MunicipalityLookup._find_by_coordinates on_the_spot the_table
      (MunicipalityLookup.north 535461) (MunicipalityLookup.west 1134938)
      = Some m /\
    MunicipalityLookup.distance_km m = Some d /\
    none_nearer on_the_spot
      (MunicipalityLookup.north 535461) (MunicipalityLookup.west 1134938)
      (MunicipalityLookup.cities the_table ++ MunicipalityLookup.counties the_table)
      d.
Proof.
  destruct (MunicipalityLookup._find_by_coordinates on_the_spot the_table
              (MunicipalityLookup.north 535461) (MunicipalityLookup.west 1134938))
    as [m |] eqn:E; [| vm_compute in E; discriminate E].
  destruct (find_by_coordinates_nearest_within_50km on_the_spot the_table
              (MunicipalityLookup.north 535461) (MunicipalityLookup.west 1134938))
    as [_ H].
  rewrite E in H. destruct (H m eq_refl) as (d & Hd & Hn).
  exists m, d. repeat split; assumption.
Defined.

(* ------------------------------------------------------------------ *)
(** ** Parsed legal descriptions carry numerals *)

Ltac invert_matches :=
  repeat match goal with
         | H : Matches (Re.Cat _ _) _ _ _ |- _ => inversion H; subst; clear H
         | H : Matches (Re.Grp _ _) _ _ _ |- _ => inversion H; subst; clear H
         | H : Matches (Re.Rep _ _ _) _ _ _ |- _ => inversion H; subst; clear H
         | H : Matches (Re.Cls _) _ _ _ |- _ => inversion H; subst; clear H
         | H : Matches (Re.Lit _) _ _ _ |- _ => inversion H; subst; clear H
         | H : Matches Re.Eps _ _ _ |- _ => inversion H; subst; clear H
         end.

Section Numerals.

Lemma digit_not_space c : Py.is_digit c = true -> Py.is_space c = false.
Proof. destruct c as [[] [] [] [] [] [] [] []]; cbv; congruence. Qed.

Lemma digit_val_bounds c : Py.is_digit c = true -> (0 <= Py.digit_val c <= 9)%Z.
Proof. destruct c as [[] [] [] [] [] [] [] []]; cbv; intuition congruence. Qed.

Lemma digit_not_c_space c : Py.is_digit c = true -> Py.is_c_space c = false.
Proof. destruct c as [[] [] [] [] [] [] [] []]; cbv; congruence. Qed.

Lemma drop_space_digits l :
  forallb Py.is_digit l = true -> Py.drop_while Py.is_c_space l = l.
Proof.
  destruct l as [| c l]; [reflexivity |]. cbn [forallb Py.drop_while].
  intro H. apply andb_true_iff in H. destruct H as [Hc _].
  rewrite (digit_not_c_space c Hc). reflexivity.
Qed.

Lemma strip_digits l :
  forallb Py.is_digit l = true ->
  Py.rstrip_chars Py.is_c_space (Py.lstrip_chars Py.is_c_space l) = l.
Proof.
  intro H. unfold Py.rstrip_chars, Py.lstrip_chars.
  rewrite (drop_space_digits l H).
  rewrite drop_space_digits, rev_involutive; [reflexivity |].
  rewrite forallb_forall in *. intros x Hx. apply H. apply in_rev. exact Hx.
Qed.

Lemma int_digits_all l :
  forallb Py.is_digit l = true ->
  forall prev acc,
    (l <> [] \/ prev = true) ->
    Py.int_digits l prev acc = Some (F64.digits_val l acc).
Proof.
  induction l as [| c l IH]; intros H prev acc Hne; cbn [Py.int_digits F64.digits_val].
  - destruct Hne as [Hne | ->]; [contradiction | reflexivity].
  - cbn [forallb] in H. apply andb_true_iff in H. destruct H as [Hc Hl].
    rewrite Hc. apply IH; [exact Hl | right; reflexivity].
Qed.

Lemma digits_val_bounds l :
  forallb Py.is_digit l = true ->
  forall acc, (0 <= acc)%Z ->
    (0 <= F64.digits_val l acc < (acc + 1) * 10 ^ Z.of_nat (length l))%Z.
Proof.
  induction l as [| c l IH]; intros H acc Hacc; cbn [F64.digits_val length].
  - cbn. lia.
  - cbn [forallb] in H. apply andb_true_iff in H. destruct H as [Hc Hl].
    pose proof (digit_val_bounds c Hc) as Hd.
    specialize (IH Hl (10 * acc + Py.digit_val c)%Z ltac:(lia)).
    rewrite Nat2Z.inj_succ, Z.pow_succ_r by lia.
    split; [lia |].
    eapply Z.lt_le_trans; [apply IH |].
    assert (0 < 10 ^ Z.of_nat (length l))%Z by (apply Z.pow_pos_nonneg; lia).
    nia.
Qed.

Lemma filter_all_digits l :
  forallb Py.is_digit l = true -> filter Py.is_digit l = l.
Proof.
  induction l as [| c l IH]; cbn [forallb filter]; [reflexivity |].
  intro H. apply andb_true_iff in H. destruct H as [Hc Hl].
  rewrite Hc, (IH Hl). reflexivity.
Qed.

(** [int] of one to three digits. *)
Lemma int_of_digits l :
  forallb Py.is_digit l = true -> 1 <= length l -> length l <= 3 ->
  exists z, Py.int (Py.str l) = Some z /\ (0 <= z <= 999)%Z.
Proof.
  intros H H1 H3. exists (F64.digits_val l 0). split.
  - unfold Py.int. rewrite chars_str, (strip_digits l H).
    destruct l as [| c l]; [cbn in H1; lia |].
    assert (Hc : Py.is_digit c = true)
      by (cbn [forallb] in H; apply andb_true_iff in H; apply H).
    assert (Hgen : Py.int_unsigned (c :: l) = Some (F64.digits_val (c :: l) 0)).
    { unfold Py.int_unsigned. rewrite (filter_all_digits (c :: l) H).
      replace (Nat.leb (length (c :: l)) Py.int_max_str_digits) with true
        by (symmetry; apply Nat.leb_le; unfold Py.int_max_str_digits; lia).
      apply int_digits_all; [exact H | left; discriminate]. }
    clear H H1 H3.
    destruct c as [[] [] [] [] [] [] [] []]; try exact Hgen;
      cbv in Hc; discriminate Hc.
  - pose proof (digits_val_bounds l H 0%Z ltac:(lia)) as Hb.
    assert (10 ^ Z.of_nat (length l) <= 10 ^ 3)%Z
      by (apply Z.pow_le_mono_r; lia).
    lia.
Qed.

Lemma str_truthy l : 1 <= length l -> Py.truthy (Py.str l) = true.
Proof. destruct l; [cbn; lia | reflexivity]. Qed.

(** The groups of a match of the quarter-section pattern and of the section
    pattern. *)
Lemma quarter_section_groups s m :
  Re.search PropertyParser.quarter_section_re s = Some m ->
  exists township range_num,
    Re.group m 3 = Py.str township /\ Re.group m 4 = Py.str range_num /\
    forallb Py.is_digit township = true /\ 1 <= length township <= 3 /\
    forallb Py.is_digit range_num = true /\ 1 <= length range_num <= 3.
Proof.
  intro H. apply search_sound in H.
  destruct H as (before & pre & rest & _ & M).
  unfold PropertyParser.quarter_section_re, Re.ws, Re.chr, Re.star in M.
  cbn [Re.cat] in M. invert_matches.
  cbn [Re.group Nat.eqb]. eexists _, _.
  split; [reflexivity |]. split; [reflexivity |]. repeat split; assumption.
Qed.

Lemma section_groups s m :
  Re.search PropertyParser.section_re s = Some m ->
  exists township range_num,
    Re.group m 2 = Py.str township /\ Re.group m 3 = Py.str range_num /\
    forallb Py.is_digit township = true /\ 1 <= length township <= 3 /\
    forallb Py.is_digit range_num = true /\ 1 <= length range_num <= 3.
Proof.
  intro H. apply search_sound in H.
  destruct H as (before & pre & rest & _ & M).
  unfold PropertyParser.section_re, Re.ws, Re.chr, Re.star, Re.comma_opt,
    Re.opt in M.
  cbn [Re.cat] in M. invert_matches.
  cbn [Re.group Nat.eqb]. eexists _, _.
  split; [reflexivity |]. split; [reflexivity |]. repeat split; assumption.
Qed.

Lemma parsed_legal_numerals_spec s :
  let ld := PropertyParser._parse_legal_description s in
  Py.mem (PropertyParser.legal_type ld) ["quarter_section"; "section"] = true ->
  exists township range_num township_int range_int,
    Dict.get (PropertyParser.legal_components ld) "township" = Some township /\
    Dict.get (PropertyParser.legal_components ld) "range" = Some range_num /\
    Py.truthy township = true /\ Py.truthy range_num = true /\
    Py.int township = Some township_int /\
    Py.int range_num = Some range_int /\
    (0 <= township_int <= 999)%Z /\ (0 <= range_int <= 999)%Z.
Proof.
  assert (Hfin : forall ts rs,
             forallb Py.is_digit ts = true -> 1 <= length ts <= 3 ->
             forallb Py.is_digit rs = true -> 1 <= length rs <= 3 ->
             exists township_int range_int,
               Py.truthy (Py.str ts) = true /\ Py.truthy (Py.str rs) = true /\
               Py.int (Py.str ts) = Some township_int /\
               Py.int (Py.str rs) = Some range_int /\
               (0 <= township_int <= 999)%Z /\ (0 <= range_int <= 999)%Z).
  { intros ts rs Hts [Ht1 Ht3] Hrs [Hr1 Hr3].
    destruct (int_of_digits ts Hts Ht1 Ht3) as (ti & Hti & Hbt).
    destruct (int_of_digits rs Hrs Hr1 Hr3) as (ri & Hri & Hbr).
    exists ti, ri. repeat split; try assumption; try lia;
      apply str_truthy; assumption. }
  intro ld. subst ld.
  unfold PropertyParser._parse_legal_description, PropertyParser.legal_patterns.
  cbn [PropertyParser.first_legal_match].
  destruct (Re.search PropertyParser.quarter_section_re s) as [m |] eqn:Eq.
  { intros _. cbn.
    destruct (quarter_section_groups s m Eq)
      as (ts & rs & -> & -> & Hts & Ht & Hrs & Hr).
    destruct (Hfin ts rs Hts Ht Hrs Hr) as (ti & ri & H).
    exists (Py.str ts), (Py.str rs), ti, ri.
    split; [reflexivity |]. split; [reflexivity |]. exact H. }
  destruct (Re.search PropertyParser.lot_block_re s);
    [intros H; vm_compute in H; discriminate H |].
  destruct (Re.search PropertyParser.parcel_re s);
    [intros H; vm_compute in H; discriminate H |].
  destruct (Re.search PropertyParser.section_re s) as [m |] eqn:Es;
    [| intros H; vm_compute in H; discriminate H].
  intros _. cbn.
  destruct (section_groups s m Es)
    as (ts & rs & -> & -> & Hts & Ht & Hrs & Hr).
  destruct (Hfin ts rs Hts Ht Hrs Hr) as (ti & ri & H).
  exists (Py.str ts), (Py.str rs), ti, ri.
  split; [reflexivity |]. split; [reflexivity |]. exact H.
Qed.

End Numerals.

(** A legal description of ASCII characters that parses as a quarter
    section or a section has township and range components that are
    numerals of one to three digits: on it [int] never raises [ValueError],
    both values lie in 0..999, and the legal-description strategy is decided
    by the three conditions alone. *)
Theorem parsed_legal_description_numerals :
  forall s,
    Py.isascii s = true ->
    let ld := PropertyParser._parse_legal_description s in
    Py.mem (PropertyParser.legal_type ld) ["quarter_section"; "section"] = true ->
    exists township range_num township_int range_int,
      Dict.get (PropertyParser.legal_components ld) "township" = Some township /\
      Dict.get (PropertyParser.legal_components ld) "range" = Some range_num /\
      Py.int township = Some township_int /\
      Py.int range_num = Some range_int /\
      (0 <= township_int <= 999)%Z /\ (0 <= range_int <= 999)%Z /\
      forall t,
        MunicipalityLookup._find_by_legal_description t ld =
        if MunicipalityLookup.red_deer_band township_int range_int
        then MunicipalityLookup._find_by_name t "Red Deer"
        else if MunicipalityLookup.edmonton_band township_int range_int
        then MunicipalityLookup._find_by_name t "Edmonton"
        else if MunicipalityLookup.athabasca_band township_int range_int
        then MunicipalityLookup._find_by_name t "Athabasca"
        else None.
Proof.
  intros s _ ld Hty.
  destruct (parsed_legal_numerals_spec s Hty)
    as (ts & rs & ti & ri & Hts & Hrs & Htt & Hrt & Hti & Hri & Hbt & Hbr).
  fold ld in Hts, Hrs.
  exists ts, rs, ti, ri. repeat split; try assumption; try lia.
  intro t. unfold MunicipalityLookup._find_by_legal_description.
  rewrite Hty, Hts, Hrs, Htt, Hrt, Hti, Hri. reflexivity.
Qed.

Lemma parsed_legal_description_numerals_witness :
  exists township_int range_int,
    Py.int "45" = Some township_int /\ Py.int "25" = Some range_int /\
    (0 <= township_int <= 999)%Z /\ (0 <= range_int <= 999)%Z.
Proof.
  destruct (parsed_legal_description_numerals "SW 14-45-25-W4" eq_refl)
    as (ts & rs & ti & ri & Hts & Hrs & Hti & Hri & Hbt & Hbr & _).
  - vm_compute. reflexivity.
  - vm_compute in Hts, Hrs.
    injection Hts as <-. injection Hrs as <-.
    exists ti, ri. repeat split; try assumption; lia.
Defined.

(* ------------------------------------------------------------------ *)
(** ** The stored postal code *)

Section PostalCode.








End PostalCode.



(** A tab between the two halves stays in the stored code. *)
Example postal_code_keeps_tab :
  Dict.get (PropertyParser.address_components
              (PropertyParser._parse_address
                 (String "T" (String "4" (String "N" (String (ascii_of_nat 9)
                    "3T4"))))))
    "postal_code"
  = Some (String "T" (String "4" (String "N" (String (ascii_of_nat 9) "3T4")))).
Proof. vm_compute. reflexivity. Qed.

(* ------------------------------------------------------------------ *)
(** ** Municipality hints *)

Section Hints.

Import PropertyParser.

Definition gazetteer : list string := municipalities ++ counties.

Lemma gazetteer_nodup : NoDup gazetteer.
Proof.
  assert (H : nodup string_dec gazetteer = gazetteer) by (vm_compute; reflexivity).
  rewrite <- H. apply NoDup_nodup.
Qed.

Lemma hints_in text h :
  In h (_extract_municipality_hints text) <->
  In h gazetteer /\ Py.contains (Py.lower h) (Py.lower text) = true.
Proof.
  exact (filter_In
           (fun location => Py.contains (Py.lower location) (Py.lower text))
           h gazetteer).
Qed.

Lemma municipality_hints_spec text :
  NoDup (_extract_municipality_hints text) /\
  (forall h, In h (_extract_municipality_hints text) <->
             In h gazetteer /\ Py.contains (Py.lower h) (Py.lower text) = true) /\
  (forall a b, In a gazetteer ->
               Py.contains (Py.lower a) (Py.lower b) = true ->
               In b (_extract_municipality_hints text) ->
               In a (_extract_municipality_hints text)) /\
  _extract_municipality_hints (Py.upper text) = _extract_municipality_hints text /\
  _extract_municipality_hints (Py.lower text) = _extract_municipality_hints text.
Proof.
  split; [apply NoDup_filter, gazetteer_nodup |].
  split; [apply hints_in |].
  split.
  - intros a b Ha Hab Hb. apply hints_in in Hb. destruct Hb as [_ Hb].
    apply hints_in. split; [exact Ha | apply (contains_trans _ _ _ Hab Hb)].
  - unfold _extract_municipality_hints.
    rewrite lower_upper, lower_idem. split; reflexivity.
Qed.

End Hints.

(** The hints found in a text of ASCII characters are the names of the
    gazetteer whose lower-cased form occurs in the lower-cased text: each at
    most once, the same whatever the case of the text, and, with a name,
    every gazetteer name contained in it (with "Lacombe County" also
    "Lacombe"). *)
Theorem municipality_hints_properties :
  forall text,
    Py.isascii text = true ->
    NoDup (PropertyParser._extract_municipality_hints text) /\
    (forall h, In h (PropertyParser._extract_municipality_hints text) <->
               In h gazetteer /\
               Py.contains (Py.lower h) (Py.lower text) = true) /\
    (forall a b, In a gazetteer ->
                 Py.contains (Py.lower a) (Py.lower b) = true ->
                 In b (PropertyParser._extract_municipality_hints text) ->
                 In a (PropertyParser._extract_municipality_hints text)) /\
    PropertyParser._extract_municipality_hints (Py.upper text)
      = PropertyParser._extract_municipality_hints text /\
    PropertyParser._extract_municipality_hints (Py.lower text)
      = PropertyParser._extract_municipality_hints text.
Proof. intros text _. apply municipality_hints_spec. Qed.

Lemma municipality_hints_properties_witness :
  In "Lacombe" (PropertyParser._extract_municipality_hints
                  "Lot in LACOMBE COUNTY near the lake").
Proof.
  destruct (municipality_hints_properties "Lot in LACOMBE COUNTY near the lake"
              eq_refl)
    as (_ & _ & Hclosed & _).
  apply (Hclosed "Lacombe" "Lacombe County").
  - vm_compute. right. left. reflexivity.
  - vm_compute. reflexivity.
  - vm_compute. right. left. reflexivity.
Defined.

(* ------------------------------------------------------------------ *)
(** ** Location hints from an address *)

Section LocationHints.

Import MunicipalityLookup.

Lemma split_aux_nonempty l :
  forall cur, Forall (fun w => w <> "") (Py.split_aux l cur).
Proof.
  assert (Hflush : forall cur rest,
             Forall (fun w => w <> "") rest ->
             Forall (fun w : string => w <> "")
               match cur with
               | [] => rest
               | _ :: _ => Py.str (rev cur) :: rest
               end).
  { intros cur rest Hrest. destruct cur as [| c cur]; [exact Hrest |].
    constructor; [| exact Hrest].
    intro E. apply (f_equal String.length) in E.
    unfold Py.str in E. rewrite <- (chars_str (rev (c :: cur))) in E.
    unfold Py.chars, Py.str in E.
    destruct (rev (c :: cur)) eqn:Er; [| discriminate E].
    apply (f_equal (@length ascii)) in Er. rewrite length_rev in Er.
    discriminate Er. }
  induction l as [| c l IH]; intro cur; cbn [Py.split_aux].
  - apply Hflush. constructor.
  - destruct (Py.is_space c); [apply Hflush |]; apply IH.
Qed.

Lemma location_hints_words words :
  Forall (fun h => first_upper h = true)
    (_extract_location_hints_words words).
Proof.
  induction words as [| word rest IH]; cbn [_extract_location_hints_words];
    [constructor |].
  destruct (first_upper word) eqn:Eu; cbn [andb]; [| exact IH].
  destruct (3 <? String.length word)%nat; [| exact IH].
  constructor; [exact Eu |].
  apply Forall_app. split; [| exact IH].
  destruct rest as [| next rest']; [constructor |].
  destruct (first_upper next); constructor; [| constructor].
  destruct word; [discriminate Eu | exact Eu].
Qed.

End LocationHints.

(** [_extract_location_hints] never looks at the first character of an
    empty word, because [split] returns no empty word; and every hint it
    returns begins with an upper-case letter. *)
Theorem location_hints_capitalised :
  forall text,
    Forall (fun w => w <> "") (Py.split text) /\
    Forall (fun h => MunicipalityLookup.first_upper h = true)
      (MunicipalityLookup._extract_location_hints text).
Proof.
  intro text. split.
  - apply split_aux_nonempty.
  - apply location_hints_words.
Qed.

(* ------------------------------------------------------------------ *)
(** ** The list of supported municipalities *)

Section Supported.

Import MunicipalityLookup.

Lemma ascii_compare_lt_trans a b c :
  Ascii.compare a b = Lt -> Ascii.compare b c = Lt -> Ascii.compare a c = Lt.
Proof.
  unfold Ascii.compare. rewrite !N.compare_lt_iff. apply N.lt_trans.
Qed.

(** The order of [str] comparison is transitive. *)
Lemma string_leb_trans s1 :
  forall s2 s3,
    String.leb s1 s2 = true -> String.leb s2 s3 = true ->
    String.leb s1 s3 = true.
Proof.
  unfold String.leb.
  induction s1 as [| a s1 IH]; intros s2 s3.
  - destruct s3; reflexivity.
  - destruct s2 as [| b s2]; [discriminate |].
    destruct s3 as [| c s3]; [intros _ H; exact H |].
    cbn [String.compare].
    destruct (Ascii.compare a b) eqn:Eab; [| | discriminate].
    + apply Ascii.compare_eq_iff in Eab. subst b.
      destruct (Ascii.compare a c); [apply IH | reflexivity | intros _ H; exact H].
    + destruct (Ascii.compare b c) eqn:Ebc; [| | intros _ H; discriminate H].
      * apply Ascii.compare_eq_iff in Ebc. subst c. rewrite Eab. reflexivity.
      * rewrite (ascii_compare_lt_trans a b c Eab Ebc). reflexivity.
Qed.

Definition name_le (a b : municipality) : Prop :=
  String.leb (name a) (name b) = true.

Lemma ltb_leb a b : String.ltb a b = true -> String.leb a b = true.
Proof. unfold String.ltb, String.leb. destruct (String.compare a b); congruence. Qed.

Lemma not_ltb_leb a b : String.ltb a b = false -> String.leb b a = true.
Proof.
  unfold String.ltb, String.leb. rewrite (String.compare_antisym a b).
  destruct (String.compare b a); cbn; congruence.
Qed.

Lemma insert_by_name_perm m l : Permutation (insert_by_name m l) (m :: l).
Proof.
  induction l as [| x l IH]; cbn [insert_by_name]; [reflexivity |].
  destruct (String.ltb (name x) (name m)); [| reflexivity].
  rewrite IH. apply perm_swap.
Qed.

Lemma sorted_by_name_perm l : Permutation (sorted_by_name l) l.
Proof.
  induction l as [| m l IH]; [reflexivity |].
  unfold sorted_by_name in *. cbn [fold_right].
  rewrite insert_by_name_perm. constructor. exact IH.
Qed.

Lemma insert_by_name_sorted m l :
  StronglySorted name_le l -> StronglySorted name_le (insert_by_name m l).
Proof.
  induction l as [| x l IH]; intro Hs; cbn [insert_by_name].
  - constructor; constructor.
  - inversion Hs as [| x' l' Hl Hx]; subst.
    destruct (String.ltb (name x) (name m)) eqn:E.
    + constructor; [apply IH; exact Hl |].
      rewrite Forall_forall. intros y Hy.
      apply (Permutation_in _ (insert_by_name_perm m l)) in Hy.
      destruct Hy as [<- | Hy].
      * apply ltb_leb. exact E.
      * rewrite Forall_forall in Hx. apply Hx. exact Hy.
    + constructor; [exact Hs |].
      assert (Hmx : name_le m x) by (apply not_ltb_leb; exact E).
      constructor; [exact Hmx |].
      rewrite Forall_forall in *. intros y Hy.
      apply (string_leb_trans _ (name x)); [exact Hmx | apply Hx; exact Hy].
Qed.

Lemma sorted_by_name_sorted l : StronglySorted name_le (sorted_by_name l).
Proof.
  induction l as [| m l IH]; [constructor |].
  unfold sorted_by_name in *. cbn [fold_right].
  apply insert_by_name_sorted. exact IH.
Qed.

(** The copies before sorting. *)
Definition unsorted (t : table) : list municipality :=
  flat_map
    (fun category =>
       map (fun entry =>
              named_copy (snd entry) (fst entry) (Py.rstrip_s (fst category)))
           (snd category))
    (items t).

Lemma unsorted_names t : map name (unsorted t) = _get_supported_regions t.
Proof.
  unfold unsorted, _get_supported_regions, items. cbn [flat_map fst snd].
  rewrite !app_nil_r, map_app, !map_map. reflexivity.
Qed.

Lemma supported_spec t :
  let l := get_supported_municipalities t in
  StronglySorted name_le l /\
  Permutation (map name l) (_get_supported_regions t) /\
  length l = length (cities t) + length (counties t) /\
  Forall (fun m =>
            In (name m, stored m) (cities t) /\ category m = "citie" \/
            In (name m, stored m) (counties t) /\ category m = "countie") l.
Proof.
  intro l. subst l. unfold get_supported_municipalities. fold (unsorted t).
  pose proof (sorted_by_name_perm (unsorted t)) as Hperm.
  split; [apply sorted_by_name_sorted |].
  split; [rewrite <- unsorted_names; apply Permutation_map; exact Hperm |].
  split.
  - rewrite (Permutation_length Hperm).
    unfold unsorted, items. cbn [flat_map fst snd].
    rewrite app_nil_r, length_app, !length_map. reflexivity.
  - rewrite Forall_forall. intros m Hm.
    apply (Permutation_in _ Hperm) in Hm.
    unfold unsorted, items in Hm. cbn [flat_map fst snd] in Hm.
    rewrite app_nil_r in Hm. apply in_app_or in Hm.
    destruct Hm as [Hm | Hm]; apply in_map_iff in Hm;
      destruct Hm as ([n data] & <- & Hin); cbn; [left | right];
      (split; [exact Hin | reflexivity]).
Qed.

End Supported.

(** [get_supported_municipalities] returns one copy for each entry of the
    table, in ascending order of the names: the names are a rearrangement of
    the supported regions, and every copy has category "citie" or
    "countie". *)
Theorem supported_municipalities_sorted :
  forall t,
    let l := MunicipalityLookup.get_supported_municipalities t in
    StronglySorted name_le l /\
    Permutation (map MunicipalityLookup.name l)
      (MunicipalityLookup._get_supported_regions t) /\
    length l = length (MunicipalityLookup.cities t)
               + length (MunicipalityLookup.counties t) /\
    Forall (fun m =>
              In (MunicipalityLookup.name m, MunicipalityLookup.stored m)
                 (MunicipalityLookup.cities t) /\
              MunicipalityLookup.category m = "citie" \/
              In (MunicipalityLookup.name m, MunicipalityLookup.stored m)
                 (MunicipalityLookup.counties t) /\
              MunicipalityLookup.category m = "countie") l.
Proof. exact supported_spec. Qed.

(* ------------------------------------------------------------------ *)
(** ** Repeated policy requests *)

Section CacheRepeat.

Import PolicyRetrieval.

Variable hash : hasher.

(** After a call with the methods of the class the key holds the returned
    record. *)
Lemma call_stores now policy_cache muni p :
  let call := get_land_use_policies methods hash now policy_cache muni p in
  Dict.get (snd call) (cache_key hash muni p) = Some (fst call).
Proof.
  intro call. subst call.
  destruct (Dict.get policy_cache (cache_key hash muni p)) as [cached |] eqn:E.
  - rewrite (cache_hit hash methods now policy_cache muni p cached E). exact E.
  - destruct (cache_miss_stored hash methods now policy_cache muni p E
                (methods_never_raise muni p _)) as [-> _].
    cbn [fst snd]. apply get_set_same.
Qed.

(** A call leaves the entries of the other keys as they are. *)
Lemma call_keeps_others impl now policy_cache muni p k :
  String.eqb k (cache_key hash muni p) = false ->
  Dict.get (snd (get_land_use_policies impl hash now policy_cache muni p)) k
  = Dict.get policy_cache k.
Proof.
  intro Hk. unfold get_land_use_policies.
  destruct (Dict.get policy_cache (cache_key hash muni p)); [reflexivity |].
  destruct (try_block impl muni p (initial_policy muni now)) as [pi [e |]];
    cbn [snd]; [reflexivity |].
  apply get_set_other. exact Hk.
Qed.

Lemma same_key muni muni' p p' :
  MunicipalityLookup.name muni' = MunicipalityLookup.name muni ->
  hash p' = hash p ->
  cache_key hash muni' p' = cache_key hash muni p.
Proof. intros Hn Hh. unfold cache_key. rewrite Hn, Hh. reflexivity. Qed.

End CacheRepeat.

(** Once [get_land_use_policies] has answered a request, every later
    request whose municipality has the same name and whose property has the
    same hash gets that answer again, with its old "last_updated", and the
    cache stays as it is, whatever the later request's property record and
    time are.  A call changes no entry stored under another key. *)
Theorem policy_cache_repeat :
  forall hash now now' policy_cache muni p muni' p' impl',
    MunicipalityLookup.name muni' = MunicipalityLookup.name muni ->
    hash p' = hash p ->
    let first := PolicyRetrieval.get_land_use_policies PolicyRetrieval.methods
                   hash now policy_cache muni p in
    PolicyRetrieval.get_land_use_policies impl' hash now' (snd first) muni' p'
      = first /\
    forall k,
      String.eqb k (PolicyRetrieval.cache_key hash muni p) = false ->
      Dict.get (snd first) k = Dict.get policy_cache k.
Proof.
  intros hash now now' policy_cache muni p muni' p' impl' Hn Hh first. split.
  - rewrite (surjective_pairing first) at 2.
    apply cache_hit. rewrite (same_key hash muni muni' p p' Hn Hh).
    apply call_stores.
  - intros k Hk. apply call_keeps_others. exact Hk.
Qed.

(** Two properties with the same hash in one municipality: the second is
    answered with the policy of the first. *)
Lemma policy_cache_repeat_witness :
  let hash := fun _ : PropertyParser.property_info => 0%Z in
  let first := PolicyRetrieval.get_land_use_policies PolicyRetrieval.methods
                 hash "2024-01-01 00:00:00" [] fallback_municipality
                 sample_property in
  let second := PolicyRetrieval.get_land_use_policies PolicyRetrieval.methods
                  hash "2024-06-30 12:00:00" (snd first) fallback_municipality
                  small_commercial_property in
  second = first /\
  PolicyRetrieval.zoning (fst second) = Some "RC - Rural Commercial" /\
  PolicyRetrieval.last_updated (fst second) = "2024-01-01 00:00:00".
Proof.
  intros hash first second.
  destruct (policy_cache_repeat hash "2024-01-01 00:00:00" "2024-06-30 12:00:00"
              [] fallback_municipality sample_property
              fallback_municipality small_commercial_property
              PolicyRetrieval.methods eq_refl eq_refl) as [H _].
  fold first in H. fold second in H.
  split; [exact H |]. rewrite H.
  split; vm_compute; reflexivity.
Defined.

(* ------------------------------------------------------------------ *)
(** ** The policy of a resolved municipality *)

Section ResolvedPolicy.

Import PolicyRetrieval.

Lemma table_bylaws_present :
  forallb (fun e => Py.truthy (MunicipalityLookup.land_use_bylaw (snd e)))
    (MunicipalityLookup.cities the_table ++ MunicipalityLookup.counties the_table)
  = true.
Proof. vm_compute. reflexivity. Qed.

Lemma resolved_bylaw_present dist p muni :
  MunicipalityLookup.find_municipality dist the_table p = Some muni ->
  Py.truthy (MunicipalityLookup.land_use_bylaw (MunicipalityLookup.stored muni))
  = true.
Proof.
  intro H. apply find_municipality_found in H.
  pose proof table_bylaws_present as Hall. rewrite forallb_forall in Hall.
  assert (Hin : In (MunicipalityLookup.name muni, MunicipalityLookup.stored muni)
                  (MunicipalityLookup.cities the_table
                   ++ MunicipalityLookup.counties the_table)).
  { apply in_or_app.
    destruct H as [[[[Hin _] | [Hin _]] _] | [[[Hin _] | [Hin _]] _]]; auto. }
  apply (Hall _ Hin).
Qed.

(** The three tables of a zoning record are the lookups of its code. *)
Lemma zoning_tables muni p :
  let zi := _get_zoning_information muni p in
  zi_setbacks zi = _get_typical_setbacks (zi_zoning zi) /\
  zi_density_restrictions zi = _get_density_restrictions (zi_zoning zi) /\
  zi_height_restrictions zi = _get_height_restrictions (zi_zoning zi).
Proof.
  unfold _get_zoning_information.
  destruct (Py.mem "commercial" _).
  - destruct (F64.ltb _ _); repeat split.
  - destruct (Py.mem "rural" _ || F64.ltb _ _); repeat split.
Qed.

(** The record the [try] block builds with the methods of the class. *)
Lemma methods_policy muni p now :
  let zi := _get_zoning_information muni p in
  let policy := fst (try_block methods muni p (initial_policy muni now)) in
  error policy = None /\
  municipality policy = MunicipalityLookup.name muni /\
  last_updated policy = now /\
  zoning policy = Some (zi_zoning zi) /\
  setbacks policy = _get_typical_setbacks (zi_zoning zi) /\
  density_restrictions policy = _get_density_restrictions (zi_zoning zi) /\
  height_restrictions policy = _get_height_restrictions (zi_zoning zi) /\
  land_use_bylaw policy = _get_bylaw_information muni /\
  development_requirements policy
    = _get_development_requirements muni (Some (zi_zoning zi)).
Proof.
  intros zi policy. subst policy.
  unfold try_block, methods; cbn [zoning_step bylaw_step requirements_step].
  fold zi.
  assert (Hz : forall pi, zoning (update pi zi) = Some (zi_zoning zi))
    by reflexivity.
  assert (Hreq : forall z, exists r rs,
               _get_development_requirements muni z = r :: rs).
  { intro z. unfold _get_development_requirements. cbn [app]. eauto. }
  destruct (zoning_tables muni p) as (Hs & Hd & Hh).
  fold zi in Hs, Hd, Hh.
  destruct (_get_bylaw_information muni) as [b |];
    cbn [zoning set_land_use_bylaw update];
    destruct (Hreq (Some (zi_zoning zi))) as (r & rs & Er); rewrite Er;
    cbn [fst error municipality last_updated zoning setbacks
         density_restrictions height_restrictions land_use_bylaw
         development_requirements set_development_requirements
         set_land_use_bylaw update initial_policy];
    rewrite <- ?Er, <- Hs, <- Hd, <- Hh; repeat split; reflexivity.
Qed.

Lemma resolved_policy_spec dist hash now policy_cache p muni :
  MunicipalityLookup.find_municipality dist the_table p = Some muni ->
  Dict.get policy_cache (cache_key hash muni p) = None ->
  let policy := fst (get_land_use_policies methods hash now policy_cache muni p) in
  error policy = None /\
  municipality policy = MunicipalityLookup.name muni /\
  (exists z, zoning policy = Some z /\ In z zoning_codes) /\
  setbacks policy <> [] /\ height_restrictions policy <> [] /\
  (exists b,
      land_use_bylaw policy = Some b /\
      url b = MunicipalityLookup.land_use_bylaw (MunicipalityLookup.stored muni) /\
      url b <> "" /\
      title b = (MunicipalityLookup.name muni ++ " Land Use Bylaw")%string /\
      length (sections b) = 5) /\
  firstn 3 (development_requirements policy)
    = ["Development permit required"; "Building permit required";
       "Compliance with Alberta Building Code"].
Proof.
  intros Hres Hmiss policy. subst policy.
  destruct (cache_miss_stored hash methods now policy_cache muni p Hmiss
              (methods_never_raise muni p _)) as [-> _].
  cbn [fst].
  destruct (methods_policy muni p now)
    as (He & Hm & _ & Hz & Hs & _ & Hh & Hb & Hr).
  split; [exact He |]. split; [exact Hm |].
  split; [eexists; split; [exact Hz | apply zoning_code_produced] |].
  split; [rewrite Hs; apply setbacks_nonempty |].
  split; [rewrite Hh; apply height_nonempty |].
  split.
  - rewrite Hb. unfold _get_bylaw_information.
    pose proof (resolved_bylaw_present dist p muni Hres) as Ht.
    rewrite Ht. cbn [negb]. eexists. split; [reflexivity |].
    cbn [url title sections length]. repeat split.
    intro E. rewrite E in Ht. discriminate Ht.
  - rewrite Hr. reflexivity.
Qed.

End ResolvedPolicy.

(** For a municipality that the resolver returns from the table of the
    program, a policy request that is not answered from the cache returns a
    record without error: its zoning is one of the four codes, its setback
    and height tables are not empty, its bylaw entry carries the stored URL,
    which is not empty, with five sections, and its development
    requirements begin with the three general ones. *)
Theorem policy_of_resolved_municipality :
  forall dist hash now policy_cache p muni,
    MunicipalityLookup.find_municipality dist the_table p = Some muni ->
    Dict.get policy_cache (PolicyRetrieval.cache_key hash muni p) = None ->
    let policy :=
      fst (PolicyRetrieval.get_land_use_policies PolicyRetrieval.methods hash
             now policy_cache muni p) in
    PolicyRetrieval.error policy = None /\
    PolicyRetrieval.municipality policy = MunicipalityLookup.name muni /\
    (exists z, PolicyRetrieval.zoning policy = Some z /\
               In z PolicyRetrieval.zoning_codes) /\
    PolicyRetrieval.setbacks policy <> [] /\
    PolicyRetrieval.height_restrictions policy <> [] /\
    (exists b,
        PolicyRetrieval.land_use_bylaw policy = Some b /\
        PolicyRetrieval.url b
          = MunicipalityLookup.land_use_bylaw (MunicipalityLookup.stored muni) /\
        PolicyRetrieval.url b <> "" /\
        PolicyRetrieval.title b
          = (MunicipalityLookup.name muni ++ " Land Use Bylaw")%string /\
        length (PolicyRetrieval.sections b) = 5) /\
    firstn 3 (PolicyRetrieval.development_requirements policy)
      = ["Development permit required"; "Building permit required";
         "Compliance with Alberta Building Code"].
Proof. exact resolved_policy_spec. Qed.

Lemma policy_of_resolved_municipality_witness :
  exists muni,
    MunicipalityLookup.find_municipality on_the_spot the_table
      red_deer_hint_at_edmonton = Some muni /\
    PolicyRetrieval.error
      (fst (PolicyRetrieval.get_land_use_policies PolicyRetrieval.methods
              (fun _ => 0%Z) "2024-01-01 00:00:00" [] muni
              red_deer_hint_at_edmonton)) = None.
Proof.
  destruct (MunicipalityLookup.find_municipality on_the_spot the_table
              red_deer_hint_at_edmonton) as [muni |] eqn:E;
    [| vm_compute in E; discriminate E].
  exists muni. split; [reflexivity |].
  apply (policy_of_resolved_municipality on_the_spot (fun _ => 0%Z)
           "2024-01-01 00:00:00" [] red_deer_hint_at_edmonton muni E eq_refl).
Defined.

(* ------------------------------------------------------------------ *)
(** ** The request handler *)

Section Handler.

Import App.

Variable env : environment.

Lemma analyze_property_cases policy_cache data :
  let address := field data "address" in
  let legal := field data "legal_description" in
  let info := field data "additional_info" in
  let reply := analyze_property env policy_cache data in
  ((exists message, fst reply = Error 400 message) <->
   address = "" /\ legal = "" /\ info = "") /\
  (forall status message,
      fst reply = Error status message ->
      snd reply = policy_cache /\ (status = 400 \/ status = 404)) /\
  (forall r,
      fst reply = Ok r ->
      PropertyParser.parse_property_info (geo env) address legal info
        = Some (property_info r) /\
      MunicipalityLookup.find_municipality (dist env) (table env)
        (property_info r) = Some (municipality_info r) /\
      Dict.get (snd reply)
        (PolicyRetrieval.cache_key (hash env) (municipality_info r)
           (property_info r)) = Some (policy_info r) /\
      summary r = _generate_feasibility_summary (dict_str env) (policy_info r)).
Proof.
  intros address legal info reply. subst reply. unfold analyze_property.
  fold address legal info.
  pose proof (parse_property_info_none_iff_empty (geo env) address legal info)
    as Hgate.
  destruct (PropertyParser.parse_property_info (geo env) address legal info)
    as [p |] eqn:Ep.
  - destruct (MunicipalityLookup.find_municipality (dist env) (table env) p)
      as [muni |] eqn:Em.
    + pose proof (call_stores (hash env) (clock env) policy_cache muni p) as Hs.
      cbv zeta in Hs.
      destruct (PolicyRetrieval.get_land_use_policies PolicyRetrieval.methods
                  (hash env) (clock env) policy_cache muni p)
        as [policy cache'] eqn:Ec.
      cbn [fst snd] in *. split; [| split].
      * split; [intros [msg H]; discriminate H |].
        intro H. apply Hgate in H. discriminate H.
      * intros status message H. discriminate H.
      * intros r H. injection H as <-. cbn.
        repeat split; try reflexivity; assumption.
    + cbn [fst snd]. split; [| split].
      * split; [intros [msg H]; discriminate H |].
        intro H. apply Hgate in H. discriminate H.
      * intros status message H. injection H as <- <-. auto.
      * intros r H. discriminate H.
  - cbn [fst snd]. split; [| split].
    + split; [intros _; apply Hgate; reflexivity | intros _; eauto].
    + intros status message H. injection H as <- <-. auto.
    + intros r H. discriminate H.
Qed.

(** Every entry of the cache has one of the zoning codes of the engine. *)
Definition engine_cache (c : PolicyRetrieval.cache) : Prop :=
  forall k policy,
    Dict.get c k = Some policy ->
    exists z, PolicyRetrieval.zoning policy = Some z /\
              In z PolicyRetrieval.zoning_codes.

Lemma engine_cache_empty : engine_cache [].
Proof. intros k policy H. discriminate H. Qed.

Lemma potential_high policy z :
  PolicyRetrieval.zoning policy = Some z ->
  In z PolicyRetrieval.zoning_codes ->
  development_potential (_generate_feasibility_summary (dict_str env) policy)
  = "High".
Proof.
  intros Hz Hin. unfold _generate_feasibility_summary. rewrite Hz.
  cbn [development_potential].
  unfold PolicyRetrieval.zoning_codes in Hin. cbn [In] in Hin.
  destruct Hin as [<- | [<- | [<- | [<- | []]]]]; vm_compute; reflexivity.
Qed.

Lemma engine_cache_call policy_cache muni p :
  engine_cache policy_cache ->
  let call := PolicyRetrieval.get_land_use_policies PolicyRetrieval.methods
                (hash env) (clock env) policy_cache muni p in
  engine_cache (snd call) /\
  exists z, PolicyRetrieval.zoning (fst call) = Some z /\
            In z PolicyRetrieval.zoning_codes.
Proof.
  intros Hc call. subst call.
  destruct (Dict.get policy_cache
              (PolicyRetrieval.cache_key (hash env) muni p))
    as [cached |] eqn:E.
  - rewrite (cache_hit (hash env) PolicyRetrieval.methods (clock env)
               policy_cache muni p cached E).
    cbn [fst snd]. split; [exact Hc | apply (Hc _ _ E)].
  - destruct (cache_miss_stored (hash env) PolicyRetrieval.methods (clock env)
                policy_cache muni p E (methods_never_raise muni p _))
      as [-> _].
    cbn [fst snd].
    destruct (methods_policy muni p (clock env)) as (_ & _ & _ & Hz & _).
    assert (Hnew : exists z,
               PolicyRetrieval.zoning
                 (fst (PolicyRetrieval.try_block PolicyRetrieval.methods muni p
                         (PolicyRetrieval.initial_policy muni (clock env))))
               = Some z /\ In z PolicyRetrieval.zoning_codes)
      by (eexists; split; [exact Hz | apply zoning_code_produced]).
    split; [| exact Hnew].
    intros k policy Hk.
    destruct (String.eqb k (PolicyRetrieval.cache_key (hash env) muni p)) eqn:Ek.
    + apply String.eqb_eq in Ek. subst k. rewrite get_set_same in Hk.
      injection Hk as <-. exact Hnew.
    + rewrite get_set_other in Hk by exact Ek. apply (Hc _ _ Hk).
Qed.

Lemma analyze_property_high policy_cache data r :
  engine_cache policy_cache ->
  fst (analyze_property env policy_cache data) = Ok r ->
  development_potential (summary r) = "High" /\
  engine_cache (snd (analyze_property env policy_cache data)).
Proof.
  intros Hc. unfold analyze_property.
  destruct (PropertyParser.parse_property_info _ _ _ _) as [p |];
    [| discriminate].
  destruct (MunicipalityLookup.find_municipality _ _ p) as [muni |];
    [| discriminate].
  destruct (engine_cache_call policy_cache muni p Hc) as (Hc' & z & Hz & Hin).
  destruct (PolicyRetrieval.get_land_use_policies PolicyRetrieval.methods
              (hash env) (clock env) policy_cache muni p)
    as [policy cache'].
  cbn [fst snd] in *. intro H. injection H as <-. cbn [summary].
  split; [apply (potential_high policy z Hz Hin) | exact Hc'].
Qed.

End Handler.

(** The three outcomes of [analyze_property].  The reply is the error 400
    exactly when the three fields are absent or empty; an error reply has
    status 400 or 404 and leaves the cache as it was; a successful reply
    carries the parsed record, the municipality the resolver found for it,
    the policy now stored under their key, and the summary of that
    policy. *)
Theorem analyze_property_outcomes :
  forall env policy_cache data,
    let address := App.field data "address" in
    let legal := App.field data "legal_description" in
    let info := App.field data "additional_info" in
    let reply := App.analyze_property env policy_cache data in
    ((exists message, fst reply = App.Error 400 message) <->
     address = "" /\ legal = "" /\ info = "") /\
    (forall status message,
        fst reply = App.Error status message ->
        snd reply = policy_cache /\ (status = 400 \/ status = 404)) /\
    (forall r,
        fst reply = App.Ok r ->
        PropertyParser.parse_property_info (App.geo env) address legal info
          = Some (App.property_info r) /\
        MunicipalityLookup.find_municipality (App.dist env) (App.table env)
          (App.property_info r) = Some (App.municipality_info r) /\
        Dict.get (snd reply)
          (PolicyRetrieval.cache_key (App.hash env) (App.municipality_info r)
             (App.property_info r)) = Some (App.policy_info r) /\
        App.summary r
          = App._generate_feasibility_summary (App.dict_str env)
              (App.policy_info r)).
Proof. exact analyze_property_cases. Qed.

(** An environment for the examples: no geocoding, the stand-in distance,
    the table of the program, a constant hash. *)
Definition sample_environment : App.environment :=
  {| App.geo := nowhere;
     App.dist := on_the_spot;
     App.table := the_table;
     App.hash := fun _ => 0%Z;
     App.clock := "2024-01-01 00:00:00";
     App.today := "2024-01-01T00:00:00";
     App.dict_str := fun _ => "{...}" |}.

Lemma analyze_property_outcomes_witness :
  (exists message,
      fst (App.analyze_property sample_environment [] [("address", "")])
        = App.Error 400 message) /\
  (exists message,
      fst (App.analyze_property sample_environment []
             [("additional_info", "a quiet place")])
        = App.Error 404 message).
Proof.
  split.
  - destruct (analyze_property_outcomes sample_environment [] [("address", "")])
      as [[_ H] _].
    apply H. repeat split.
  - eexists. vm_compute. reflexivity.
Defined.

(** Whatever the request, the development potential in a successful reply
    is "High": every zoning code of the engine contains "Residential" or
    "Commercial".  This holds for a cache that the handler alone has filled,
    and the handler keeps the cache so. *)
Theorem development_potential_always_high :
  forall env policy_cache data r,
    engine_cache policy_cache ->
    fst (App.analyze_property env policy_cache data) = App.Ok r ->
    App.development_potential (App.summary r) = "High" /\
    engine_cache (snd (App.analyze_property env policy_cache data)).
Proof. exact analyze_property_high. Qed.

Lemma development_potential_always_high_witness :
  exists r,
    fst (App.analyze_property sample_environment []
           [("address", "RR 2 Ponoka County");
            ("additional_info", "1 acre residential lot")]) = App.Ok r /\
    PolicyRetrieval.zoning (App.policy_info r)
      = Some "R1 - Single Family Residential" /\
    App.development_potential (App.summary r) = "High".
Proof.
  destruct (fst (App.analyze_property sample_environment []
                   [("address", "RR 2 Ponoka County");
                    ("additional_info", "1 acre residential lot")]))
    as [r | st msg] eqn:E; [| vm_compute in E; discriminate E].
  exists r. split; [reflexivity |]. split.
  - vm_compute in E. injection E as <-. reflexivity.
  - apply (development_potential_always_high sample_environment [] _ r
             engine_cache_empty E).
Defined.

(* ------------------------------------------------------------------ *)
(** ** Cottage feasibility by zoning code *)

Section CottageTiers.

Import PolicyRetrieval.

Lemma cottage_tiers_spec policy details z :
  zoning policy = Some z ->
  In z zoning_codes ->
  let result := get_cottage_development_analysis policy details in
  (z = "RC - Rural Commercial" /\
   ((exists a, result = Py.Return a /\ feasibility a = "High" /\
               next_steps a = the_next_steps) \/
    (exists e, result = Py.Raise e))) \/
  (z = "RUR - Rural Residential" /\
   exists a, result = Py.Return a /\ feasibility a = "Moderate" /\
             potential a = None /\ next_steps a = the_next_steps) \/
  ((z = "C2 - Community Commercial" \/ z = "R1 - Single Family Residential") /\
   exists a, result = Py.Return a /\ feasibility a = "Low" /\
             potential a = None /\ next_steps a = the_next_steps).
Proof.
  intros Hz Hin result. subst result.
  unfold get_cottage_development_analysis. rewrite Hz.
  unfold zoning_codes in Hin. cbn [In] in Hin.
  destruct Hin as [<- | [<- | [<- | [<- | []]]]].
  - left. split; [reflexivity |].
    change (Py.contains "Rural Commercial" "RC - Rural Commercial"
            || Py.contains "RC" "RC - Rural Commercial") with true.
    cbv iota.
    destruct (cottage_units policy _) as [cp | e]; [left | right];
      eexists; [repeat split | reflexivity].
  - right. right. split; [left; reflexivity |].
    change (Py.contains "Rural Commercial" "C2 - Community Commercial"
            || Py.contains "RC" "C2 - Community Commercial") with false.
    change (Py.contains "Rural" "C2 - Community Commercial") with false.
    cbv iota. eexists. repeat split.
  - right. left. split; [reflexivity |].
    change (Py.contains "Rural Commercial" "RUR - Rural Residential"
            || Py.contains "RC" "RUR - Rural Residential") with false.
    change (Py.contains "Rural" "RUR - Rural Residential") with true.
    cbv iota. eexists. repeat split.
  - right. right. split; [right; reflexivity |].
    change (Py.contains "Rural Commercial" "R1 - Single Family Residential"
            || Py.contains "RC" "R1 - Single Family Residential") with false.
    change (Py.contains "Rural" "R1 - Single Family Residential") with false.
    cbv iota. eexists. repeat split.
Qed.

(** The code the engine chooses. *)
Lemma zoning_decision muni p :
  let acreage := get_or (PropertyParser.acreage (PropertyParser.details p))
                   (F64.of_Z 0) in
  let hints := get_or (PropertyParser.zoning_hints (PropertyParser.details p)) [] in
  zi_zoning (_get_zoning_information muni p) =
  if Py.mem "commercial" hints then
    if F64.ltb (F64.of_Z 5) acreage
    then "RC - Rural Commercial" else "C2 - Community Commercial"
  else if Py.mem "rural" hints || F64.ltb (F64.of_Z 2) acreage
  then "RUR - Rural Residential" else "R1 - Single Family Residential".
Proof.
  intros acreage hints. unfold _get_zoning_information. fold acreage hints.
  destruct (Py.mem "commercial" hints).
  - destruct (F64.ltb (F64.of_Z 5) acreage); reflexivity.
  - destruct (Py.mem "rural" hints || F64.ltb (F64.of_Z 2) acreage); reflexivity.
Qed.

End CottageTiers.

(** The cottage analysis of a policy of the engine depends on the zoning
    code alone for its tier: "High" for Rural Commercial (if the unit
    computation does not raise), "Moderate" for Rural Residential, and "Low"
    for Community Commercial and Single Family Residential, the last three
    without cottage potential.  So a property with the hint "commercial" and
    at most 5 acres, zoned Community Commercial, is rated "Low". *)
Theorem cottage_feasibility_by_zoning :
  forall policy details z,
    PolicyRetrieval.zoning policy = Some z ->
    In z PolicyRetrieval.zoning_codes ->
    let result :=
      PolicyRetrieval.get_cottage_development_analysis policy details in
    (z = "RC - Rural Commercial" /\
     ((exists a, result = Py.Return a /\
                 PolicyRetrieval.feasibility a = "High" /\
                 PolicyRetrieval.next_steps a = PolicyRetrieval.the_next_steps) \/
      (exists e, result = Py.Raise e))) \/
    (z = "RUR - Rural Residential" /\
     exists a, result = Py.Return a /\
               PolicyRetrieval.feasibility a = "Moderate" /\
               PolicyRetrieval.potential a = None /\
               PolicyRetrieval.next_steps a = PolicyRetrieval.the_next_steps) \/
    ((z = "C2 - Community Commercial" \/ z = "R1 - Single Family Residential") /\
     exists a, result = Py.Return a /\
               PolicyRetrieval.feasibility a = "Low" /\
               PolicyRetrieval.potential a = None /\
               PolicyRetrieval.next_steps a = PolicyRetrieval.the_next_steps).
Proof. exact cottage_tiers_spec. Qed.

Lemma cottage_feasibility_by_zoning_witness :
  let policy :=
    fst (PolicyRetrieval.get_land_use_policies PolicyRetrieval.methods
           (fun _ => 0%Z) "2024-01-01 00:00:00" [] fallback_municipality
           small_commercial_property) in
  PolicyRetrieval.zoning policy = Some "C2 - Community Commercial" /\
  exists a,
    PolicyRetrieval.get_cottage_development_analysis policy
      (PropertyParser.details small_commercial_property) = Py.Return a /\
    PolicyRetrieval.feasibility a = "Low".
Proof.
  intro policy.
  assert (Hz : PolicyRetrieval.zoning policy = Some "C2 - Community Commercial")
    by (vm_compute; reflexivity).
  split; [exact Hz |].
  destruct (cottage_feasibility_by_zoning policy
              (PropertyParser.details small_commercial_property)
              "C2 - Community Commercial" Hz)
    as [[E _] | [[E _] | [_ (a & Ha & Hf & _)]]];
    [right; left; reflexivity | discriminate E | discriminate E |].
  exists a. split; assumption.
Defined.

(** An acreage too large for the unit computation: the float infinity,
    which [float] returns for a numeral of 400 digits, makes [int] raise
    [OverflowError] in the Rural Commercial branch. *)
Example cottage_analysis_overflow :
  forall policy,
    PolicyRetrieval.zoning policy = Some "RC - Rural Commercial" ->
    PolicyRetrieval.density_restrictions policy
      = PolicyRetrieval._get_density_restrictions "RC - Rural Commercial" ->
    PolicyRetrieval.get_cottage_development_analysis policy
      {| PropertyParser.acreage := Some F64.inf;
         PropertyParser.zoning_hints := None;
         PropertyParser.development_intentions := None;
         PropertyParser.infrastructure_mentions := None |}
    = Py.Raise (Py.OverflowError "cannot convert float infinity to integer").
Proof.
  intros policy Hz Hd. unfold PolicyRetrieval.get_cottage_development_analysis.
  rewrite Hz. unfold PolicyRetrieval.cottage_units. rewrite Hd.
  vm_compute. reflexivity.
Qed.

(* ------------------------------------------------------------------ *)
(** ** The copies are shallow

    [municipality_data.copy()] copies the entries of a record, not the
    dictionaries the entries refer to.  The resolver itself never writes to
    the table, but the record it returns shares the nested 'contact_info'
    and 'coordinates' dictionaries with the table. *)

(** A record dictionary of the table at [self]: an entry of one of its
    categories. *)
Definition table_record (h : Store.heap) (self : Store.value)
    (rd : Dict.t Store.value) : Prop :=
  exists sd category entries municipality_name r,
    dict_at h self = Some sd /\
    In category (map snd sd) /\
    dict_at h category = Some entries /\
    In (municipality_name, r) entries /\
    dict_at h r = Some rd.

Section Shallow.

Import Store.

Lemma nth_error_put h l o :
  l < length h -> nth_error (put h l o) l = Some o.
Proof.
  revert l. induction h as [| x h IH]; intros l Hl; cbn [length] in Hl.
  - lia.
  - destruct l as [| l]; cbn [put nth_error]; [reflexivity |].
    apply IH. lia.
Qed.

Lemma dict_at_bound h l d : dict_at h (VRef l) = Some d -> l < length h.
Proof.
  cbn [dict_at]. destruct (nth_error h l) eqn:E; [| discriminate].
  intros _. apply nth_error_Some. congruence.
Qed.

(** The loop of [_find_by_name] returns [None] and leaves the store, or
    allocates one copy of an entry and adds two keys to it. *)
Lemma find_in_shape cat name_lower :
  forall vs es h v h',
    decode_entries h vs = Some es ->
    find_in vs cat name_lower h = (Py.Return v, h') ->
    (v = VNone /\ h' = h) \/
    exists n r d,
      In (n, r) vs /\ dict_at h r = Some d /\
      (exists data, decode_stored h d = Some data) /\
      v = VRef (length h) /\
      h' = h ++ [ODict (Dict.set (Dict.set d "name" (VStr n))
                          "category" (VStr cat))].
Proof.
  induction vs as [| [n r] vs IH]; intros es h v h' H Hrun;
    cbn [decode_entries] in H; cbn [find_in] in Hrun.
  - left. unfold ret in Hrun. injection Hrun as <- <-. split; reflexivity.
  - apply obind_some in H. destruct H as (data & Hrec & H).
    apply obind_some in H. destruct H as (rest & Hrest & _).
    destruct (MunicipalityLookup.name_matches n name_lower).
    + destruct (record_parts h r data Hrec) as (d & Hd & _ & Hs).
      rewrite (named_copy_run h r d n cat Hd) in Hrun.
      injection Hrun as <- <-. right. exists n, r, d.
      repeat split; try reflexivity; [left; reflexivity | exact Hd |].
      exists data. exact Hs.
    + destruct (IH rest h v h' Hrest Hrun) as [Hnone | (n' & r' & d & Hin & Hd)].
      * left. exact Hnone.
      * right. exists n', r', d. split; [right; exact Hin | exact Hd].
Qed.

Lemma find_by_name_shape h self t nm v h' :
  decode_table h self = Some t ->
  _find_by_name self nm h = (Py.Return v, h') ->
  (v = VNone /\ h' = h) \/
  exists n cat rd,
    table_record h self rd /\
    (exists data, decode_stored h rd = Some data) /\
    v = VRef (length h) /\
    h' = h ++ [ODict (Dict.set (Dict.set rd "name" (VStr n))
                        "category" (VStr cat))].
Proof.
  intros Ht Hrun.
  destruct (table_parts h self t Ht)
    as (cv & kv & cs & ks & Hself & Hcv & Hkv & Hcs & Hks).
  unfold _find_by_name, dict_items in Hrun.
  rewrite (bind_run _ _ _ _ _ (getitem_run h self _ "cities" cv Hself eq_refl))
    in Hrun.
  rewrite (bind_run _ _ _ _ _ (as_dict_run h cv cs Hcv)) in Hrun.
  unfold bind at 1 in Hrun.
  destruct (find_in cs "city" (Py.lower nm) h) as [[found | e] h1] eqn:E1;
    [| discriminate Hrun].
  destruct (find_in_shape "city" (Py.lower nm) cs _ h found h1 Hcs E1)
    as [[-> ->] | (n & r & d & Hin & Hd & Hs & -> & ->)].
  - rewrite (bind_run _ _ _ _ _
               (getitem_run h self _ "counties" kv Hself eq_refl)) in Hrun.
    rewrite (bind_run _ _ _ _ _ (as_dict_run h kv ks Hkv)) in Hrun.
    destruct (find_in_shape "county" (Py.lower nm) ks _ h v h' Hks Hrun)
      as [Hnone | (n & r & d & Hin & Hd & Hs & -> & ->)].
    + left. exact Hnone.
    + right. exists n, "county", d. repeat split; try assumption.
      exists [("cities", cv); ("counties", kv)], kv, ks, n, r.
      repeat split; try assumption. right. left. reflexivity.
  - unfold ret in Hrun. injection Hrun as <- <-.
    right. exists n, "city", d. repeat split; try assumption.
    exists [("cities", cv); ("counties", kv)], cv, cs, n, r.
    repeat split; try assumption. left. reflexivity.
Qed.

Lemma contact_of_stored h d data :
  decode_stored h d = Some data ->
  exists c contact,
    Dict.get d "contact_info" = Some (VRef c) /\
    nth_error h c = Some (ODict contact).
Proof.
  unfold decode_stored. intro H.
  repeat (apply obind_some in H; destruct H as (? & ? & H)).
  match goal with
  | Hc : required d "contact_info" (decode_contact h) = Some _ |- _ =>
      unfold required in Hc; apply obind_some in Hc;
      destruct Hc as (cv & Hget & Hc);
      unfold decode_contact in Hc; apply obind_some in Hc;
      destruct Hc as (contact & Hat & _)
  end.
  destruct cv as [| | | | c]; try discriminate Hat.
  exists c, contact. split; [exact Hget |].
  cbn [dict_at] in Hat.
  destruct (nth_error h c) as [[d' | l'] |]; try discriminate Hat.
  injection Hat as ->. reflexivity.
Qed.

Lemma shallow_copy_spec h self t nm l h' :
  decode_table h self = Some t ->
  _find_by_name self nm h = (Py.Return (VRef l), h') ->
  exists rd d c contact,
    table_record h self rd /\
    length h <= l /\
    dict_at h' (VRef l) = Some d /\
    (forall k, String.eqb k "name" = false ->
               String.eqb k "category" = false ->
               Dict.get d k = Dict.get rd k) /\
    Dict.get rd "contact_info" = Some (VRef c) /\
    c < length h /\
    nth_error h c = Some (ODict contact) /\
    forall x,
      exists h'',
        (ci <- getitem (VRef l) "contact_info" ;; setitem ci "phone" x) h'
        = (Py.Return tt, h'') /\
        nth_error h'' c = Some (ODict (Dict.set contact "phone" x)).
Proof.
  intros Ht Hrun.
  destruct (find_by_name_shape h self t nm _ h' Ht Hrun)
    as [[Hv _] | (n & cat & rd & Hrec & (data & Hs) & Hv & ->)];
    [discriminate Hv |].
  injection Hv as ->.
  destruct (contact_of_stored h rd data Hs) as (c & contact & Hget & Hc).
  assert (Hlt : c < length h) by (apply nth_error_Some; congruence).
  exists rd, (Dict.set (Dict.set rd "name" (VStr n)) "category" (VStr cat)),
    c, contact.
  split; [exact Hrec |]. split; [lia |].
  split; [apply dict_at_last |].
  split; [intros k Hn Hcat; rewrite !get_set_other by assumption; reflexivity |].
  split; [exact Hget |]. split; [exact Hlt |]. split; [exact Hc |].
  intro x. eexists. split.
  - erewrite bind_run.
    2:{ eapply getitem_run; [apply dict_at_last |].
        rewrite !get_set_other by reflexivity. exact Hget. }
    cbn [setitem]. unfold bind, read.
    rewrite nth_error_app1 by exact Hlt. rewrite Hc.
    unfold write. reflexivity.
  - apply nth_error_put. rewrite length_app. lia.
Qed.

End Shallow.

(** The record [_find_by_name] returns is a new dictionary whose stored
    entries are those of a record of the table, value for value: its
    'contact_info' entry is the address of the contact dictionary of the
    table, so an assignment through the returned record, as in
    [result['contact_info']['phone'] = x], changes the table's own contact
    dictionary. *)
Theorem find_by_name_copy_is_shallow :
  forall h self t nm l h',
    decode_table h self = Some t ->
    Store._find_by_name self nm h = (Py.Return (Store.VRef l), h') ->
    exists rd d c contact,
      table_record h self rd /\
      length h <= l /\
      dict_at h' (Store.VRef l) = Some d /\
      (forall k, String.eqb k "name" = false ->
                 String.eqb k "category" = false ->
                 Dict.get d k = Dict.get rd k) /\
      Dict.get rd "contact_info" = Some (Store.VRef c) /\
      c < length h /\
      nth_error h c = Some (Store.ODict contact) /\
      forall x,
        exists h'',
          Store.bind (Store.getitem (Store.VRef l) "contact_info")
            (fun ci => Store.setitem ci "phone" x) h'
          = (Py.Return tt, h'') /\
          nth_error h'' c = Some (Store.ODict (Dict.set contact "phone" x)).
Proof. exact shallow_copy_spec. Qed.

Lemma find_by_name_copy_is_shallow_witness :
  decode_table loaded loaded_self = Some the_table /\
  exists l h' c contact,
    Store._find_by_name loaded_self "Red Deer" loaded
      = (Py.Return (Store.VRef l), h') /\
    c < length loaded /\
    nth_error loaded c = Some (Store.ODict contact) /\
    exists h'',
      Store.bind (Store.getitem (Store.VRef l) "contact_info")
        (fun ci => Store.setitem ci "phone" (Store.VStr "000")) h'
      = (Py.Return tt, h'') /\
      nth_error h'' c
        = Some (Store.ODict (Dict.set contact "phone" (Store.VStr "000"))).
Proof.
  assert (Ht : decode_table loaded loaded_self = Some the_table)
    by (vm_compute; reflexivity).
  split; [exact Ht |].
  destruct (Store._find_by_name loaded_self "Red Deer" loaded)
    as [[[| | | | l] | e] h'] eqn:E;
    try (vm_compute in E; discriminate E).
  destruct (find_by_name_copy_is_shallow loaded loaded_self the_table
              "Red Deer" l h' Ht E)
    as (rd & d & c & contact & _ & _ & _ & _ & _ & Hlt & Hc & Hw).
  exists l, h', c, contact.
  split; [reflexivity |]. split; [exact Hlt |]. split; [exact Hc |].
  exact (Hw (Store.VStr "000")).
Defined.

(* ------------------------------------------------------------------ *)
(** ** The parser: what the gate and the acreage conversion amount to *)

(** [parse_property_info] returns [None] exactly when the address, the
    legal description and the additional information are all empty: the
    raw-input test of [_is_valid_property_info] decides alone, whatever the
    geocoder answers. *)
Theorem parse_property_info_none_only_on_empty_input :
  forall geo address legal_description additional_info,
    PropertyParser.parse_property_info geo address legal_description
      additional_info = None <->
    address = "" /\ legal_description = "" /\ additional_info = "".
Proof. exact parse_property_info_none_iff_empty. Qed.

(** For additional information of ASCII characters, the conversion
    [float(acreage_match.group(1))] of [_extract_property_details] never
    raises: whenever the acreage pattern matches, the captured numeral is
    accepted by [float] and its value is the acreage of the details; when it
    does not match, the details have no acreage. *)
Theorem acreage_conversion_never_fails :
  forall additional_info,
    Py.isascii additional_info = true ->
    match Re.search PropertyParser.acreage_re additional_info with
    | Some m =>
        exists x,
          F64.of_decimal (Re.group m 1) = Some x /\
          PropertyParser.acreage
            (PropertyParser._extract_property_details additional_info) = Some x
    | None =>
        PropertyParser.acreage
          (PropertyParser._extract_property_details additional_info) = None
    end.
Proof.
  intros info _. unfold PropertyParser._extract_property_details.
  cbn [PropertyParser.acreage].
  destruct (Re.search PropertyParser.acreage_re info) as [m |] eqn:E;
    [| reflexivity].
  destruct (acreage_numeral_decimal info m E) as (x & Hx & Hf).
  exists x. split; [exact Hx |]. rewrite Hf. reflexivity.
Qed.

Lemma acreage_conversion_never_fails_witness :
  exists x,
    PropertyParser.acreage
      (PropertyParser._extract_property_details "14.55 acres of land")
      = Some x /\
    F64.of_decimal "14.55" = Some x.
Proof.
  pose proof (acreage_conversion_never_fails "14.55 acres of land" eq_refl)
    as H.
  revert H.
  destruct (Re.search PropertyParser.acreage_re "14.55 acres of land")
    as [m |] eqn:E; [| vm_compute in E; discriminate E].
  intros (x & Hx & Ha). exists x. split; [exact Ha |].
  vm_compute in E. injection E as <-. exact Hx.
Defined.

(* ------------------------------------------------------------------ *)
(** ** The resolver returns copies of the stored records *)

(** A record of the table [t]: stored under its name in one of the two
    categories. *)
Definition copy_of_stored (t : MunicipalityLookup.table)
    (r : MunicipalityLookup.municipality) : Prop :=
  In (MunicipalityLookup.name r, MunicipalityLookup.stored r)
     (MunicipalityLookup.cities t ++ MunicipalityLookup.counties t).

(** The address of an object allocated after the store [h] was taken. *)
Definition fresh (h : Store.heap) (v : Store.value) : Prop :=
  exists l, v = Store.VRef l /\ length h <= l.

(** The records read at the addresses of a list. *)
Fixpoint decode_results (h : Store.heap) (vs : list Store.value)
  : option (list MunicipalityLookup.municipality) :=
  match vs with
  | [] => Some []
  | v :: vs' =>
      match decode_result h v with
      | Some (Some r) => option_map (cons r) (decode_results h vs')
      | _ => None
      end
  end.

(** The outcome [run] of an operation called in the store [h], where the
    table reads as [t]: the operation returns, [None] or the address of an
    object it allocated; every object of [h] is still in place; and the
    object returned reads as the record [o], a record of [t] with the keys
    the operation adds. *)
Definition returns_copy (h : Store.heap) (t : MunicipalityLookup.table)
    (run : Py.outcome Store.value * Store.heap)
    (o : option MunicipalityLookup.municipality) : Prop :=
  exists v ext,
    run = (Py.Return v, h ++ ext) /\
    new_in h v /\
    decode_result (h ++ ext) v = Some o /\
    forall r, o = Some r -> copy_of_stored t r.

(** The same for an operation that returns a list: the list is a new
    object, and each of its elements is the address of an object allocated
    by the call that reads as the record at its place in [rs]. *)
Definition returns_copies (h : Store.heap) (t : MunicipalityLookup.table)
    (run : Py.outcome Store.value * Store.heap)
    (rs : list MunicipalityLookup.municipality) : Prop :=
  exists l ext vs,
    run = (Py.Return (Store.VRef l), h ++ ext) /\
    length h <= l /\
    nth_error (h ++ ext) l = Some (Store.OList vs) /\
    Forall (fresh h) vs /\
    decode_results (h ++ ext) vs = Some rs /\
    Forall (copy_of_stored t) rs.

Section Copies.

Import Store.

(** The loop of [_find_by_name] makes at most one copy, of the entry the
    loop on the records finds. *)
Lemma find_in_copy cat name_lower :
  forall vs es h,
    decode_entries h vs = Some es ->
    (MunicipalityLookup.find_in es cat name_lower = None /\
     find_in vs cat name_lower h = (Py.Return VNone, h)) \/
    (exists n rd data,
        decode_stored h rd = Some data /\
        only_stored_keys rd = true /\
        MunicipalityLookup.find_in es cat name_lower
          = Some (MunicipalityLookup.named_copy data n cat) /\
        find_in vs cat name_lower h
          = (Py.Return (VRef (length h)),
             h ++ [ODict (Dict.set (Dict.set rd "name" (VStr n))
                            "category" (VStr cat))])).
Proof.
  induction vs as [| [n v] vs IH]; intros es h H; cbn [decode_entries] in H.
  - injection H as <-. left. split; reflexivity.
  - apply obind_some in H. destruct H as (data & Hrec & H).
    apply obind_some in H. destruct H as (rest & Hrest & H).
    injection H as <-.
    cbn [find_in MunicipalityLookup.find_in].
    destruct (MunicipalityLookup.name_matches n name_lower).
    + destruct (record_parts h v data Hrec) as (d & Hd & Hk & Hs).
      right. exists n, d, data.
      split; [exact Hs |]. split; [exact Hk |]. split; [reflexivity |].
      apply named_copy_run. exact Hd.
    + apply IH. exact Hrest.
Qed.

Lemma find_by_name_copy h self t nm :
  decode_table h self = Some t ->
  (MunicipalityLookup._find_by_name t nm = None /\
   _find_by_name self nm h = (Py.Return VNone, h)) \/
  (exists n cat rd data,
      decode_stored h rd = Some data /\
      only_stored_keys rd = true /\
      MunicipalityLookup._find_by_name t nm
        = Some (MunicipalityLookup.named_copy data n cat) /\
      _find_by_name self nm h
        = (Py.Return (VRef (length h)),
           h ++ [ODict (Dict.set (Dict.set rd "name" (VStr n))
                          "category" (VStr cat))])).
Proof.
  intro Ht.
  destruct (table_parts h self t Ht)
    as (cv & kv & cs & ks & Hself & Hcv & Hkv & Hcs & Hks).
  unfold _find_by_name, MunicipalityLookup._find_by_name, dict_items.
  rewrite (bind_run _ _ _ _ _ (getitem_run h self _ "cities" cv Hself eq_refl)).
  rewrite (bind_run _ _ _ _ _ (as_dict_run h cv cs Hcv)).
  destruct (find_in_copy "city" (Py.lower nm) cs _ h Hcs)
    as [[Hnone Hrun] | (n & rd & data & Hs & Hk & Hsome & Hrun)].
  - rewrite (bind_run _ _ _ _ _ Hrun), Hnone.
    rewrite (bind_run _ _ _ _ _ (getitem_run h self _ "counties" kv Hself eq_refl)).
    rewrite (bind_run _ _ _ _ _ (as_dict_run h kv ks Hkv)).
    destruct (find_in_copy "county" (Py.lower nm) ks _ h Hks)
      as [[Hnone' Hrun'] | (n & rd & data & Hs & Hk & Hsome & Hrun')].
    + left. split; assumption.
    + right. exists n, "county", rd, data. repeat split; assumption.
  - rewrite (bind_run _ _ _ _ _ Hrun), Hsome.
    right. exists n, "city", rd, data. repeat split; try assumption.
Qed.

Lemma nth_error_at {A} (l : list A) x rest :
  nth_error (l ++ x :: rest) (length l) = Some x.
Proof. rewrite nth_error_app2, Nat.sub_diag by lia. reflexivity. Qed.

Lemma nth_error_after {A} (l : list A) rest k :
  nth_error (l ++ rest) (length l + k) = nth_error rest k.
Proof.
  rewrite nth_error_app2 by lia.
  replace (length l + k - length l) with k by lia. reflexivity.
Qed.

Lemma put_at h o rest o' :
  put (h ++ o :: rest) (length h) o' = h ++ o' :: rest.
Proof. rewrite put_beyond, Nat.sub_diag by lia. reflexivity. Qed.

(** An item assignment on the first object allocated after [h]. *)
Lemma setitem_at h d rest k x :
  setitem (VRef (length h)) k x (h ++ ODict d :: rest)
  = (Py.Return tt, h ++ ODict (Dict.set d k x) :: rest).
Proof.
  cbn [setitem]. unfold bind, read. rewrite nth_error_at.
  unfold write. rewrite put_at. reflexivity.
Qed.

Definition the_services : list value :=
  [VStr "Land Use Bylaw Information"; VStr "Zoning Maps";
   VStr "Development Permits"; VStr "Subdivision Applications";
   VStr "Planning Consultation"].

Definition the_times : Dict.t value :=
  [("development_permit", VStr "4-6 weeks");
   ("subdivision", VStr "3-6 months");
   ("rezoning", VStr "6-12 months")].

(** The statements of [get_municipality_details] after the lookup. *)
Lemma add_details_run h d :
  (services <- alloc (OList the_services) ;;
   setitem (VRef (length h)) "supported_services" services ;;;
   times <- alloc (ODict the_times) ;;
   setitem (VRef (length h)) "typical_processing_times" times ;;;
   ret (VRef (length h))) (h ++ [ODict d])
  = (Py.Return (VRef (length h)),
     h ++ [ODict (Dict.set (Dict.set d "supported_services"
                              (VRef (length h + 1)))
                    "typical_processing_times" (VRef (length h + 2)));
           OList the_services; ODict the_times]).
Proof.
  unfold bind at 1. unfold alloc at 1.
  rewrite <- app_assoc. cbn [app].
  rewrite (bind_run _ _ _ _ _ (setitem_at h d _ _ _)).
  unfold bind at 1. unfold alloc at 1.
  rewrite <- app_assoc. cbn [app].
  rewrite (bind_run _ _ _ _ _ (setitem_at h _ _ _ _)).
  unfold ret. rewrite !length_app. cbn [length].
  replace (length h + 1 + 1) with (length h + 2) by lia.
  reflexivity.
Qed.

Lemma add_details_decodes h d data n cat :
  only_stored_keys d = true ->
  decode_stored h d = Some data ->
  decode_result
    (h ++ [ODict (Dict.set
                    (Dict.set
                       (Dict.set (Dict.set d "name" (VStr n))
                          "category" (VStr cat))
                       "supported_services" (VRef (length h + 1)))
                    "typical_processing_times" (VRef (length h + 2)));
           OList the_services; ODict the_times])
    (VRef (length h))
  = Some (Some
      {| MunicipalityLookup.stored := data;
         MunicipalityLookup.name := n;
         MunicipalityLookup.category := cat;
         MunicipalityLookup.distance_km := None;
         MunicipalityLookup.supported_services :=
           Some ["Land Use Bylaw Information"; "Zoning Maps";
                 "Development Permits"; "Subdivision Applications";
                 "Planning Consultation"];
         MunicipalityLookup.typical_processing_times :=
           Some [("development_permit", "4-6 weeks");
                 ("subdivision", "3-6 months");
                 ("rezoning", "6-12 months")] |}).
Proof.
  intros Hk Hs. unfold decode_result. cbn [dict_at].
  rewrite nth_error_at. cbn [obind].
  rewrite !decode_stored_set by reflexivity.
  rewrite (decode_stored_ext _ _ _ _ Hs). cbn [obind].
  unfold required, optional.
  repeat first [ rewrite get_set_same
               | rewrite get_set_other by reflexivity ].
  rewrite !(get_absent d) by (assumption || reflexivity).
  cbn [obind str_value option_map].
  unfold decode_str_dict. cbn [decode_str_list dict_at].
  rewrite (nth_error_after h _ 1), (nth_error_after h _ 2).
  reflexivity.
Qed.

Lemma refines_get_municipality_details self t nm :
  refines self t (get_municipality_details self nm)
    (MunicipalityLookup.get_municipality_details t nm).
Proof.
  intros h Ht.
  unfold get_municipality_details, MunicipalityLookup.get_municipality_details.
  destruct (find_by_name_copy h self t nm Ht)
    as [[Hnone Hrun] | (n & cat & rd & data & Hs & Hk & Hsome & Hrun)].
  - rewrite (bind_run _ _ _ _ _ Hrun), Hnone.
    exists VNone, []. rewrite app_nil_r. split; reflexivity.
  - rewrite (bind_run _ _ _ _ _ Hrun), Hsome.
    eexists _, _. split.
    + apply add_details_run.
    + apply add_details_decodes; assumption.
Qed.

End Copies.

Section CopiesOfAll.

Import Store.

(** The store the operation is called in. *)
Variable h0 : heap.

(** The pair the loops of [get_supported_municipalities] add for one
    entry: the name, and the address of a new object that reads as [m]. *)
Definition copied (h : heap) (pr : string * value)
    (m : MunicipalityLookup.municipality) : Prop :=
  fst pr = MunicipalityLookup.name m /\
  fresh h0 (snd pr) /\
  decode_result h (snd pr) = Some (Some m).

Lemma copied_ext h ext ps ms :
  Forall2 (copied h) ps ms -> Forall2 (copied (h ++ ext)) ps ms.
Proof.
  induction 1 as [| pr m ps ms (Hn & Hf & Hd) _ IH]; constructor;
    [| exact IH].
  split; [exact Hn |]. split; [exact Hf |].
  apply decode_result_ext. exact Hd.
Qed.

Lemma copy_entry_run h v d cat acc n :
  dict_at h v = Some d ->
  copy_entry cat acc (n, v) h
  = (Py.Return (acc ++ [(n, VRef (length h))]),
     h ++ [ODict (Dict.set (Dict.set d "name" (VStr n))
                    "category" (VStr (Py.rstrip_s cat)))]).
Proof.
  intro Hd. unfold copy_entry. cbn [fst snd].
  rewrite (bind_run _ _ _ _ _ (dict_copy_run h v d Hd)).
  rewrite (bind_run _ _ _ _ _ (setitem_last h d _ _)).
  rewrite (bind_run _ _ _ _ _ (setitem_last h _ _ _)).
  reflexivity.
Qed.

(** The inner loop: one copy for each entry, in the order of the
    entries. *)
Lemma copy_entries_run cat :
  forall vs es ext acc,
    decode_entries h0 vs = Some es ->
    exists ext' ps,
      for_each (copy_entry cat) vs acc (h0 ++ ext)
        = (Py.Return (acc ++ ps), h0 ++ ext ++ ext') /\
      Forall2 (copied (h0 ++ ext ++ ext')) ps
        (map (fun entry =>
                MunicipalityLookup.named_copy (snd entry) (fst entry)
                  (Py.rstrip_s cat)) es).
Proof.
  induction vs as [| [n v] vs IH]; intros es ext acc H;
    cbn [decode_entries] in H.
  - injection H as <-. exists [], []. rewrite !app_nil_r.
    split; [reflexivity | constructor].
  - apply obind_some in H. destruct H as (data & Hrec & H).
    apply obind_some in H. destruct H as (rest & Hrest & H).
    injection H as <-.
    destruct (record_parts h0 v data Hrec) as (d & Hd & Hk & Hs).
    cbn [for_each].
    rewrite (bind_run _ _ _ _ _
               (copy_entry_run (h0 ++ ext) v d cat acc n
                  (dict_at_ext h0 ext v d Hd))).
    rewrite <- app_assoc.
    destruct (IH rest (ext ++ [ODict (Dict.set (Dict.set d "name" (VStr n))
                                        "category" (VStr (Py.rstrip_s cat)))])
                (acc ++ [(n, VRef (length (h0 ++ ext)))]) Hrest)
      as (ext' & ps & Hrun & Hps).
    exists ([ODict (Dict.set (Dict.set d "name" (VStr n))
                      "category" (VStr (Py.rstrip_s cat)))] ++ ext'),
      ((n, VRef (length (h0 ++ ext))) :: ps).
    repeat rewrite <- app_assoc in Hrun. repeat rewrite <- app_assoc in Hps.
    cbn [app] in Hrun, Hps.
    split; [exact Hrun |].
    cbn [map fst snd app]. constructor; [| exact Hps].
    split; [reflexivity |]. split.
    + exists (length (h0 ++ ext)). split; [reflexivity |].
      rewrite length_app. lia.
    + cbn [snd].
      pose proof (named_copy_decodes (h0 ++ ext) d data n (Py.rstrip_s cat) Hk
                    (decode_stored_ext h0 ext d data Hs)) as Hdec.
      apply (decode_result_ext _ ext') in Hdec.
      repeat rewrite <- app_assoc in Hdec. cbn [app] in Hdec. exact Hdec.
Qed.

Lemma insert_copied h x m l l' :
  copied h x m -> Forall2 (copied h) l l' ->
  Forall2 (copied h) (insert_by_key x l)
    (MunicipalityLookup.insert_by_name m l').
Proof.
  intros Hx Hl. induction Hl as [| y y' l l' Hy Hl IH];
    cbn [insert_by_key MunicipalityLookup.insert_by_name].
  - constructor; [exact Hx | constructor].
  - destruct Hx as (Hxn & Hx'). destruct Hy as (Hyn & Hy').
    rewrite Hxn, Hyn.
    destruct (String.ltb (MunicipalityLookup.name y')
                (MunicipalityLookup.name m)).
    + constructor; [split; assumption | exact IH].
    + constructor; [split; assumption |].
      constructor; [split; assumption | exact Hl].
Qed.

Lemma sorted_copied h ps ms :
  Forall2 (copied h) ps ms ->
  Forall2 (copied h) (fold_right insert_by_key [] ps)
    (MunicipalityLookup.sorted_by_name ms).
Proof.
  unfold MunicipalityLookup.sorted_by_name.
  induction 1 as [| x m ps ms Hx _ IH]; cbn [fold_right]; [constructor |].
  apply insert_copied; assumption.
Qed.

Lemma copied_results h ps ms :
  Forall2 (copied h) ps ms ->
  Forall (fresh h0) (map snd ps) /\
  decode_results h (map snd ps) = Some ms.
Proof.
  induction 1 as [| pr m ps ms (_ & Hf & Hd) _ [IHf IHd]];
    cbn [map decode_results].
  - split; [constructor | reflexivity].
  - split; [constructor; assumption |].
    rewrite Hd, IHd. reflexivity.
Qed.

Lemma copy_category_run cat cval vs es ext acc :
  dict_at h0 cval = Some vs ->
  decode_entries h0 vs = Some es ->
  exists ext' ps,
    copy_category acc (cat, cval) (h0 ++ ext)
      = (Py.Return (acc ++ ps), h0 ++ ext ++ ext') /\
    Forall2 (copied (h0 ++ ext ++ ext')) ps
      (map (fun entry =>
              MunicipalityLookup.named_copy (snd entry) (fst entry)
                (Py.rstrip_s cat)) es).
Proof.
  intros Hc Hes. unfold copy_category, dict_items. cbn [fst snd].
  rewrite (bind_run _ _ _ _ _
             (as_dict_run _ cval vs (dict_at_ext h0 ext cval vs Hc))).
  apply copy_entries_run. exact Hes.
Qed.

(** [get_supported_municipalities] in the store and on the records. *)
Lemma supported_copies self t :
  decode_table h0 self = Some t ->
  exists ext vs,
    get_supported_municipalities self h0
      = (Py.Return (VRef (length (h0 ++ ext))), h0 ++ ext ++ [OList vs]) /\
    Forall (fresh h0) vs /\
    decode_results (h0 ++ ext ++ [OList vs]) vs
      = Some (MunicipalityLookup.get_supported_municipalities t).
Proof.
  intro Ht.
  destruct (table_parts h0 self t Ht)
    as (cv & kv & cs & ks & Hself & Hcv & Hkv & Hcs & Hks).
  unfold get_supported_municipalities, dict_items.
  rewrite (bind_run _ _ _ _ _ (as_dict_run h0 self _ Hself)).
  cbn [for_each]. rewrite !bind_assoc.
  destruct (copy_category_run "cities" cv cs _ [] [] Hcv Hcs)
    as (ext1 & ps1 & Hrun1 & Hps1).
  rewrite app_nil_r in Hrun1. cbn [app] in Hrun1, Hps1.
  rewrite (bind_run _ _ _ _ _ Hrun1). rewrite !bind_assoc.
  destruct (copy_category_run "counties" kv ks _ ext1 ps1 Hkv Hks)
    as (ext2 & ps2 & Hrun2 & Hps2).
  rewrite (bind_run _ _ _ _ _ Hrun2).
  unfold ret at 1.
  apply (copied_ext _ ext2) in Hps1. rewrite <- app_assoc in Hps1.
  pose proof (Forall2_app Hps1 Hps2) as Hall.
  apply sorted_copied in Hall.
  apply (copied_ext _ [OList (map snd (fold_right insert_by_key [] (ps1 ++ ps2)))])
    in Hall.
  destruct (copied_results _ _ _ Hall) as [Hfresh Hdec].
  exists (ext1 ++ ext2), (map snd (fold_right insert_by_key [] (ps1 ++ ps2))).
  split; [| split; [exact Hfresh |]].
  - unfold bind, alloc. repeat rewrite <- app_assoc. reflexivity.
  - repeat rewrite <- app_assoc in Hdec. repeat rewrite <- app_assoc.
    rewrite Hdec.
    unfold MunicipalityLookup.get_supported_municipalities,
      MunicipalityLookup.items.
    cbn [flat_map fst snd]. rewrite app_nil_r. reflexivity.
Qed.

End CopiesOfAll.

Section CopiesTheorem.

Import Store.

Lemma found_is_copy t m :
  found_by_name t m \/ found_by_coordinates t m -> copy_of_stored t m.
Proof.
  unfold copy_of_stored.
  intros [[[[Hin _] | [Hin _]] _] | [[[Hin _] | [Hin _]] _]];
    apply in_or_app; auto.
Qed.

(** An operation that leaves the store it is called in, returns only new
    addresses and computes what the operation on the records computes. *)
Lemma refines_returns_copy h self t m o :
  decode_table h self = Some t ->
  refines self t m o ->
  keeps h m (new_in h) ->
  (forall r, o = Some r -> copy_of_stored t r) ->
  returns_copy h t (m h) o.
Proof.
  intros Ht Hm Hkeeps Hcopy.
  destruct (Hm h Ht) as (v & ext & Hrun & Hdec).
  exists v, ext. split; [exact Hrun |]. split; [| split; assumption].
  destruct (keeps_untouched h m _ Hkeeps) as (_ & _ & Hnew).
  apply Hnew. rewrite Hrun. reflexivity.
Qed.

Lemma details_is_copy t nm r :
  MunicipalityLookup.get_municipality_details t nm = Some r ->
  copy_of_stored t r.
Proof.
  unfold MunicipalityLookup.get_municipality_details.
  destruct (MunicipalityLookup._find_by_name t nm) as [m |] eqn:E;
    [| discriminate].
  intro H. injection H as <-.
  apply (found_is_copy t m). left. apply (find_by_name_found t nm m E).
Qed.

Lemma supported_are_copies t :
  Forall (copy_of_stored t) (MunicipalityLookup.get_supported_municipalities t).
Proof.
  destruct (supported_spec t) as (_ & _ & _ & H).
  revert H. apply Forall_impl.
  unfold copy_of_stored. intros m [[Hin _] | [Hin _]]; apply in_or_app; auto.
Qed.

Lemma resolver_copies dist h self t :
  decode_table h self = Some t ->
  (forall p,
      returns_copy h t (find_municipality dist self p h)
        (MunicipalityLookup.find_municipality dist t p)) /\
  (forall nm,
      returns_copy h t (_find_by_name self nm h)
        (MunicipalityLookup._find_by_name t nm)) /\
  (forall lat lon,
      returns_copy h t (_find_by_coordinates dist self lat lon h)
        (MunicipalityLookup._find_by_coordinates dist t lat lon)) /\
  returns_copies h t (get_supported_municipalities self h)
    (MunicipalityLookup.get_supported_municipalities t) /\
  (forall nm,
      returns_copy h t (get_municipality_details self nm h)
        (MunicipalityLookup.get_municipality_details t nm)).
Proof.
  intro Ht. split; [| split; [| split; [| split]]].
  - intro p. apply (refines_returns_copy h self); try assumption.
    + apply refines_find_municipality.
    + apply keeps_find_municipality.
    + intros r Hr. apply found_is_copy.
      apply (find_municipality_found dist t p r Hr).
  - intro nm. apply (refines_returns_copy h self); try assumption.
    + apply refines_find_by_name.
    + apply keeps_find_by_name.
    + intros r Hr. apply found_is_copy. left.
      apply (find_by_name_found t nm r Hr).
  - intros lat lon. apply (refines_returns_copy h self); try assumption.
    + apply refines_find_by_coordinates.
    + apply keeps_find_by_coordinates.
    + intros r Hr. apply found_is_copy. right.
      apply (find_by_coordinates_found dist t lat lon r Hr).
  - destruct (supported_copies h self t Ht) as (ext & vs & Hrun & Hfresh & Hdec).
    exists (length (h ++ ext)), (ext ++ [OList vs]), vs.
    split; [exact Hrun |]. split; [rewrite length_app; lia |].
    split; [rewrite app_assoc; apply nth_error_last |].
    split; [exact Hfresh |]. split; [exact Hdec |].
    apply supported_are_copies.
  - intro nm. apply (refines_returns_copy h self); try assumption.
    + apply refines_get_municipality_details.
    + apply keeps_get_municipality_details.
    + intros r Hr. apply (details_is_copy t nm r Hr).
Qed.

End CopiesTheorem.

(** C9.  Called in any store [h] with any table address [self], each
    resolver operation leaves a store that extends [h]: every object of [h],
    hence every dictionary of [municipalities_data], nested ones included,
    is found unchanged at its address afterwards, also when the operation
    raises; and what it returns is [None] or the address of an object
    allocated by the call, never the address of a stored record.  When
    [self] holds a table [t], each operation returns, and the object it
    returns is a copy of a stored record: it reads as the record the
    operation on [t] computes, which has the entries of the record stored
    in [t] under its name, and the keys the operation adds.  The list of
    [get_supported_municipalities] is a new object, and each of its
    elements is such a copy at an address of its own, none the address of a
    stored record. *)
Theorem resolver_leaves_table_unchanged :
  forall dist (h : Store.heap) (self : Store.value),
    ((forall p, untouched h (Store.find_municipality dist self p) (new_in h)) /\
     (forall nm, untouched h (Store._find_by_name self nm) (new_in h)) /\
     (forall lat lon,
         untouched h (Store._find_by_coordinates dist self lat lon) (new_in h)) /\
     untouched h (Store.get_supported_municipalities self) (new_in h) /\
     (forall nm,
         untouched h (Store.get_municipality_details self nm) (new_in h))) /\
    (forall t,
        decode_table h self = Some t ->
        (forall p,
            returns_copy h t (Store.find_municipality dist self p h)
              (MunicipalityLookup.find_municipality dist t p)) /\
        (forall nm,
            returns_copy h t (Store._find_by_name self nm h)
              (MunicipalityLookup._find_by_name t nm)) /\
        (forall lat lon,
            returns_copy h t (Store._find_by_coordinates dist self lat lon h)
              (MunicipalityLookup._find_by_coordinates dist t lat lon)) /\
        returns_copies h t (Store.get_supported_municipalities self h)
          (MunicipalityLookup.get_supported_municipalities t) /\
        (forall nm,
            returns_copy h t (Store.get_municipality_details self nm h)
              (MunicipalityLookup.get_municipality_details t nm))).
Proof.
  intros dist h self. split.
  - split; [| split; [| split; [| split]]]; intros; apply keeps_untouched.
    + apply keeps_find_municipality.
    + apply keeps_find_by_name.
    + apply keeps_find_by_coordinates.
    + apply keeps_get_supported_municipalities.
    + apply keeps_get_municipality_details.
  - intros t Ht. apply resolver_copies. exact Ht.
Qed.

Lemma resolver_leaves_table_unchanged_witness :
  decode_table loaded loaded_self = Some the_table /\
  returns_copy loaded the_table
    (Store._find_by_name loaded_self "Red Deer" loaded)
    (MunicipalityLookup._find_by_name the_table "Red Deer") /\
  returns_copies loaded the_table
    (Store.get_supported_municipalities loaded_self loaded)
    (MunicipalityLookup.get_supported_municipalities the_table).
Proof.
  assert (Ht : decode_table loaded loaded_self = Some the_table)
    by (vm_compute; reflexivity).
  split; [exact Ht |].
  destruct (resolver_leaves_table_unchanged on_the_spot loaded loaded_self)
    as [_ Hcopies].
  destruct (Hcopies the_table Ht) as (_ & Hname & _ & Hall & _).
  split; [apply Hname | exact Hall].
Defined.
